(** * png.py: the PNG chunk container, embedded and verified

    A shallow embedding of [src/png.py] (classes [Chunk] and [PNG]) together
    with the few Python built-ins the file relies on: slicing of [bytes],
    [int.to_bytes], [int.from_bytes], [bytes.decode('utf-8')] and
    [binascii.crc32].

    Conventions.
    - A Python [bytes] value is a [list byte]; a Python [int] is a [Z].
    - A call that may raise returns a [result]; the exception is the value of
      the [Raise] branch.  An exception leaving [PNG.__init__] means that the
      caller gets no object at all, which is what [Raise] says.
    - Methods that assign to attributes take the object and return the new
      one.  Every [Chunk] in [self.chunks] is an object of its own
      ([__split_chunks__] allocates one per record, line 111, and no method
      stores a chunk twice), so the list of chunk values is the whole state.
    - [print] calls (the verbose mode) write to stdout only and are left out. *)

From Stdlib Require Import ZArith List Lia Bool.
From Stdlib Require Import Strings.Byte Strings.String.
From stdpp Require Import base list.
From Equations Require Import Equations.

Open Scope Z_scope.

Abbreviation bytes := (list byte).

#[global] Instance byte_eq_decision : EqDecision byte := byte_eq_dec.

(** ** Exceptions and the error monad *)

(** The text of the exceptions raised by png.py itself, by template; the
    formatted chunk type is kept as the raw tag. *)
Inductive message : Type :=
| NoHeaderFooter                       (* 'Valid PNG header and/or footer not found' *)
| UnknownChunkType (chunk_type : bytes) (* 'Unknown chunk type "{}" of size {}B found at offset {}' *)
| AlreadyExists (chunk_type : bytes)    (* 'Chunk of type {} already exists' *)
| NoChunkDetected (chunk_type : bytes)  (* 'No {} chunk detected in PNG' *)
| GrayscaleUnsupported.                (* 'Grayscale images currently unsupported' *)

Inductive exn : Type :=
| Exception (m : message)
| RuntimeWarning (m : message)
| RuntimeError (m : message)
| AttributeError
| UnicodeDecodeError
| IndexError
| OverflowError
| ValueError.

Inductive result (A : Type) : Type :=
| Ok (a : A)
| Raise (e : exn).
Arguments Ok {A} a.
Arguments Raise {A} e.

#[global] Instance result_ret : MRet result := fun A a => Ok a.
#[global] Instance result_bind : MBind result :=
  fun A B f m => match m with Ok a => f a | Raise e => Raise e end.

(** ** Python built-ins *)

Module Py.

Definition len {A} (l : list A) : Z := Z.of_nat (length l).

(** Where a slice bound [i] falls in a sequence of length [n]: a negative
    bound counts from the end, and every bound is clamped to [0..n]. *)
Definition bound (n i : Z) : Z :=
  if i <? 0 then Z.max 0 (i + n) else Z.min i n.

(** [l[start:stop]]; an omitted bound is [None]. *)
Definition slice {A} (l : list A) (start stop : option Z) : list A :=
  let n := len l in
  let lo := match start with Some i => bound n i | None => 0 end in
  let hi := match stop with Some j => bound n j | None => n end in
  take (Z.to_nat (hi - lo)) (drop (Z.to_nat lo) l).

(** The position an index [i] denotes in a sequence of length [n]: a negative
    index counts from the end; out of range is [IndexError]. *)
Definition position (n i : Z) : result nat :=
  let k := if i <? 0 then i + n else i in
  if (0 <=? k) && (k <? n) then Ok (Z.to_nat k) else Raise IndexError.

(** [l[i]] *)
Definition getitem {A} (l : list A) (i : Z) : result A :=
  k ← position (len l) i;
  match l !! k with
  | Some a => Ok a
  | None => Raise IndexError
  end.

(** [l[i] = v] *)
Definition setitem {A} (l : list A) (i : Z) (v : A) : result (list A) :=
  k ← position (len l) i;
  Ok (<[k := v]> l).

Definition byte_to_Z (b : byte) : Z := Z.of_N (Byte.to_N b).

Definition byte_of_Z (z : Z) : byte :=
  match Byte.of_N (Z.to_N (z mod 256)) with
  | Some b => b
  | None => x00
  end.

(** [int.from_bytes(bs, byteorder='big')] *)
Definition from_bytes (bs : bytes) : Z :=
  fold_left (fun acc b => acc * 256 + byte_to_Z b) bs 0.

(** The [k] low base-256 digits of [n], most significant first. *)
Fixpoint be_digits (k : nat) (n : Z) : bytes :=
  match k with
  | O => []
  | S k' => be_digits k' (n / 256) ++ [byte_of_Z (n mod 256)]
  end.

(** [n.to_bytes(length, byteorder='big')] *)
Definition to_bytes (n length : Z) : result bytes :=
  if length <? 0 then Raise ValueError
  else if n <? 0 then Raise OverflowError
  else if 256 ^ length <=? n then Raise OverflowError
  else Ok (be_digits (Z.to_nat length) n).

Definition is_cont (b : byte) : bool :=
  (0x80 <=? byte_to_Z b) && (byte_to_Z b <=? 0xBF).

Definition in_range (lo hi : Z) (b : byte) : bool :=
  (lo <=? byte_to_Z b) && (byte_to_Z b <=? hi).

Definition low6 (b : byte) : Z := byte_to_Z b - 0x80.

(** [bs.decode('utf-8')], strict: the code points of [bs], or
    [UnicodeDecodeError] when [bs] is not well-formed UTF-8 (a stray
    continuation byte, a truncated or overlong sequence, a surrogate or a
    value above U+10FFFF). *)
Fixpoint decode_utf8 (bs : bytes) : result (list Z) :=
  match bs with
  | [] => Ok []
  | b0 :: t0 =>
    if byte_to_Z b0 <? 0x80 then
      cps ← decode_utf8 t0; Ok (byte_to_Z b0 :: cps)
    else match t0 with
    | [] => Raise UnicodeDecodeError
    | b1 :: t1 =>
      if in_range 0xC2 0xDF b0 && is_cont b1 then
        cps ← decode_utf8 t1;
        Ok (((byte_to_Z b0 - 0xC0) * 64 + low6 b1) :: cps)
      else match t1 with
      | [] => Raise UnicodeDecodeError
      | b2 :: t2 =>
        if (in_range 0xE0 0xE0 b0 && in_range 0xA0 0xBF b1
            || (in_range 0xE1 0xEC b0 || in_range 0xEE 0xEF b0) && is_cont b1
            || in_range 0xED 0xED b0 && in_range 0x80 0x9F b1)
           && is_cont b2 then
          cps ← decode_utf8 t2;
          Ok ((((byte_to_Z b0 - 0xE0) * 64 + low6 b1) * 64 + low6 b2) :: cps)
        else match t2 with
        | [] => Raise UnicodeDecodeError
        | b3 :: t3 =>
          if (in_range 0xF0 0xF0 b0 && in_range 0x90 0xBF b1
              || in_range 0xF1 0xF3 b0 && is_cont b1
              || in_range 0xF4 0xF4 b0 && in_range 0x80 0x8F b1)
             && is_cont b2 && is_cont b3 then
            cps ← decode_utf8 t3;
            Ok (((((byte_to_Z b0 - 0xF0) * 64 + low6 b1) * 64 + low6 b2) * 64
                 + low6 b3) :: cps)
          else Raise UnicodeDecodeError
        end
      end
    end
  end.

(** [a == b] on bytes *)
Definition bytes_eqb (a b : bytes) : bool := bool_decide (a = b).

(** [x in t] for a tuple of bytes *)
Definition contains (t : list bytes) (x : bytes) : bool :=
  existsb (bytes_eqb x) t.

End Py.

(** ** binascii.crc32 *)

Module binascii.

(** One shift of the reflected CRC register (polynomial 0xEDB88320). *)
Definition crc_bit (c : Z) : Z :=
  if Z.testbit c 0 then Z.lxor (Z.shiftr c 1) 0xEDB88320 else Z.shiftr c 1.

Definition crc_byte (c : Z) (b : byte) : Z :=
  Nat.iter 8 crc_bit (Z.lxor c (Py.byte_to_Z b)).

(** [binascii.crc32(data)]: the CRC-32 of zlib and of the PNG standard,
    register preset to all ones and complemented at the end. *)
Definition crc32 (data : bytes) : Z :=
  Z.lxor (fold_left crc_byte data 0xFFFFFFFF) 0xFFFFFFFF.

End binascii.

(** ** class Chunk *)

(** [b"IHDR"]: a bytes literal. *)
Definition b (s : string) : bytes := list_byte_of_string s.

Module Chunk.

Record t : Type := mk {
  size : bytes;
  type : bytes;
  data : bytes;
  crc32 : bytes
}.

Definition set_size (self : t) (v : bytes) : t :=
  {| size := v; type := type self; data := data self; crc32 := crc32 self |}.
Definition set_type (self : t) (v : bytes) : t :=
  {| size := size self; type := v; data := data self; crc32 := crc32 self |}.
Definition set_data (self : t) (v : bytes) : t :=
  {| size := size self; type := type self; data := v; crc32 := crc32 self |}.
Definition set_crc32 (self : t) (v : bytes) : t :=
  {| size := size self; type := type self; data := data self; crc32 := v |}.

(** lines 18-19 *)
Definition calculate_crc32 (self : t) : result t :=
  v ← Py.to_bytes (binascii.crc32 (type self ++ data self)) 4;
  Ok (set_crc32 self v).

(** lines 11-16 *)
Definition __init__ (init_type init_data : bytes) : result t :=
  sz ← Py.to_bytes (Py.len init_data) 4;
  calculate_crc32 {| size := sz; type := init_type; data := init_data; crc32 := [] |}.

(** lines 21-22 *)
Definition int_size (self : t) : Z := Py.from_bytes (size self).

(** lines 25-27: the checksum is refreshed, then the four fields are
    concatenated as they are stored. *)
Definition export_chunk (self : t) : result (t * bytes) :=
  self ← calculate_crc32 self;
  Ok (self, size self ++ type self ++ data self ++ crc32 self).

End Chunk.

(** ** class PNG *)

Definition _PNG_HEADER : bytes := [x89; x50; x4e; x47; x0d; x0a; x1a; x0a].
Definition _PNG_FOOTER : bytes := b"IEND" ++ [xae; x42; x60; x82].
Definition CRITICAL_CHUNKS : list bytes := [b"IHDR"; b"PLTE"; b"IDAT"; b"IEND"].
Definition ANCILLARY_CHUNKS : list bytes :=
  [b"bKGD"; b"cHRM"; b"dSIG"; b"eXIF"; b"gAMA"; b"hIST"; b"iCCP"; b"iTXt";
   b"pHYs"; b"sBIT"; b"sPLT"; b"sRGB"; b"sTER"; b"tEXt"; b"tIME"; b"tRNS"; b"zTXt"].

(** What [get_chunk_by_type] hands back for the indices or for the chunks:
    [None], one item, or the list of all of them. *)
Inductive found (A : Type) : Type :=
| PyNone
| Single (a : A)
| Several (l : list A).
Arguments PyNone {A}.
Arguments Single {A} a.
Arguments Several {A} l.

(** [r is not None] *)
Definition is_not_None {A} (r : found A) : bool :=
  match r with PyNone => false | _ => true end.

(** A value together with the equation that names it, for the termination
    argument of the walk. *)
Definition inspect {A} (a : A) : {x : A | a = x} := exist _ a eq_refl.

Module PNG.

Record t : Type := mk {
  chunks : list Chunk.t;
  width : Z;
  height : Z;
  bit_depth : Z;
  color_type : Z;
  compression_method : Z;
  filter_method : Z;
  interlace_method : Z
}.

Definition set_chunks (self : t) (v : list Chunk.t) : t :=
  {| chunks := v; width := width self; height := height self;
     bit_depth := bit_depth self; color_type := color_type self;
     compression_method := compression_method self;
     filter_method := filter_method self;
     interlace_method := interlace_method self |}.

(** [enumerate(l)] *)
Definition enumerate {A} (l : list A) : list (Z * A) :=
  imap (fun i a => (Z.of_nat i, a)) l.

(** lines 72-75, one turn of the loop. *)
Definition collect (chunk_type : bytes) (finds : list Z * list Chunk.t)
    (item : Z * Chunk.t) : list Z * list Chunk.t :=
  let '(index_finds, chunk_finds) := finds in
  let '(index, chunk) := item in
  if Py.bytes_eqb (Chunk.type chunk) chunk_type
  then (index_finds ++ [index], chunk_finds ++ [chunk])
  else (index_finds, chunk_finds).

(** lines 77-85, for either list of finds. *)
Definition pick {A} (finds : list A) : found A :=
  if 1 <? Py.len finds then Several finds
  else if Py.len finds =? 1 then
    match finds with a :: _ => Single a | [] => PyNone end
  else PyNone.

(** The value returned, by [bool_return_index]. *)
Definition lookup (bool_return_index : bool) : Type :=
  if bool_return_index then (found Z * found Chunk.t)%type else found Chunk.t.

(** lines 66-91; the method reads [self] through [self.chunks] only, and
    [__split_chunks__] calls it while the other attributes do not exist
    yet, so it takes the list. *)
Definition get_chunk_by_type (chunks : list Chunk.t) (chunk_type : bytes)
    (bool_return_index : bool) : lookup bool_return_index :=
  let '(index_finds, chunk_finds) :=
    fold_left (collect chunk_type) (enumerate chunks) ([], []) in
  let return_index := pick index_finds in
  let return_chunk := pick chunk_finds in
  match bool_return_index as r return lookup r with
  | true => (return_index, return_chunk)
  | false => return_chunk
  end.

(** lines 111-154, one turn of the [while] loop: the new cursor and the
    new [self.chunks]. *)
Definition read_chunk (data : bytes) (i : Z) (chunks : list Chunk.t)
    : result (Z * list Chunk.t) :=
  new_chunk ← Chunk.__init__ [] [];
  let size := Py.slice data (Some i) (Some (i + 4)) in
  let new_chunk := Chunk.set_size new_chunk size in
  let chunk_size := Chunk.int_size new_chunk in
  let i := i + 4 in
  let chunk_type := Py.slice data (Some i) (Some (i + 4)) in
  let new_chunk := Chunk.set_type new_chunk chunk_type in
  str_type ← Py.decode_utf8 chunk_type;
  if negb (Py.contains CRITICAL_CHUNKS chunk_type)
     && negb (Py.contains ANCILLARY_CHUNKS chunk_type)
  then Raise (RuntimeWarning (UnknownChunkType chunk_type))
  else if is_not_None (get_chunk_by_type chunks chunk_type false)
          && Py.contains CRITICAL_CHUNKS chunk_type
          && negb (Py.bytes_eqb chunk_type (b"IDAT"))
  then Raise (RuntimeError (AlreadyExists chunk_type))
  else
    let i := i + 4 in
    let chunk_data := Py.slice data (Some i) (Some (i + chunk_size)) in
    let new_chunk := Chunk.set_data new_chunk chunk_data in
    let i := i + chunk_size in
    let original_crc32 := Py.slice data (Some i) (Some (i + 4)) in
    let new_chunk := Chunk.set_crc32 new_chunk original_crc32 in
    let i := i + 4 in
    Ok (i, chunks ++ [new_chunk]).

(** lines 110-154: [while i < len(data)]. *)
Equations? split_loop (data : bytes) (i : Z) (chunks : list Chunk.t)
  : result (list Chunk.t) by wf (Z.to_nat (Py.len data - i)) lt :=
  split_loop data i chunks with Z_lt_dec i (Py.len data) := {
    | right _ => Ok chunks
    | left _ with inspect (read_chunk data i chunks) := {
      | exist _ (Raise e) _ => Raise e
      | exist _ (Ok (i', chunks')) Heq => split_loop data i' chunks' } }.
Proof.
  (* the cursor moves forward: [chunk_size] is not negative *)
  assert (Hsize : forall bs acc, 0 <= acc ->
            0 <= fold_left (fun a x => a * 256 + Py.byte_to_Z x) bs acc).
  { induction bs as [|x bs IH]; intros acc Hacc; simpl; [exact Hacc|].
    apply IH. unfold Py.byte_to_Z. lia. }
  unfold read_chunk in Heq.
  destruct (Chunk.__init__ [] []) as [c|]; simpl in Heq; [|discriminate].
  destruct (Py.decode_utf8 _); simpl in Heq; [|discriminate].
  repeat match type of Heq with
         | (if ?c then _ else _) = _ => destruct c; [discriminate|]
         end.
  injection Heq as <- _.
  pose proof (Hsize (Py.slice data (Some i) (Some (i + 4))) 0 ltac:(lia)).
  unfold Chunk.int_size, Py.from_bytes. simpl. lia.
Qed.

(** lines 103-154; returns [self.chunks]. *)
Definition __split_chunks__ (data : bytes) : result (list Chunk.t) :=
  let chunks := [] in
  let i := Py.len _PNG_HEADER in
  split_loop data i chunks.

(** [r.data] and [r.type] on what a lookup returned: only a chunk has the
    attribute. *)
Definition attr_data (r : found Chunk.t) : result bytes :=
  match r with Single c => Ok (Chunk.data c) | _ => Raise AttributeError end.
Definition attr_type (r : found Chunk.t) : result bytes :=
  match r with Single c => Ok (Chunk.type c) | _ => Raise AttributeError end.

(** [r == n] for an int [n] on what a lookup returned.  [None] is not an
    int; [Chunk] defines no [__eq__], so a chunk equals only itself; a list
    never equals an int. *)
Definition eq_int (r : found Chunk.t) (n : Z) : bool :=
  match r with
  | PyNone => false
  | Single _ => false
  | Several _ => false
  end.

(** lines 163-167, one turn of the [for] loop; returns [num_chunk]. *)
Definition require_chunk (chunks : list Chunk.t) (chunk_type : bytes)
  : result (found Chunk.t) :=
  let num_chunk := get_chunk_by_type chunks chunk_type false in
  if negb (is_not_None num_chunk) then
    str_version ← Py.decode_utf8 chunk_type;
    Raise (RuntimeError (NoChunkDetected chunk_type))
  else Ok num_chunk.

(** lines 160-171; the loop over the tuple of three types is unrolled. *)
Definition __validate_chunks__ (self : t) : result unit :=
  num_chunk ← require_chunk (chunks self) (b"IHDR");
  num_chunk ← require_chunk (chunks self) (b"IDAT");
  num_chunk ← require_chunk (chunks self) (b"IEND");
  if (color_type self =? 3)
     && eq_int (get_chunk_by_type (chunks self) (b"PLTE") false) (-1)
  then
    ty ← attr_type num_chunk;
    str_type ← Py.decode_utf8 ty;
    Raise (RuntimeError (NoChunkDetected ty))
  else Ok ().

(** lines 31-53: [PNG(data)]. *)
Definition __init__ (data : bytes) : result t :=
  if negb (Py.bytes_eqb (Py.slice data None (Some (Py.len _PNG_HEADER))) _PNG_HEADER)
     || negb (Py.bytes_eqb
                (Py.slice data (Some (Py.len data - Py.len _PNG_FOOTER)) None)
                _PNG_FOOTER)
  then Raise (Exception NoHeaderFooter)
  else
    chunks ← __split_chunks__ data;
    let header_chunk := get_chunk_by_type chunks (b"IHDR") false in
    meta_info ← attr_data header_chunk;
    let self :=
      {| chunks := chunks;
         width := Py.from_bytes (Py.slice meta_info (Some 0) (Some 4));
         height := Py.from_bytes (Py.slice meta_info (Some 4) (Some 8));
         bit_depth := Py.from_bytes (Py.slice meta_info (Some 8) (Some 9));
         color_type := Py.from_bytes (Py.slice meta_info (Some 9) (Some 10));
         compression_method := Py.from_bytes (Py.slice meta_info (Some 10) (Some 11));
         filter_method := Py.from_bytes (Py.slice meta_info (Some 11) (Some 12));
         interlace_method := Py.from_bytes (Py.slice meta_info (Some 12) (Some 13)) |} in
    _ ← __validate_chunks__ self;
    if (color_type self =? 0) || (color_type self =? 4)
    then Raise (Exception GrayscaleUnsupported)
    else Ok self.

(** lines 95-98.  [self.chunks[chunk_index]] is evaluated three times with
    the same list and index; the assignment comes last, so an exception
    leaves [self] as it was. *)
Definition set_value_at_index (self : t) (chunk_index index new_value num_bytes : Z)
  : result t :=
  chunk ← Py.getitem (chunks self) chunk_index;
  let before_current := Py.slice (Chunk.data chunk) None (Some index) in
  let after_current := Py.slice (Chunk.data chunk) (Some (index + num_bytes)) None in
  value ← Py.to_bytes new_value num_bytes;
  chunks' ← Py.setitem (chunks self) chunk_index
              (Chunk.set_data chunk (before_current ++ value ++ after_current));
  Ok (set_chunks self chunks').

(** [[chunk.export_chunk() for chunk in self.chunks]]: the chunks with
    their checksum refreshed, and the list of their records. *)
Fixpoint export_chunks (chunks : list Chunk.t) : result (list Chunk.t * list bytes) :=
  match chunks with
  | [] => Ok ([], [])
  | chunk :: rest =>
    '(chunk', record) ← Chunk.export_chunk chunk;
    '(rest', records) ← export_chunks rest;
    Ok (chunk' :: rest', record :: records)
  end.

(** lines 174-176. *)
Definition export_image (self : t) : result (t * bytes) :=
  _ ← __validate_chunks__ self;
  '(chunks', records) ← export_chunks (chunks self);
  Ok (set_chunks self chunks', _PNG_HEADER ++ concat records).

End PNG.

(** ** test_main *)

(** What [test_main] can end in: besides the exceptions above, the
    [TypeError] of indexing a list with something that is not an int, and
    the [AssertionError] of its [assert]. *)
Inductive outcome (A : Type) : Type :=
| Returned (a : A)
| Raised (e : exn)
| TypeError
| AssertionError.
Arguments Returned {A} a.
Arguments Raised {A} e.
Arguments TypeError {A}.
Arguments AssertionError {A}.

#[global] Instance outcome_ret : MRet outcome := fun A a => Returned a.
#[global] Instance outcome_bind : MBind outcome :=
  fun A B f m =>
    match m with
    | Returned a => f a
    | Raised e => Raised e
    | TypeError => TypeError
    | AssertionError => AssertionError
    end.

Definition lift {A} (r : result A) : outcome A :=
  match r with Ok a => Returned a | Raise e => Raised e end.

(** [range(start, stop, step)] *)
Definition range (start stop step : Z) : result (list Z) :=
  if step =? 0 then Raise ValueError
  else
    let count :=
      if 0 <? step then (stop - start + step - 1) / step
      else (start - stop - step - 1) / (- step) in
    Ok (map (fun k => start + step * Z.of_nat k) (seq 0 (Z.to_nat count))).

(** [r.size] on what a lookup returned. *)
Definition attr_size (r : found Chunk.t) : result bytes :=
  match r with Single c => Ok (Chunk.size c) | _ => Raise AttributeError end.

(** [chunks[r]] for the index a lookup returned: only an int is an index. *)
Definition chunk_by (chunks : list Chunk.t) (r : found Z) : outcome Chunk.t :=
  match r with
  | Single i => lift (Py.getitem chunks i)
  | _ => TypeError
  end.

(** [chunks[r].data = v] *)
Definition set_data_by (chunks : list Chunk.t) (r : found Z) (v : bytes)
  : outcome (list Chunk.t) :=
  match r with
  | Single i =>
    chunk ← lift (Py.getitem chunks i);
    lift (Py.setitem chunks i (Chunk.set_data chunk v))
  | _ => TypeError
  end.

(** lines 191-209, one turn of the [for] loop. *)
Definition brighten (palette_index : found Z) (newPNG : PNG.t) (color_index : Z)
  : outcome PNG.t :=
  chunk ← chunk_by (PNG.chunks newPNG) palette_index;
  x ← lift (Py.getitem (Chunk.data chunk) color_index);
  let current_value := Py.byte_to_Z x in
  if current_value =? 255 then Returned newPNG
  else
    let increment := 18 in
    let new_value :=
      if increment + current_value <? 255 then increment + current_value
      else 255 in
    chunk ← chunk_by (PNG.chunks newPNG) palette_index;
    let before_current := Py.slice (Chunk.data chunk) None (Some color_index) in
    chunk ← chunk_by (PNG.chunks newPNG) palette_index;
    let after_current := Py.slice (Chunk.data chunk) (Some (color_index + 1)) None in
    value ← lift (Py.to_bytes new_value 1);
    chunks' ← set_data_by (PNG.chunks newPNG) palette_index
                (before_current ++ value ++ after_current);
    let newPNG := PNG.set_chunks newPNG chunks' in
    if current_value <? new_value then Returned newPNG else AssertionError.

(** The [for] loop over a list of indices. *)
Fixpoint for_each (body : PNG.t -> Z -> outcome PNG.t) (newPNG : PNG.t)
    (indices : list Z) : outcome PNG.t :=
  match indices with
  | [] => Returned newPNG
  | color_index :: rest =>
    newPNG ← body newPNG color_index;
    for_each body newPNG rest
  end.

(** lines 180-212, from the bytes read from [test.png] to the bytes
    written to [new.png]; opening the two files and the [print] calls are
    left out. *)
Definition test_main (data : bytes) : outcome bytes :=
  newPNG ← lift (PNG.__init__ data);
  let '(palette_index, palette_chunk) :=
    PNG.get_chunk_by_type (PNG.chunks newPNG) (b"PLTE") true in
  size ← lift (attr_size palette_chunk);
  indices ← lift (range 1 (Py.from_bytes size) 3);
  newPNG ← for_each (brighten palette_index) newPNG indices;
  '(_, out) ← lift (PNG.export_image newPNG);
  Returned out.

(** * Vocabulary of the statements *)

(** ** Chunks, records and lookups *)

(** The four checksum bytes [calculate_crc32] stores. *)
Definition checksum (c : Chunk.t) : bytes :=
  Py.be_digits 4 (binascii.crc32 (Chunk.type c ++ Chunk.data c)).

(** The record of a chunk as its four fields stand. *)
Definition stored_record (c : Chunk.t) : bytes :=
  Chunk.size c ++ Chunk.type c ++ Chunk.data c ++ Chunk.crc32 c.

(** The chunks of type [ty], in sequence order. *)
Definition matching_chunks (chunks : list Chunk.t) (ty : bytes) : list Chunk.t :=
  filter (fun c => Chunk.type c = ty) chunks.

(** The positions of the chunks of type [ty], in increasing order. *)
Definition matching_positions (chunks : list Chunk.t) (ty : bytes) : list nat :=
  filter (fun i => Chunk.type <$> chunks !! i = Some ty) (seq 0 (length chunks)).

(** Nothing for no match, the item itself for one, the list for more. *)
Definition by_arity {A} (matches : list A) : found A :=
  match matches with
  | [] => PyNone
  | [a] => Single a
  | _ => Several matches
  end.

(** The chunk whose record starts at offset [i] of [data]: a 4-byte length,
    a 4-byte type, as many payload bytes as the length says, and 4 checksum
    bytes, each cut short where [data] ends. *)
Definition chunk_at (data : bytes) (i : Z) : Chunk.t :=
  let n := Py.from_bytes (Py.slice data (Some i) (Some (i + 4))) in
  {| Chunk.size := Py.slice data (Some i) (Some (i + 4));
     Chunk.type := Py.slice data (Some (i + 4)) (Some (i + 4 + 4));
     Chunk.data := Py.slice data (Some (i + 4 + 4)) (Some (i + 4 + 4 + n));
     Chunk.crc32 := Py.slice data (Some (i + 4 + 4 + n)) (Some (i + 4 + 4 + n + 4)) |}.

(** A type the walk accepts a second time. *)
Definition repeatable (ty : bytes) : bool :=
  negb (Py.contains CRITICAL_CHUNKS ty) || Py.bytes_eqb ty (b"IDAT").

(** The buffer begins with the 8-byte signature. *)
Definition starts_with_signature (buf : bytes) : Prop :=
  exists rest, buf = _PNG_HEADER ++ rest.

(** The buffer ends with the 8 bytes [IEND ae 42 60 82]. *)
Definition ends_with_terminator (buf : bytes) : Prop :=
  exists front, buf = front ++ _PNG_FOOTER.

(** The seven fields decoded from the header chunk. *)
Definition metadata (self : PNG.t) : Z * Z * Z * Z * Z * Z * Z :=
  (PNG.width self, PNG.height self, PNG.bit_depth self, PNG.color_type self,
   PNG.compression_method self, PNG.filter_method self, PNG.interlace_method self).

(** The stored checksum of a chunk is the CRC-32 of its type and data. *)
Definition checksum_valid (c : Chunk.t) : Prop :=
  Py.to_bytes (binascii.crc32 (Chunk.type c ++ Chunk.data c)) 4 = Ok (Chunk.crc32 c).

(** The record [export_chunk] writes for a chunk. *)
Definition encoded (c : Chunk.t) : bytes :=
  Chunk.size c ++ Chunk.type c ++ Chunk.data c ++ checksum c.

(** ** Buffers and containers used as examples *)

(** A 1x1 image, 8 bits per sample, colour type 2: signature, IHDR, an
    empty IDAT, IEND, every checksum right. *)
Definition minimal_png : bytes :=
  _PNG_HEADER
  ++ [x00; x00; x00; x0d] ++ b"IHDR"
  ++ [x00; x00; x00; x01; x00; x00; x00; x01; x08; x02; x00; x00; x00]
  ++ [x90; x77; x53; xde]
  ++ [x00; x00; x00; x00] ++ b"IDAT" ++ [x35; xaf; x06; x1e]
  ++ [x00; x00; x00; x00] ++ b"IEND" ++ [xae; x42; x60; x82].

(** The container [PNG(minimal_png)] builds. *)
Definition minimal_container : PNG.t :=
  {| PNG.chunks :=
       [ {| Chunk.size := [x00; x00; x00; x0d]; Chunk.type := b"IHDR";
            Chunk.data := [x00; x00; x00; x01; x00; x00; x00; x01;
                           x08; x02; x00; x00; x00];
            Chunk.crc32 := [x90; x77; x53; xde] |};
         {| Chunk.size := [x00; x00; x00; x00]; Chunk.type := b"IDAT";
            Chunk.data := []; Chunk.crc32 := [x35; xaf; x06; x1e] |};
         {| Chunk.size := [x00; x00; x00; x00]; Chunk.type := b"IEND";
            Chunk.data := []; Chunk.crc32 := [xae; x42; x60; x82] |} ];
     PNG.width := 1; PNG.height := 1; PNG.bit_depth := 8; PNG.color_type := 2;
     PNG.compression_method := 0; PNG.filter_method := 0;
     PNG.interlace_method := 0 |}.

(** The same image with the checksum field of IHDR zeroed. *)
Definition stale_crc_png : bytes :=
  _PNG_HEADER
  ++ [x00; x00; x00; x0d] ++ b"IHDR"
  ++ [x00; x00; x00; x01; x00; x00; x00; x01; x08; x02; x00; x00; x00]
  ++ [x00; x00; x00; x00]
  ++ [x00; x00; x00; x00] ++ b"IDAT" ++ [x35; xaf; x06; x1e]
  ++ [x00; x00; x00; x00] ++ b"IEND" ++ [xae; x42; x60; x82].

(** The same image declared palette-based (colour type 3), with no PLTE
    chunk. *)
Definition palette_png : bytes :=
  _PNG_HEADER
  ++ [x00; x00; x00; x0d] ++ b"IHDR"
  ++ [x00; x00; x00; x01; x00; x00; x00; x01; x08; x03; x00; x00; x00]
  ++ [x28; xcb; x34; xbb]
  ++ [x00; x00; x00; x00] ++ b"IDAT" ++ [x35; xaf; x06; x1e]
  ++ [x00; x00; x00; x00] ++ b"IEND" ++ [xae; x42; x60; x82].

(** Signature and terminator chunk, nothing else. *)
Definition headerless_png : bytes :=
  _PNG_HEADER ++ [x00; x00; x00; x00] ++ b"IEND" ++ [xae; x42; x60; x82].

(** The minimal image with one more chunk, of a type outside both sets
    whose last byte is 0xff. *)
Definition odd_type : bytes := [x74; x45; x58; xff].
Definition odd_type_png : bytes :=
  _PNG_HEADER
  ++ [x00; x00; x00; x0d] ++ b"IHDR"
  ++ [x00; x00; x00; x01; x00; x00; x00; x01; x08; x02; x00; x00; x00]
  ++ [x90; x77; x53; xde]
  ++ [x00; x00; x00; x00] ++ odd_type ++ [xec; x28; x9f; x2d]
  ++ [x00; x00; x00; x00] ++ b"IDAT" ++ [x35; xaf; x06; x1e]
  ++ [x00; x00; x00; x00] ++ b"IEND" ++ [xae; x42; x60; x82].

(** An image whose IHDR payload stops after the colour type byte. *)
Definition short_header_png : bytes :=
  _PNG_HEADER
  ++ [x00; x00; x00; x0a] ++ b"IHDR"
  ++ [x00; x00; x00; x01; x00; x00; x00; x01; x08; x02]
  ++ [x4b; x0f; x51; x7d]
  ++ [x00; x00; x00; x00] ++ b"IDAT" ++ [x35; xaf; x06; x1e]
  ++ [x00; x00; x00; x00] ++ b"IEND" ++ [xae; x42; x60; x82].

(** ** The claims that fail, as the specification words them *)

(** C2 as the specification words it: when the window runs past the end of
    the payload, the call fails. *)
Definition bounds_claim (self : PNG.t) (chunk_index index new_value num_bytes : Z)
  : Prop :=
  forall chunk,
    Py.getitem (PNG.chunks self) chunk_index = Ok chunk ->
    Py.len (Chunk.data chunk) < index + num_bytes ->
    exists e,
      PNG.set_value_at_index self chunk_index index new_value num_bytes = Raise e.

(** C1 as the specification words it. *)
Definition roundtrip_claim (buf : bytes) : Prop :=
  forall png,
    PNG.__init__ buf = Ok png ->
    exists png', PNG.export_image png = Ok (png', buf).

(** C5 as the specification words it: the record starts with the 4-byte
    big-endian length of the payload and ends with the 4-byte big-endian
    CRC-32 of type and payload. *)
Definition encode_claim (c : Chunk.t) : Prop :=
  exists c' len_field crc_field,
    Py.to_bytes (Py.len (Chunk.data c)) 4 = Ok len_field
    /\ Py.to_bytes (binascii.crc32 (Chunk.type c ++ Chunk.data c)) 4 = Ok crc_field
    /\ Chunk.export_chunk c
       = Ok (c', len_field ++ Chunk.type c ++ Chunk.data c ++ crc_field).

(** The IHDR chunk of the minimal image after two bytes were written at
    offset 12 of its payload: 14 bytes of payload, a size field that still
    says 13. *)
Definition grown_chunk : Chunk.t :=
  {| Chunk.size := [x00; x00; x00; x0d]; Chunk.type := b"IHDR";
     Chunk.data := [x00; x00; x00; x01; x00; x00; x00; x01;
                    x08; x02; x00; x00; x0a; x0b];
     Chunk.crc32 := [x90; x77; x53; xde] |}.

(** Byte [k] of [d] has value [v]. *)
Definition u8_at (d : bytes) (k : nat) (v : Z) : Prop :=
  Py.byte_to_Z <$> d !! k = Some v.

(** Bytes [k] to [k + 3] of [d], most significant first, have value [v]. *)
Definition u32be_at (d : bytes) (k : nat) (v : Z) : Prop :=
  exists b0 b1 b2 b3,
    u8_at d k b0 /\ u8_at d (k + 1) b1 /\ u8_at d (k + 2) b2 /\ u8_at d (k + 3) b3
    /\ v = b0 * 2 ^ 24 + b1 * 2 ^ 16 + b2 * 2 ^ 8 + b3.

(** [v] is byte [k] of [d], or 0 when [d] has no byte [k]. *)
Definition u8_or_zero_at (d : bytes) (k : nat) (v : Z) : Prop :=
  v = match d !! k with Some x => Py.byte_to_Z x | None => 0 end.

(** C9 as the specification words it: all seven fields are bytes of the
    header payload, at offsets 0 to 12. *)
Definition header_layout_claim (buf : bytes) : Prop :=
  forall png,
    PNG.__init__ buf = Ok png ->
    exists h,
      PNG.get_chunk_by_type (PNG.chunks png) (b"IHDR") false = Single h
      /\ u32be_at (Chunk.data h) 0 (PNG.width png)
      /\ u32be_at (Chunk.data h) 4 (PNG.height png)
      /\ u8_at (Chunk.data h) 8 (PNG.bit_depth png)
      /\ u8_at (Chunk.data h) 9 (PNG.color_type png)
      /\ u8_at (Chunk.data h) 10 (PNG.compression_method png)
      /\ u8_at (Chunk.data h) 11 (PNG.filter_method png)
      /\ u8_at (Chunk.data h) 12 (PNG.interlace_method png).

(** ** Vocabulary of the further properties *)

(** A chunk with whole fields: the size field is the 4-byte big-endian
    length of the payload, the type has 4 bytes. *)
Definition sized (c : Chunk.t) : Prop :=
  Py.to_bytes (Py.len (Chunk.data c)) 4 = Ok (Chunk.size c)
  /\ length (Chunk.type c) = 4%nat.

(** A type of one of the two tuples. *)
Definition known_type (ty : bytes) : Prop :=
  ty ∈ CRITICAL_CHUNKS \/ ty ∈ ANCILLARY_CHUNKS.

(** How many chunks have type [ty]. *)
Definition count_type (chunks : list Chunk.t) (ty : bytes) : nat :=
  length (matching_chunks chunks ty).

(** The chunk with its checksum field set to the computed checksum. *)
Definition refreshed (c : Chunk.t) : Chunk.t := Chunk.set_crc32 c (checksum c).

(** The seven fields as lines 42-48 read them from a header payload. *)
Definition decode_header (meta_info : bytes) : Z * Z * Z * Z * Z * Z * Z :=
  (Py.from_bytes (Py.slice meta_info (Some 0) (Some 4)),
   Py.from_bytes (Py.slice meta_info (Some 4) (Some 8)),
   Py.from_bytes (Py.slice meta_info (Some 8) (Some 9)),
   Py.from_bytes (Py.slice meta_info (Some 9) (Some 10)),
   Py.from_bytes (Py.slice meta_info (Some 10) (Some 11)),
   Py.from_bytes (Py.slice meta_info (Some 11) (Some 12)),
   Py.from_bytes (Py.slice meta_info (Some 12) (Some 13))).

(** A container as a well-formed file gives it: whole chunks of known
    types, one IHDR that the metadata agree with, at most one PLTE, some
    IDAT, one IEND, which is empty and comes last, and a colour type the
    constructor accepts. *)
Definition well_formed (self : PNG.t) : Prop :=
  Forall sized (PNG.chunks self)
  /\ Forall (fun c => known_type (Chunk.type c)) (PNG.chunks self)
  /\ (exists h, matching_chunks (PNG.chunks self) (b"IHDR") = [h]
                /\ metadata self = decode_header (Chunk.data h))
  /\ (count_type (PNG.chunks self) (b"PLTE") <= 1)%nat
  /\ (1 <= count_type (PNG.chunks self) (b"IDAT"))%nat
  /\ count_type (PNG.chunks self) (b"IEND") = 1%nat
  /\ (exists front last, PNG.chunks self = front ++ [last]
                         /\ Chunk.type last = b"IEND" /\ Chunk.data last = [])
  /\ PNG.color_type self <> 0 /\ PNG.color_type self <> 4.

(** A chunk read whole from a buffer: [sized], with 4 checksum bytes. *)
Definition whole (c : Chunk.t) : Prop :=
  sized c /\ length (Chunk.crc32 c) = 4%nat.

(** The minimal image declared grayscale (colour type 0). *)
Definition gray_png : bytes :=
  _PNG_HEADER
  ++ [x00; x00; x00; x0d] ++ b"IHDR"
  ++ [x00; x00; x00; x01; x00; x00; x00; x01; x08; x00; x00; x00; x00]
  ++ [x3a; x7e; x9b; x55]
  ++ [x00; x00; x00; x00] ++ b"IDAT" ++ [x35; xaf; x06; x1e]
  ++ [x00; x00; x00; x00] ++ b"IEND" ++ [xae; x42; x60; x82].

(** The container lines 37-48 build from the chunks of the walk and the
    payload of the header chunk. *)
Definition container_of (chunks : list Chunk.t) (meta_info : bytes) : PNG.t :=
  {| PNG.chunks := chunks;
     PNG.width := Py.from_bytes (Py.slice meta_info (Some 0) (Some 4));
     PNG.height := Py.from_bytes (Py.slice meta_info (Some 4) (Some 8));
     PNG.bit_depth := Py.from_bytes (Py.slice meta_info (Some 8) (Some 9));
     PNG.color_type := Py.from_bytes (Py.slice meta_info (Some 9) (Some 10));
     PNG.compression_method := Py.from_bytes (Py.slice meta_info (Some 10) (Some 11));
     PNG.filter_method := Py.from_bytes (Py.slice meta_info (Some 11) (Some 12));
     PNG.interlace_method := Py.from_bytes (Py.slice meta_info (Some 12) (Some 13)) |}.

(** The walk takes the chunks [cs] after the chunks [acc]: each one is of a
    type not seen before or of a type that may repeat. *)
Fixpoint accepted (acc cs : list Chunk.t) : Prop :=
  match cs with
  | [] => True
  | c :: rest =>
    (count_type acc (Chunk.type c) = 0%nat \/ repeatable (Chunk.type c) = true)
    /\ accepted (acc ++ [c]) rest
  end.

(** A palette byte raised by 18, 255 at most. *)
Definition raised (x : byte) : byte :=
  Py.byte_of_Z (Z.min 255 (Py.byte_to_Z x + 18)).

(** The payload with the bytes at positions 1, 4, 7, ... below [bound]
    raised. *)
Definition raised_upto (bound : nat) (d : bytes) : bytes :=
  imap (fun j x => if decide ((j < bound)%nat /\ (j mod 3 = 1)%nat) then raised x else x) d.

(** The payload with every byte at a position 1, 4, 7, ... raised. *)
Definition greens_raised (d : bytes) : bytes := raised_upto (length d) d.

(** The minimal image with a palette of two colours, and its container. *)
Definition two_colour_png : bytes :=
  _PNG_HEADER
  ++ [x00; x00; x00; x0d] ++ b"IHDR"
  ++ [x00; x00; x00; x01; x00; x00; x00; x01; x08; x03; x00; x00; x00]
  ++ [x28; xcb; x34; xbb]
  ++ [x00; x00; x00; x06] ++ b"PLTE" ++ [x10; x20; x30; x40; xf8; x60]
  ++ [x76; x16; xeb; xdc]
  ++ [x00; x00; x00; x00] ++ b"IDAT" ++ [x35; xaf; x06; x1e]
  ++ [x00; x00; x00; x00] ++ b"IEND" ++ [xae; x42; x60; x82].

(** The container [PNG(two_colour_png)] builds. *)
Definition two_colour_container : PNG.t :=
  container_of
    [ {| Chunk.size := [x00; x00; x00; x0d]; Chunk.type := b"IHDR";
         Chunk.data := [x00; x00; x00; x01; x00; x00; x00; x01;
                        x08; x03; x00; x00; x00];
         Chunk.crc32 := [x28; xcb; x34; xbb] |};
      {| Chunk.size := [x00; x00; x00; x06]; Chunk.type := b"PLTE";
         Chunk.data := [x10; x20; x30; x40; xf8; x60];
         Chunk.crc32 := [x76; x16; xeb; xdc] |};
      {| Chunk.size := [x00; x00; x00; x00]; Chunk.type := b"IDAT";
         Chunk.data := []; Chunk.crc32 := [x35; xaf; x06; x1e] |};
      {| Chunk.size := [x00; x00; x00; x00]; Chunk.type := b"IEND";
         Chunk.data := []; Chunk.crc32 := [xae; x42; x60; x82] |} ]
    [x00; x00; x00; x01; x00; x00; x00; x01; x08; x03; x00; x00; x00].

(** The container [PNG(stale_crc_png)] builds. *)
Definition stale_crc_container : PNG.t :=
  container_of
    [ {| Chunk.size := [x00; x00; x00; x0d]; Chunk.type := b"IHDR";
         Chunk.data := [x00; x00; x00; x01; x00; x00; x00; x01;
                        x08; x02; x00; x00; x00];
         Chunk.crc32 := [x00; x00; x00; x00] |};
      {| Chunk.size := [x00; x00; x00; x00]; Chunk.type := b"IDAT";
         Chunk.data := []; Chunk.crc32 := [x35; xaf; x06; x1e] |};
      {| Chunk.size := [x00; x00; x00; x00]; Chunk.type := b"IEND";
         Chunk.data := []; Chunk.crc32 := [xae; x42; x60; x82] |} ]
    [x00; x00; x00; x01; x00; x00; x00; x01; x08; x02; x00; x00; x00].

(** * Properties of the built-ins *)

Section Builtins.

Lemma from_bytes_nonneg (bs : bytes) : 0 <= Py.from_bytes bs.
Proof.
unfold Py.from_bytes.
assert (H : forall acc, 0 <= acc ->
          0 <= fold_left (fun a x => a * 256 + Py.byte_to_Z x) bs acc).
{ induction bs as [|x bs IH]; intros acc Hacc; simpl; [exact Hacc|].
  apply IH. unfold Py.byte_to_Z. lia. }
apply H. lia.
Qed.

Lemma byte_to_Z_range (x : byte) : 0 <= Py.byte_to_Z x < 256.
Proof.
  unfold Py.byte_to_Z. pose proof (Byte.to_N_bounded x). lia.
Qed.

Lemma byte_of_to_Z (x : byte) : Py.byte_of_Z (Py.byte_to_Z x) = x.
Proof.
  pose proof (byte_to_Z_range x) as Hx.
  unfold Py.byte_of_Z. rewrite Z.mod_small by exact Hx.
  unfold Py.byte_to_Z. rewrite N2Z.id, Byte.of_to_N. reflexivity.
Qed.

Lemma byte_to_of_Z (z : Z) : Py.byte_to_Z (Py.byte_of_Z z) = z mod 256.
Proof.
  pose proof (Z.mod_pos_bound z 256 ltac:(lia)) as Hz.
  unfold Py.byte_of_Z, Py.byte_to_Z.
  destruct (Byte.of_N (Z.to_N (z mod 256))) as [y|] eqn:E.
  - apply Byte.to_of_N in E. rewrite E. lia.
  - apply Byte.of_N_None_iff in E. lia.
Qed.

Lemma byte_to_Z_inj (x y : byte) : Py.byte_to_Z x = Py.byte_to_Z y -> x = y.
Proof.
  intros H. rewrite <- (byte_of_to_Z x), <- (byte_of_to_Z y), H. reflexivity.
Qed.

(** Slices with bounds that are not negative are [take] and [drop]. *)
Lemma slice_between {A} (l : list A) (a c : Z) :
  0 <= a -> 0 <= c ->
  Py.slice l (Some a) (Some c) = take (Z.to_nat (c - a)) (drop (Z.to_nat a) l).
Proof.
  intros Ha Hc. unfold Py.slice, Py.bound, Py.len.
  destruct (Z.ltb_spec a 0); [lia|]. destruct (Z.ltb_spec c 0); [lia|].
  destruct (Z_le_gt_dec (Z.of_nat (length l)) a) as [Hge|Hlt].
  - rewrite (drop_ge l (Z.to_nat a)) by lia.
    rewrite (Z.min_r a) by lia. rewrite drop_ge by lia.
    rewrite !take_nil. reflexivity.
  - rewrite (Z.min_l a) by lia.
    destruct (Z_le_gt_dec c (Z.of_nat (length l))).
    + rewrite Z.min_l by lia. reflexivity.
    + rewrite Z.min_r by lia.
      rewrite (take_ge _ (Z.to_nat (c - a))) by (rewrite length_drop; lia).
      apply take_ge. rewrite length_drop. lia.
Qed.

Lemma slice_to {A} (l : list A) (c : Z) :
  0 <= c -> Py.slice l None (Some c) = take (Z.to_nat c) l.
Proof.
  intros Hc. unfold Py.slice, Py.bound, Py.len.
  destruct (Z.ltb_spec c 0); [lia|]. simpl. rewrite Z.sub_0_r.
  destruct (Z_le_gt_dec c (Z.of_nat (length l))).
  - rewrite Z.min_l by lia. reflexivity.
  - rewrite Z.min_r by lia.
    rewrite (take_ge l (Z.to_nat c)) by lia. apply take_ge. lia.
Qed.

Lemma slice_from {A} (l : list A) (a : Z) :
  0 <= a -> Py.slice l (Some a) None = drop (Z.to_nat a) l.
Proof.
  intros Ha. unfold Py.slice, Py.bound, Py.len.
  destruct (Z.ltb_spec a 0); [lia|].
  destruct (Z_le_gt_dec (Z.of_nat (length l)) a).
  - rewrite Z.min_r by lia. rewrite !drop_ge by lia. apply take_nil.
  - rewrite Z.min_l by lia. apply take_ge. rewrite length_drop. lia.
Qed.

(** A slice followed by what comes after it. *)
Lemma slice_then_drop {A} (l : list A) (a c : Z) :
  0 <= a <= c ->
  Py.slice l (Some a) (Some c) ++ drop (Z.to_nat c) l = drop (Z.to_nat a) l.
Proof.
  intros H. rewrite slice_between by lia.
  replace (Z.to_nat c) with (Z.to_nat a + Z.to_nat (c - a))%nat by lia.
  rewrite <- drop_drop. apply take_drop.
Qed.

Lemma length_slice_le {A} (l : list A) (a c : Z) :
  0 <= a -> 0 <= c -> Py.len (Py.slice l (Some a) (Some c)) <= Z.max 0 (c - a).
Proof.
  intros Ha Hc. rewrite slice_between by lia. unfold Py.len.
  rewrite length_take. lia.
Qed.

Lemma length_be_digits (k : nat) (n : Z) : length (Py.be_digits k n) = k.
Proof.
  revert n. induction k as [|k IH]; intros n; simpl; [reflexivity|].
  rewrite length_app, IH. simpl. lia.
Qed.

Lemma from_bytes_snoc (bs : bytes) (x : byte) :
  Py.from_bytes (bs ++ [x]) = Py.from_bytes bs * 256 + Py.byte_to_Z x.
Proof. unfold Py.from_bytes. rewrite fold_left_app. reflexivity. Qed.

(** [from_bytes] reads back what [to_bytes] wrote. *)
Lemma from_bytes_be_digits (k : nat) (n : Z) :
  0 <= n -> Py.from_bytes (Py.be_digits k n) = n mod 256 ^ Z.of_nat k.
Proof.
  revert n. induction k as [|k IH]; intros n Hn.
  - simpl. rewrite Z.mod_1_r. reflexivity.
  - simpl Py.be_digits. rewrite from_bytes_snoc, IH, byte_to_of_Z
      by (apply Z.div_pos; lia).
    rewrite Z.mod_mod by lia.
    rewrite Nat2Z.inj_succ, Z.pow_succ_r by lia.
    rewrite (Z.rem_mul_r n 256 (256 ^ Z.of_nat k)) by lia. ring.
Qed.

(** Digit [j] of the encoding, counted from the most significant one. *)
Lemma be_digits_lookup (k : nat) (n : Z) (j : nat) :
  (j < k)%nat ->
  Py.byte_to_Z <$> Py.be_digits k n !! j
  = Some ((n / 256 ^ Z.of_nat (k - 1 - j)) mod 256).
Proof.
  revert n j. induction k as [|k IH]; intros n j Hj; [lia|].
  simpl Py.be_digits.
  destruct (decide (j < k)%nat) as [Hlt|Hge].
  - rewrite lookup_app_l by (rewrite length_be_digits; lia).
    rewrite IH by lia. f_equal.
    rewrite Z.div_div by lia.
    replace (Z.of_nat (S k - 1 - j)) with (Z.succ (Z.of_nat (k - 1 - j))) by lia.
    rewrite Z.pow_succ_r by lia. reflexivity.
  - assert (j = k) as -> by lia.
    rewrite lookup_app_r by (rewrite length_be_digits; lia).
    rewrite length_be_digits, Nat.sub_diag. simpl.
    rewrite byte_to_of_Z, Z.mod_mod by lia.
    replace (k - 0 - k)%nat with 0%nat by lia.
    rewrite Z.pow_0_r, Z.div_1_r. reflexivity.
Qed.

Lemma to_bytes_Ok (n width : Z) :
  0 <= width -> 0 <= n < 256 ^ width ->
  Py.to_bytes n width = Ok (Py.be_digits (Z.to_nat width) n).
Proof.
  intros Hw Hn. unfold Py.to_bytes.
  destruct (Z.ltb_spec width 0); [lia|].
  destruct (Z.ltb_spec n 0); [lia|].
  destruct (Z.leb_spec (256 ^ width) n); [lia|]. reflexivity.
Qed.

Lemma lxor_range (n a c : Z) :
  0 <= n -> 0 <= a < 2 ^ n -> 0 <= c < 2 ^ n -> 0 <= Z.lxor a c < 2 ^ n.
Proof.
  intros Hn Ha Hc.
  assert (Hnn : 0 <= Z.lxor a c) by (apply Z.lxor_nonneg; lia).
  split; [exact Hnn|].
  destruct (Z.eq_dec (Z.lxor a c) 0) as [->|Hne]; [lia|].
  apply Z.log2_lt_pow2; [lia|].
  pose proof (Z.log2_lxor a c ltac:(lia) ltac:(lia)) as Hl.
  assert (Hlog : forall x, 0 <= x < 2 ^ n -> 0 < n -> Z.log2 x < n).
  { intros x Hx Hpos. destruct (Z.eq_dec x 0) as [->|]; [simpl; lia|].
    apply Z.log2_lt_pow2; lia. }
  destruct (Z.eq_dec n 0) as [->|].
  - simpl in Ha, Hc. assert (a = 0) by lia. assert (c = 0) by lia. subst.
    rewrite Z.lxor_0_l in Hne. lia.
  - pose proof (Hlog a Ha ltac:(lia)). pose proof (Hlog c Hc ltac:(lia)). lia.
Qed.

Lemma crc_bit_range (c : Z) :
  0 <= c < 2 ^ 32 -> 0 <= binascii.crc_bit c < 2 ^ 32.
Proof.
  intros Hc. unfold binascii.crc_bit.
  assert (Hs : 0 <= Z.shiftr c 1 < 2 ^ 32).
  { rewrite Z.shiftr_div_pow2 by lia. change (2 ^ 1) with 2.
    split; [apply Z.div_pos; lia|].
    apply Z.div_lt_upper_bound; lia. }
  destruct (Z.testbit c 0); [|exact Hs].
  apply lxor_range; [lia|exact Hs|lia].
Qed.

Lemma crc_byte_range (c : Z) (x : byte) :
  0 <= c < 2 ^ 32 -> 0 <= binascii.crc_byte c x < 2 ^ 32.
Proof.
  intros Hc. unfold binascii.crc_byte.
  assert (H0 : 0 <= Z.lxor c (Py.byte_to_Z x) < 2 ^ 32).
  { apply lxor_range; [lia|exact Hc|]. pose proof (byte_to_Z_range x). lia. }
  generalize dependent (Z.lxor c (Py.byte_to_Z x)). intros r Hr.
  simpl. do 8 apply crc_bit_range. exact Hr.
Qed.

(** The checksum is a 32-bit value, so writing it on 4 bytes never fails. *)
Lemma crc32_range (data : bytes) : 0 <= binascii.crc32 data < 2 ^ 32.
Proof.
  unfold binascii.crc32.
  apply lxor_range; [lia| |lia].
  assert (H : forall c, 0 <= c < 2 ^ 32 ->
            0 <= fold_left binascii.crc_byte data c < 2 ^ 32).
  { induction data as [|x data IH]; intros c Hc; simpl; [exact Hc|].
    apply IH, crc_byte_range, Hc. }
  apply H. lia.
Qed.

(** The model against known values: the check value of CRC-32, and the
    checksum of an empty IEND chunk that [_PNG_FOOTER] spells out. *)
Example crc32_check_value :
  binascii.crc32 (b"123456789") = 0xCBF43926.
Proof. vm_compute. reflexivity. Qed.

Example crc32_IEND :
  Py.to_bytes (binascii.crc32 (b"IEND")) 4 = Ok [xae; x42; x60; x82].
Proof. vm_compute. reflexivity. Qed.

Example slice_negative_start :
  Py.slice (b"abcde") (Some (-3)) None = b"cde".
Proof. reflexivity. Qed.

Example decode_utf8_strict :
  Py.decode_utf8 [x49; x45; xc3; xa9] = Ok [73; 69; 233]
  /\ Py.decode_utf8 [x74; x45; x58; xff] = Raise UnicodeDecodeError.
Proof. split; reflexivity. Qed.

End Builtins.

(** * Properties of Chunk *)

Section ChunkFacts.

Lemma to_bytes_crc32 (data : bytes) :
  Py.to_bytes (binascii.crc32 data) 4 = Ok (Py.be_digits 4 (binascii.crc32 data)).
Proof.
  pose proof (crc32_range data) as H.
  rewrite to_bytes_Ok; [reflexivity|lia|].
  change (256 ^ 4) with (2 ^ 32). exact H.
Qed.

Lemma calculate_crc32_Ok (c : Chunk.t) :
  Chunk.calculate_crc32 c = Ok (Chunk.set_crc32 c (checksum c)).
Proof.
  unfold Chunk.calculate_crc32. rewrite to_bytes_crc32. reflexivity.
Qed.

Lemma export_chunk_Ok (c : Chunk.t) :
  Chunk.export_chunk c
  = Ok (Chunk.set_crc32 c (checksum c),
        Chunk.size c ++ Chunk.type c ++ Chunk.data c ++ checksum c).
Proof.
  unfold Chunk.export_chunk. rewrite calculate_crc32_Ok. reflexivity.
Qed.

Lemma length_checksum (c : Chunk.t) : length (checksum c) = 4%nat.
Proof. apply length_be_digits. Qed.

Lemma from_bytes_checksum (c : Chunk.t) :
  Py.from_bytes (checksum c) = binascii.crc32 (Chunk.type c ++ Chunk.data c).
Proof.
  unfold checksum. pose proof (crc32_range (Chunk.type c ++ Chunk.data c)) as H.
  rewrite from_bytes_be_digits by lia.
  apply Z.mod_small. change (256 ^ Z.of_nat 4) with (2 ^ 32). exact H.
Qed.

End ChunkFacts.

(** * Lookup by type *)

Section Lookup.

Lemma pick_by_arity {A} (finds : list A) : PNG.pick finds = by_arity finds.
Proof.
  unfold PNG.pick, Py.len.
  destruct finds as [|a [|a' finds]]; simpl; try reflexivity.
  destruct (Z.ltb_spec 1 (Z.of_nat (S (S (length finds))))); [reflexivity|lia].
Qed.

Lemma enumerate_snoc {A} (l : list A) (x : A) :
  PNG.enumerate (l ++ [x]) = PNG.enumerate l ++ [(Z.of_nat (length l), x)].
Proof.
  unfold PNG.enumerate. rewrite imap_app. simpl.
  rewrite Nat.add_0_r. reflexivity.
Qed.

Lemma matching_chunks_snoc chunks c ty :
  matching_chunks (chunks ++ [c]) ty
  = matching_chunks chunks ty ++ (if decide (Chunk.type c = ty) then [c] else []).
Proof.
  unfold matching_chunks. rewrite filter_app. reflexivity.
Qed.

Lemma filter_agree {A} (P Q : A -> Prop)
    `{!forall x, Decision (P x)} `{!forall x, Decision (Q x)} (l : list A) :
  (forall x, x ∈ l -> (P x <-> Q x)) -> filter P l = filter Q l.
Proof.
  induction l as [|x l IH]; intros Hagree; [reflexivity|].
  rewrite !filter_cons.
  rewrite IH by (intros y Hy; apply Hagree; right; exact Hy).
  pose proof (Hagree x ltac:(left)) as Hx.
  destruct (decide (P x)) as [HP|HP], (decide (Q x)) as [HQ|HQ];
    try reflexivity; tauto.
Qed.

Lemma matching_positions_snoc chunks c ty :
  matching_positions (chunks ++ [c]) ty
  = matching_positions chunks ty
    ++ (if decide (Chunk.type c = ty) then [length chunks] else []).
Proof.
  unfold matching_positions.
  rewrite length_app. simpl. rewrite Nat.add_1_r, seq_S, filter_app. f_equal.
  - apply filter_agree. intros i Hi.
    apply elem_of_seq in Hi.
    rewrite lookup_app_l by lia. reflexivity.
  - simpl. rewrite filter_cons, filter_nil.
    rewrite list_lookup_middle by reflexivity. simpl.
    destruct (decide (Chunk.type c = ty)) as [->|Hne].
    + rewrite decide_True by reflexivity. reflexivity.
    + rewrite decide_False by congruence. reflexivity.
Qed.

(** What the loop of lines 72-75 leaves in its two lists. *)
Lemma collect_all chunks ty :
  fold_left (PNG.collect ty) (PNG.enumerate chunks) ([], [])
  = (Z.of_nat <$> matching_positions chunks ty, matching_chunks chunks ty).
Proof.
  induction chunks as [|c chunks IH] using rev_ind; [reflexivity|].
  rewrite enumerate_snoc, fold_left_app, IH. simpl.
  rewrite matching_positions_snoc, matching_chunks_snoc, fmap_app.
  unfold Py.bytes_eqb.
  destruct (decide (Chunk.type c = ty)) as [Heq|Hne].
  - rewrite bool_decide_eq_true_2 by exact Heq. reflexivity.
  - rewrite bool_decide_eq_false_2 by exact Hne. simpl.
    rewrite !app_nil_r. reflexivity.
Qed.

Lemma get_chunk_by_type_chunks chunks ty :
  PNG.get_chunk_by_type chunks ty false = by_arity (matching_chunks chunks ty).
Proof.
  unfold PNG.get_chunk_by_type. rewrite collect_all. apply pick_by_arity.
Qed.

Lemma get_chunk_by_type_indices chunks ty :
  PNG.get_chunk_by_type chunks ty true
  = (by_arity (Z.of_nat <$> matching_positions chunks ty),
     by_arity (matching_chunks chunks ty)).
Proof.
  unfold PNG.get_chunk_by_type. rewrite collect_all, !pick_by_arity. reflexivity.
Qed.

(** Position by position, the matches are the chunks found there. *)
Lemma positions_chunks chunks ty :
  Forall2 (fun i c => chunks !! i = Some c)
          (matching_positions chunks ty) (matching_chunks chunks ty).
Proof.
  induction chunks as [|c chunks IH] using rev_ind; [constructor|].
  rewrite matching_positions_snoc, matching_chunks_snoc.
  apply Forall2_app.
  - eapply Forall2_impl; [exact IH|]. intros i x Hix.
    rewrite lookup_app_l; [exact Hix|]. eapply lookup_lt_Some, Hix.
  - destruct (decide (Chunk.type c = ty)); constructor; [|constructor].
    apply list_lookup_middle. reflexivity.
Qed.

End Lookup.

(** * The chunk walk *)

Section Walk.

Lemma Chunk_init_empty :
  Chunk.__init__ [] []
  = Ok {| Chunk.size := [x00; x00; x00; x00]; Chunk.type := [];
          Chunk.data := []; Chunk.crc32 := [x00; x00; x00; x00] |}.
Proof. vm_compute. reflexivity. Qed.

(** One turn of the loop, by cases. *)
Lemma read_chunk_cases data i chunks :
  PNG.read_chunk data i chunks
  = let c := chunk_at data i in
    let ty := Chunk.type c in
    match Py.decode_utf8 ty with
    | Raise e => Raise e
    | Ok _ =>
      if negb (Py.contains CRITICAL_CHUNKS ty) && negb (Py.contains ANCILLARY_CHUNKS ty)
      then Raise (RuntimeWarning (UnknownChunkType ty))
      else if is_not_None (PNG.get_chunk_by_type chunks ty false) && negb (repeatable ty)
      then Raise (RuntimeError (AlreadyExists ty))
      else Ok (i + 4 + 4 + Chunk.int_size c + 4, chunks ++ [c])
    end.
Proof.
  unfold PNG.read_chunk. rewrite Chunk_init_empty. cbn [mbind result_bind].
  cbv zeta. unfold chunk_at. cbn [Chunk.type Chunk.set_type Chunk.set_size
    Chunk.set_data Chunk.set_crc32 Chunk.size Chunk.data Chunk.crc32].
  destruct (Py.decode_utf8 _) as [s|e]; [|reflexivity]. cbn [mbind result_bind].
  destruct (negb (Py.contains CRITICAL_CHUNKS _) && negb (Py.contains ANCILLARY_CHUNKS _));
    [reflexivity|].
  unfold repeatable.
  rewrite negb_orb, negb_involutive, andb_assoc.
  destruct (_ && _ && _); reflexivity.
Qed.

(** The cursor moves forward at every turn. *)
Lemma read_chunk_advances data i chunks i' chunks' :
PNG.read_chunk data i chunks = Ok (i', chunks') -> i + 12 <= i'.
Proof.
unfold PNG.read_chunk. intros H.
destruct (Chunk.__init__ [] []) as [c|e]; simpl in H; [|discriminate].
destruct (Py.decode_utf8 _) as [s|e]; simpl in H; [|discriminate].
repeat match type of H with
       | (if ?c then _ else _) = _ => destruct c; [discriminate|]
       end.
injection H as <- _.
pose proof (from_bytes_nonneg (Py.slice data (Some i) (Some (i + 4)))) as Hn.
unfold Chunk.int_size. simpl. lia.
Qed.

Lemma split_loop_unfold data i chunks :
  PNG.split_loop data i chunks
  = if decide (i < Py.len data) then
      match PNG.read_chunk data i chunks with
      | Ok (i', chunks') => PNG.split_loop data i' chunks'
      | Raise e => Raise e
      end
    else Ok chunks.
Proof.
  rewrite PNG.split_loop_equation_1. simpl.
  destruct (Z_lt_dec i (Py.len data)); simpl.
  - rewrite decide_True by assumption.
    destruct (PNG.read_chunk data i chunks) as [[i' chunks']|e]; reflexivity.
  - rewrite decide_False by assumption. reflexivity.
Qed.

(** The four fields of the chunk at [i] are the bytes of [data] from [i] up
    to the next cursor. *)
Lemma stored_record_chunk_at data i :
  0 <= i ->
  stored_record (chunk_at data i)
    ++ drop (Z.to_nat (i + 4 + 4 + Chunk.int_size (chunk_at data i) + 4)) data
  = drop (Z.to_nat i) data.
Proof.
  intros Hi. unfold stored_record, chunk_at, Chunk.int_size. simpl.
  pose proof (from_bytes_nonneg (Py.slice data (Some i) (Some (i + 4)))) as Hn.
  set (n := Py.from_bytes _) in *.
  rewrite <- !app_assoc.
  rewrite (slice_then_drop data (i + 4 + 4 + n)) by lia.
  rewrite (slice_then_drop data (i + 4 + 4)) by lia.
  rewrite (slice_then_drop data (i + 4)) by lia.
  apply slice_then_drop. lia.
Qed.

Lemma length_crc32_chunk_at data i :
  0 <= i -> (length (Chunk.crc32 (chunk_at data i)) <= 4)%nat.
Proof.
  intros Hi. unfold chunk_at. simpl.
  pose proof (from_bytes_nonneg (Py.slice data (Some i) (Some (i + 4)))) as Hn.
  set (n := Py.from_bytes _) in *.
  pose proof (length_slice_le data (i + 4 + 4 + n) (i + 4 + 4 + n + 4)
                ltac:(lia) ltac:(lia)) as H.
  unfold Py.len in H. lia.
Qed.

(** A walk that ends well has appended, from cursor [i] on, chunks whose
    stored fields are the rest of the buffer, in order. *)
Lemma split_loop_records data i chunks cs :
  0 <= i ->
  PNG.split_loop data i chunks = Ok cs ->
  exists new,
    cs = chunks ++ new
    /\ concat (stored_record <$> new) = drop (Z.to_nat i) data
    /\ Forall (fun c => (length (Chunk.crc32 c) <= 4)%nat) new.
Proof.
  remember (Z.to_nat (Py.len data - i)) as m eqn:Hm.
  revert i chunks Hm. induction m as [m IH] using lt_wf_ind.
  intros i chunks Hm Hi Hloop.
  rewrite split_loop_unfold in Hloop.
  destruct (decide (i < Py.len data)) as [Hlt|Hge].
  - destruct (PNG.read_chunk data i chunks) as [[i' chunks']|e] eqn:Hread;
      [|discriminate].
    pose proof (read_chunk_advances _ _ _ _ _ Hread) as Hadv.
    rewrite read_chunk_cases in Hread. cbv zeta in Hread.
    destruct (Py.decode_utf8 _); [|discriminate].
    destruct (_ && _); [discriminate|].
    destruct (_ && _); [discriminate|].
    injection Hread as <- <-.
    destruct (IH (Z.to_nat (Py.len data - (i + 4 + 4 + Chunk.int_size (chunk_at data i) + 4)))
                ltac:(lia) _ _ eq_refl ltac:(lia) Hloop)
      as (new & -> & Hcat & Hall).
    exists (chunk_at data i :: new). split; [|split].
    + rewrite <- app_assoc. reflexivity.
    + rewrite fmap_cons. simpl. rewrite Hcat. apply stored_record_chunk_at, Hi.
    + constructor; [apply length_crc32_chunk_at, Hi|exact Hall].
  - injection Hloop as <-. exists []. split; [|split].
    + rewrite app_nil_r. reflexivity.
    + simpl. rewrite drop_ge; [reflexivity|]. unfold Py.len in Hge. lia.
    + constructor.
Qed.

End Walk.

(** * Parsing *)

Section Parse.

Lemma length_slice_le_all {A} (l : list A) (start stop : option Z) :
  (length (Py.slice l start stop) <= length l)%nat.
Proof.
  unfold Py.slice. rewrite length_take, length_drop. lia.
Qed.

Lemma header_check (data : bytes) :
  Py.bytes_eqb (Py.slice data None (Some (Py.len _PNG_HEADER))) _PNG_HEADER = true
  <-> starts_with_signature data.
Proof.
  unfold Py.bytes_eqb. rewrite bool_decide_eq_true.
  rewrite slice_to by (unfold Py.len; lia).
  split.
  - intros H. exists (drop (Z.to_nat (Py.len _PNG_HEADER)) data).
    rewrite <- H at 1. symmetry. apply take_drop.
  - intros [rest ->]. reflexivity.
Qed.

Lemma footer_check (data : bytes) :
  Py.bytes_eqb (Py.slice data (Some (Py.len data - Py.len _PNG_FOOTER)) None)
               _PNG_FOOTER = true
  <-> ends_with_terminator data.
Proof.
  unfold Py.bytes_eqb. rewrite bool_decide_eq_true.
  split.
  - intros H.
    destruct (Z_le_gt_dec (Py.len _PNG_FOOTER) (Py.len data)) as [Hle|Hgt].
    + rewrite slice_from in H by lia.
      exists (take (Z.to_nat (Py.len data - Py.len _PNG_FOOTER)) data).
      rewrite <- H at 2. symmetry. apply take_drop.
    + pose proof (length_slice_le_all data
                    (Some (Py.len data - Py.len _PNG_FOOTER)) None) as Hlen.
      rewrite H in Hlen. unfold Py.len in Hgt. lia.
  - intros [front ->].
    rewrite slice_from by (unfold Py.len; rewrite length_app; lia).
    replace (Z.to_nat (Py.len (front ++ _PNG_FOOTER) - Py.len _PNG_FOOTER))
      with (length front) by (unfold Py.len; rewrite length_app; lia).
    apply drop_app_length.
Qed.

(** What a successful [PNG(data)] went through. *)
Lemma init_Ok_inv (data : bytes) (png : PNG.t) :
  PNG.__init__ data = Ok png ->
  starts_with_signature data
  /\ ends_with_terminator data
  /\ PNG.__split_chunks__ data = Ok (PNG.chunks png)
  /\ (exists h,
        PNG.get_chunk_by_type (PNG.chunks png) (b"IHDR") false = Single h
        /\ metadata png
           = (Py.from_bytes (Py.slice (Chunk.data h) (Some 0) (Some 4)),
              Py.from_bytes (Py.slice (Chunk.data h) (Some 4) (Some 8)),
              Py.from_bytes (Py.slice (Chunk.data h) (Some 8) (Some 9)),
              Py.from_bytes (Py.slice (Chunk.data h) (Some 9) (Some 10)),
              Py.from_bytes (Py.slice (Chunk.data h) (Some 10) (Some 11)),
              Py.from_bytes (Py.slice (Chunk.data h) (Some 11) (Some 12)),
              Py.from_bytes (Py.slice (Chunk.data h) (Some 12) (Some 13))))
  /\ PNG.__validate_chunks__ png = Ok ()
  /\ PNG.color_type png <> 0 /\ PNG.color_type png <> 4.
Proof.
  unfold PNG.__init__. intros H.
  destruct (Py.bytes_eqb (Py.slice data None _) _) eqn:Hhead; [|discriminate].
  destruct (Py.bytes_eqb (Py.slice data (Some _) None) _) eqn:Hfoot; [|discriminate].
  simpl in H.
  destruct (PNG.__split_chunks__ data) as [chunks|e]; [|discriminate].
  cbn [mbind result_bind] in H.
  destruct (PNG.get_chunk_by_type chunks (b"IHDR") false) as [|h|hs] eqn:Hget;
    try discriminate.
  cbn [PNG.attr_data mbind result_bind] in H. cbv zeta in H.
  match type of H with
  | context [PNG.__validate_chunks__ ?s] =>
    destruct (PNG.__validate_chunks__ s) as [[]|e] eqn:Hval; [|discriminate]
  end.
  cbn [mbind result_bind PNG.color_type] in H.
  destruct (Z.eqb_spec (Py.from_bytes (Py.slice (Chunk.data h) (Some 9) (Some 10))) 0)
    as [|Hne0]; [discriminate|].
  destruct (Z.eqb_spec (Py.from_bytes (Py.slice (Chunk.data h) (Some 9) (Some 10))) 4)
    as [|Hne4]; [discriminate|].
  simpl in H. injection H as <-.
  split; [apply header_check, Hhead|].
  split; [apply footer_check, Hfoot|].
  split; [reflexivity|].
  split; [exists h; split; [exact Hget|reflexivity]|].
  split; [exact Hval|].
  split; assumption.
Qed.

(** The buffer of a successful parse is the signature followed by the
    stored fields of the chunks, in order. *)
Lemma init_Ok_records (data : bytes) (png : PNG.t) :
  PNG.__init__ data = Ok png ->
  data = _PNG_HEADER ++ concat (stored_record <$> PNG.chunks png)
  /\ Forall (fun c => (length (Chunk.crc32 c) <= 4)%nat) (PNG.chunks png).
Proof.
  intros H. apply init_Ok_inv in H as ([rest ->] & _ & Hsplit & _).
  unfold PNG.__split_chunks__ in Hsplit.
  apply split_loop_records in Hsplit as (new & Hnew & Hcat & Hall);
    [|unfold Py.len; lia].
  simpl in Hnew. subst new. rewrite Hcat. split; [reflexivity|exact Hall].
Qed.

End Parse.

(** * Serialisation *)

Section Serialise.

Lemma export_chunks_Ok (chunks : list Chunk.t) :
  PNG.export_chunks chunks
  = Ok ((fun c => Chunk.set_crc32 c (checksum c)) <$> chunks, encoded <$> chunks).
Proof.
  induction chunks as [|c chunks IH]; [reflexivity|].
  cbn [PNG.export_chunks]. rewrite export_chunk_Ok. cbn [mbind result_bind].
  rewrite IH. reflexivity.
Qed.

Lemma checksum_valid_iff (c : Chunk.t) :
  checksum_valid c <-> Chunk.crc32 c = checksum c.
Proof.
  unfold checksum_valid. rewrite to_bytes_crc32. unfold checksum.
  split; [intros H; congruence|intros ->; reflexivity].
Qed.

Lemma length_concat_records (chunks : list Chunk.t) :
  Forall (fun c => (length (Chunk.crc32 c) <= 4)%nat) chunks ->
  (length (concat (stored_record <$> chunks))
   <= length (concat (encoded <$> chunks)))%nat.
Proof.
  induction 1 as [|c chunks Hc _ IH]; [reflexivity|].
  rewrite !fmap_cons. simpl. rewrite !length_app.
  unfold stored_record, encoded in *. rewrite !length_app, length_checksum. lia.
Qed.

(** The records written are the stored fields exactly when every stored
    checksum is the computed one. *)
Lemma concat_records_eq (chunks : list Chunk.t) :
  Forall (fun c => (length (Chunk.crc32 c) <= 4)%nat) chunks ->
  concat (encoded <$> chunks) = concat (stored_record <$> chunks)
  <-> Forall checksum_valid chunks.
Proof.
  intros Hlen. split.
  - induction Hlen as [|c chunks Hc Hlen IH]; intros Heq; [constructor|].
    rewrite !fmap_cons in Heq. simpl in Heq.
    unfold encoded at 1 in Heq. unfold stored_record at 1 in Heq.
    rewrite <- !app_assoc in Heq.
    do 3 apply app_inv_head in Heq.
    pose proof (length_concat_records chunks Hlen) as Hle.
    pose proof (f_equal length Heq) as Hl.
    rewrite !length_app, length_checksum in Hl.
    apply app_inj_1 in Heq as [Hcrc Hrest]; [|rewrite length_checksum; lia].
    constructor; [apply checksum_valid_iff; symmetry; exact Hcrc|apply IH, Hrest].
  - intros Hall. f_equal. apply Forall_fmap_ext_1.
    eapply Forall_impl; [exact Hall|]. intros c Hc.
    apply checksum_valid_iff in Hc. unfold encoded, stored_record.
    rewrite Hc. reflexivity.
Qed.

End Serialise.

(** * Patching payload bytes *)

Section SetValue.

Lemma position_Ok (n i : Z) (k : nat) :
  Py.position n i = Ok k ->
  Z.of_nat k < n /\ Z.of_nat k = (if i <? 0 then i + n else i).
Proof.
  unfold Py.position. intros H.
  destruct (_ && _) eqn:Hrange; [|discriminate].
  injection H as <-. apply andb_true_iff in Hrange as [H0 H1].
  apply Z.leb_le in H0. apply Z.ltb_lt in H1. lia.
Qed.

Lemma getitem_Ok_inv {A} (l : list A) (i : Z) (a : A) :
  Py.getitem l i = Ok a ->
  exists k, Py.position (Py.len l) i = Ok k /\ l !! k = Some a.
Proof.
  unfold Py.getitem. intros H.
  destruct (Py.position (Py.len l) i) as [k|e]; [|discriminate].
  cbn [mbind result_bind] in H.
  destruct (l !! k) as [a'|] eqn:Hk; [|discriminate].
  injection H as <-. exists k. split; [reflexivity|exact Hk].
Qed.

(** The call succeeds whenever the index names a chunk and the value fits
    the width; no bound of the payload is looked at. *)
Lemma set_value_at_index_Ok self chunk_index index new_value num_bytes chunk :
  Py.getitem (PNG.chunks self) chunk_index = Ok chunk ->
  0 <= new_value < 256 ^ num_bytes ->
  exists k,
    Py.position (Py.len (PNG.chunks self)) chunk_index = Ok k
    /\ PNG.chunks self !! k = Some chunk
    /\ 0 <= num_bytes
    /\ Py.to_bytes new_value num_bytes
       = Ok (Py.be_digits (Z.to_nat num_bytes) new_value)
    /\ PNG.set_value_at_index self chunk_index index new_value num_bytes
       = Ok (PNG.set_chunks self
               (<[k := Chunk.set_data chunk
                         (Py.slice (Chunk.data chunk) None (Some index)
                          ++ Py.be_digits (Z.to_nat num_bytes) new_value
                          ++ Py.slice (Chunk.data chunk)
                                      (Some (index + num_bytes)) None)]>
                  (PNG.chunks self))).
Proof.
  intros Hget Hv.
  assert (Hw : 0 <= num_bytes).
  { destruct (Z_lt_le_dec num_bytes 0) as [Hneg|]; [|assumption].
    rewrite Z.pow_neg_r in Hv by exact Hneg. lia. }
  destruct (getitem_Ok_inv _ _ _ Hget) as (k & Hpos & Hk).
  exists k. split; [exact Hpos|]. split; [exact Hk|]. split; [exact Hw|].
  pose proof (to_bytes_Ok new_value num_bytes Hw Hv) as Hto.
  split; [exact Hto|].
  unfold PNG.set_value_at_index. rewrite Hget. cbn [mbind result_bind].
  rewrite Hto. cbn [mbind result_bind].
  unfold Py.setitem. rewrite Hpos. reflexivity.
Qed.

End SetValue.

(** * The claims *)

Lemma parse_minimal_png : PNG.__init__ minimal_png = Ok minimal_container.
Proof. vm_compute. reflexivity. Qed.

(** ** C6: lookup by type *)

(** C6.  [get_chunk_by_type] returns [None] when no chunk has the type, the
    chunk itself when exactly one has, and the list of all of them in
    sequence order when two or more have; asked for positions, it returns in
    the same three shapes the positions of those chunks, which correspond
    one to one to the chunks returned. *)
Theorem find_by_tag_arity (chunks : list Chunk.t) (ty : bytes) :
  PNG.get_chunk_by_type chunks ty false = by_arity (matching_chunks chunks ty)
  /\ PNG.get_chunk_by_type chunks ty true
     = (by_arity (Z.of_nat <$> matching_positions chunks ty),
        by_arity (matching_chunks chunks ty))
  /\ Forall2 (fun i c => chunks !! i = Some c)
             (matching_positions chunks ty) (matching_chunks chunks ty).
Proof.
  split; [apply get_chunk_by_type_chunks|].
  split; [apply get_chunk_by_type_indices|apply positions_chunks].
Qed.

(** ** C7: signature and terminator *)

(** C7.  A buffer that does not begin with the signature or does not end
    with the terminator pattern is refused with the exception of line 35;
    and whenever [PNG(data)] raises, the caller gets no container. *)
Theorem parse_rejects_unframed (buf : bytes) :
  (~ starts_with_signature buf \/ ~ ends_with_terminator buf ->
   PNG.__init__ buf = Raise (Exception NoHeaderFooter))
  /\ (forall e, PNG.__init__ buf = Raise e -> forall png, PNG.__init__ buf <> Ok png).
Proof.
  split.
  - intros Hbad. unfold PNG.__init__.
    destruct (Py.bytes_eqb (Py.slice buf None _) _) eqn:Hhead; [|reflexivity].
    destruct (Py.bytes_eqb (Py.slice buf (Some _) None) _) eqn:Hfoot; [|reflexivity].
    apply header_check in Hhead. apply footer_check in Hfoot. tauto.
  - intros e He png Hpng. rewrite He in Hpng. discriminate Hpng.
Qed.

Lemma parse_rejects_unframed_witness :
  PNG.__init__ (b"GIF89a") = Raise (Exception NoHeaderFooter)
  /\ forall png, PNG.__init__ (b"GIF89a") <> Ok png.
Proof.
  destruct (parse_rejects_unframed (b"GIF89a")) as [Hraise Hnone].
  assert (Hbad : ~ starts_with_signature (b"GIF89a") \/ ~ ends_with_terminator (b"GIF89a")).
  { left. intros [rest Hrest]. vm_compute in Hrest. discriminate Hrest. }
  split; [exact (Hraise Hbad)|exact (Hnone _ (Hraise Hbad))].
Defined.

(** ** C10: a patch inside the payload *)

(** C10.  With [0 <= index], [index + num_bytes <= len(payload)] and
    [0 <= new_value < 256 ^ num_bytes] (so [num_bytes] is not negative),
    [set_value_at_index] succeeds, keeps the length of the payload, writes
    the big-endian digits of [new_value] at positions [index] to
    [index + num_bytes - 1], and changes nothing else: not the other bytes
    of the payload, not the other fields of the chunk, not the other chunks,
    not the metadata. *)
Theorem set_value_at_index_frame
    (self : PNG.t) (chunk_index index new_value num_bytes : Z) (chunk : Chunk.t) :
  Py.getitem (PNG.chunks self) chunk_index = Ok chunk ->
  0 <= index ->
  index + num_bytes <= Py.len (Chunk.data chunk) ->
  0 <= new_value < 256 ^ num_bytes ->
  exists self' k chunk',
    PNG.set_value_at_index self chunk_index index new_value num_bytes = Ok self'
    /\ Py.position (Py.len (PNG.chunks self)) chunk_index = Ok k
    /\ PNG.chunks self' !! k = Some chunk'
    /\ length (Chunk.data chunk') = length (Chunk.data chunk)
    /\ (forall p, 0 <= p < num_bytes ->
          Py.byte_to_Z <$> Chunk.data chunk' !! Z.to_nat (index + p)
          = Some ((new_value / 256 ^ (num_bytes - 1 - p)) mod 256))
    /\ (forall q : nat, Z.of_nat q < index \/ index + num_bytes <= Z.of_nat q ->
          Chunk.data chunk' !! q = Chunk.data chunk !! q)
    /\ Chunk.type chunk' = Chunk.type chunk
    /\ Chunk.size chunk' = Chunk.size chunk
    /\ Chunk.crc32 chunk' = Chunk.crc32 chunk
    /\ length (PNG.chunks self') = length (PNG.chunks self)
    /\ (forall j, j <> k -> PNG.chunks self' !! j = PNG.chunks self !! j)
    /\ metadata self' = metadata self.
Proof.
  intros Hget Hi Hfit Hv.
  destruct (set_value_at_index_Ok self chunk_index index new_value num_bytes chunk Hget Hv)
    as (k & Hpos & Hk & Hw & _ & Hset).
  rewrite slice_to, slice_from in Hset by lia.
  set (d := Chunk.data chunk) in *.
  set (enc := Py.be_digits (Z.to_nat num_bytes) new_value) in *.
  assert (Hlenc : length enc = Z.to_nat num_bytes) by apply length_be_digits.
  assert (Hltake : length (take (Z.to_nat index) d) = Z.to_nat index).
  { rewrite length_take. unfold Py.len in Hfit. lia. }
  assert (Hkl : (k < length (PNG.chunks self))%nat) by (eapply lookup_lt_Some, Hk).
  eexists _, k, _. split; [exact Hset|]. split; [exact Hpos|].
  split; [apply list_lookup_insert_eq, Hkl|].
  cbn [Chunk.set_data Chunk.data Chunk.type Chunk.size Chunk.crc32
       PNG.set_chunks PNG.chunks].
  split; [|split; [|split; [|split; [|split; [|split; [|split; [|split]]]]]]];
    try reflexivity.
  - rewrite !length_app, Hltake, Hlenc, length_drop.
    unfold Py.len in Hfit. lia.
  - intros p Hp.
    rewrite lookup_app_r by lia. rewrite Hltake.
    rewrite lookup_app_l by lia.
    replace (Z.to_nat (index + p) - Z.to_nat index)%nat with (Z.to_nat p) by lia.
    unfold enc. rewrite be_digits_lookup by lia.
    replace (Z.of_nat (Z.to_nat num_bytes - 1 - Z.to_nat p))
      with (num_bytes - 1 - p) by lia.
    reflexivity.
  - intros q [Hq|Hq].
    + rewrite lookup_app_l by lia. apply lookup_take_lt. lia.
    + rewrite lookup_app_r by lia. rewrite Hltake.
      rewrite lookup_app_r by lia. rewrite Hlenc.
      rewrite lookup_drop. f_equal. lia.
  - apply length_insert.
  - intros j Hj. apply list_lookup_insert_ne. congruence.
Qed.

Lemma set_value_at_index_frame_witness :
  exists self' k chunk',
    PNG.set_value_at_index minimal_container 0 8 16 1 = Ok self'
    /\ Py.position (Py.len (PNG.chunks minimal_container)) 0 = Ok k
    /\ PNG.chunks self' !! k = Some chunk'
    /\ Py.byte_to_Z <$> Chunk.data chunk' !! 8%nat = Some 16
    /\ metadata self' = metadata minimal_container.
Proof.
  destruct (set_value_at_index_frame minimal_container 0 8 16 1
              {| Chunk.size := [x00; x00; x00; x0d]; Chunk.type := b"IHDR";
                 Chunk.data := [x00; x00; x00; x01; x00; x00; x00; x01;
                                x08; x02; x00; x00; x00];
                 Chunk.crc32 := [x90; x77; x53; xde] |})
    as (self' & k & chunk' & Hset & Hpos & Hk & _ & Hnew & _ & _ & _ & _ & _ & _ & Hmeta).
  - reflexivity.
  - lia.
  - vm_compute. discriminate.
  - lia.
  - exists self', k, chunk'.
    split; [exact Hset|]. split; [exact Hpos|]. split; [exact Hk|].
    split; [exact (Hnew 0 ltac:(lia))|exact Hmeta].
Defined.

(** ** C2: a patch that runs past the payload *)

(** Two bytes written at offset 12 of the 13-byte IHDR payload: no
    exception, and a payload of 14 bytes. *)
Lemma bounds_counterexample : ~ bounds_claim minimal_container 0 12 2571 2.
Proof.
  intros H.
  edestruct H as [e He]; [reflexivity|vm_compute; reflexivity|].
  vm_compute in He. discriminate He.
Qed.

(** C2, amended.  There is no bounds check: with [0 <= index] and
    [0 <= new_value < 256 ^ num_bytes], a call whose window runs past the
    end of the payload succeeds; the payload becomes its bytes before
    [index] followed by the big-endian digits of [new_value], and the other
    fields of the chunk, the other chunks and the metadata stay as they
    were. *)
Theorem set_value_at_index_beyond
    (self : PNG.t) (chunk_index index new_value num_bytes : Z) (chunk : Chunk.t) :
  Py.getitem (PNG.chunks self) chunk_index = Ok chunk ->
  0 <= index ->
  0 <= new_value < 256 ^ num_bytes ->
  Py.len (Chunk.data chunk) < index + num_bytes ->
  exists self' k chunk' value,
    PNG.set_value_at_index self chunk_index index new_value num_bytes = Ok self'
    /\ Py.position (Py.len (PNG.chunks self)) chunk_index = Ok k
    /\ PNG.chunks self' !! k = Some chunk'
    /\ Py.to_bytes new_value num_bytes = Ok value
    /\ Chunk.data chunk' = take (Z.to_nat index) (Chunk.data chunk) ++ value
    /\ Py.len (Chunk.data chunk')
       = Z.min index (Py.len (Chunk.data chunk)) + num_bytes
    /\ Chunk.type chunk' = Chunk.type chunk
    /\ Chunk.size chunk' = Chunk.size chunk
    /\ Chunk.crc32 chunk' = Chunk.crc32 chunk
    /\ length (PNG.chunks self') = length (PNG.chunks self)
    /\ (forall j, j <> k -> PNG.chunks self' !! j = PNG.chunks self !! j)
    /\ metadata self' = metadata self.
Proof.
  intros Hget Hi Hv Hpast.
  destruct (set_value_at_index_Ok self chunk_index index new_value num_bytes chunk Hget Hv)
    as (k & Hpos & Hk & Hw & Hto & Hset).
  rewrite slice_to, slice_from in Hset by lia.
  rewrite (drop_ge (Chunk.data chunk)) in Hset by (unfold Py.len in Hpast; lia).
  rewrite app_nil_r in Hset.
  assert (Hkl : (k < length (PNG.chunks self))%nat) by (eapply lookup_lt_Some, Hk).
  eexists _, k, _, _. split; [exact Hset|]. split; [exact Hpos|].
  split; [apply list_lookup_insert_eq, Hkl|]. split; [exact Hto|].
  cbn [Chunk.set_data Chunk.data Chunk.type Chunk.size Chunk.crc32
       PNG.set_chunks PNG.chunks].
  split; [reflexivity|].
  split; [|split; [|split; [|split; [|split; [|split]]]]]; try reflexivity.
  - unfold Py.len. rewrite length_app, length_take, length_be_digits. lia.
  - apply length_insert.
  - intros j Hj. apply list_lookup_insert_ne. congruence.
Qed.

Lemma set_value_at_index_beyond_witness :
  exists self' chunk',
    PNG.set_value_at_index minimal_container 0 12 2571 2 = Ok self'
    /\ PNG.chunks self' !! 0%nat = Some chunk'
    /\ Py.len (Chunk.data chunk') = 14.
Proof.
  destruct (set_value_at_index_beyond minimal_container 0 12 2571 2
              {| Chunk.size := [x00; x00; x00; x0d]; Chunk.type := b"IHDR";
                 Chunk.data := [x00; x00; x00; x01; x00; x00; x00; x01;
                                x08; x02; x00; x00; x00];
                 Chunk.crc32 := [x90; x77; x53; xde] |})
    as (self' & k & chunk' & value & Hset & Hpos & Hk & _ & _ & Hlen & _).
  - reflexivity.
  - lia.
  - lia.
  - vm_compute. reflexivity.
  - vm_compute in Hpos. injection Hpos as <-.
    exists self', chunk'.
    split; [exact Hset|]. split; [exact Hk|exact Hlen].
Defined.

(** ** C1: parse, then export *)

(** The checksum field of IHDR is not checked when read and is computed
    afresh when written: the buffer with the zeroed field parses, and comes
    back with the field set to 90 77 53 de. *)
Lemma roundtrip_counterexample : ~ roundtrip_claim stale_crc_png.
Proof.
  intros H.
  edestruct H as [png' Hex]; [vm_compute; reflexivity|].
  vm_compute in Hex. discriminate Hex.
Qed.

(** C1, amended.  For every buffer that parses, [export_image] on the
    container as parsed succeeds, and what it returns is the buffer exactly
    when the stored checksum of every chunk is the CRC-32 of its type and
    data. *)
Theorem export_parse_roundtrip (buf : bytes) (png : PNG.t) :
  PNG.__init__ buf = Ok png ->
  exists png' out,
    PNG.export_image png = Ok (png', out)
    /\ (out = buf <-> Forall checksum_valid (PNG.chunks png)).
Proof.
  intros Hparse.
  destruct (init_Ok_inv _ _ Hparse) as (_ & _ & _ & _ & Hval & _).
  destruct (init_Ok_records _ _ Hparse) as [Hbuf Hlen].
  unfold PNG.export_image. rewrite Hval. cbn [mbind result_bind].
  rewrite export_chunks_Ok. cbn [mbind result_bind].
  eexists _, _. split; [reflexivity|].
  rewrite <- (concat_records_eq _ Hlen). rewrite Hbuf at 1.
  split; [apply app_inv_head|intros ->; reflexivity].
Qed.

Lemma export_parse_roundtrip_witness :
  exists png', PNG.export_image minimal_container = Ok (png', minimal_png).
Proof.
  destruct (export_parse_roundtrip minimal_png minimal_container)
    as (png' & out & Hex & Hiff).
  - vm_compute. reflexivity.
  - exists png'. rewrite Hex. f_equal. f_equal. apply Hiff.
    repeat constructor; vm_compute; reflexivity.
Defined.

(** ** C5: the record of a chunk *)

Lemma grown_chunk_reached :
  exists self',
    PNG.set_value_at_index minimal_container 0 12 2571 2 = Ok self'
    /\ PNG.chunks self' !! 0%nat = Some grown_chunk.
Proof. eexists. split; vm_compute; reflexivity. Qed.

Lemma encode_counterexample : ~ encode_claim grown_chunk.
Proof.
  intros (c' & len_field & crc_field & Hlen & Hcrc & Hex).
  vm_compute in Hlen. injection Hlen as <-.
  vm_compute in Hcrc. injection Hcrc as <-.
  vm_compute in Hex. discriminate Hex.
Qed.

(** C5, amended.  [export_chunk] returns the size field as stored, then the
    type, the data, and the 4-byte big-endian CRC-32 of type and data
    computed at that moment, which it also stores; so the last 4 bytes of
    the record are that checksum.  The size field is the 4-byte big-endian
    length of the payload for a chunk as [Chunk(type, data)] builds it.  An
    exported buffer is the signature followed by such records, one per
    chunk, in order. *)
Theorem export_chunk_record :
  (forall c : Chunk.t,
     exists crc_field,
       Py.to_bytes (binascii.crc32 (Chunk.type c ++ Chunk.data c)) 4 = Ok crc_field
       /\ length crc_field = 4%nat
       /\ Py.from_bytes crc_field = binascii.crc32 (Chunk.type c ++ Chunk.data c)
       /\ Chunk.export_chunk c
          = Ok (Chunk.set_crc32 c crc_field,
                Chunk.size c ++ Chunk.type c ++ Chunk.data c ++ crc_field)
       /\ drop (length (Chunk.size c ++ Chunk.type c ++ Chunk.data c))
               (Chunk.size c ++ Chunk.type c ++ Chunk.data c ++ crc_field)
          = crc_field)
  /\ (forall ty payload : bytes,
        Py.len payload < 2 ^ 32 ->
        exists c,
          Chunk.__init__ ty payload = Ok c
          /\ Chunk.type c = ty /\ Chunk.data c = payload
          /\ encode_claim c)
  /\ (forall (self self' : PNG.t) (out : bytes),
        PNG.export_image self = Ok (self', out) ->
        exists records,
          out = _PNG_HEADER ++ concat records
          /\ Forall2 (fun c record =>
                        exists crc_field,
                          Py.to_bytes (binascii.crc32 (Chunk.type c ++ Chunk.data c)) 4
                          = Ok crc_field
                          /\ record = Chunk.size c ++ Chunk.type c ++ Chunk.data c
                                      ++ crc_field)
                     (PNG.chunks self) records).
Proof.
  split; [|split].
  - intros c. exists (checksum c).
    split; [apply to_bytes_crc32|].
    split; [apply length_checksum|].
    split; [apply from_bytes_checksum|].
    split; [apply export_chunk_Ok|].
    replace (Chunk.size c ++ Chunk.type c ++ Chunk.data c ++ checksum c)
      with ((Chunk.size c ++ Chunk.type c ++ Chunk.data c) ++ checksum c)
      by (rewrite <- !app_assoc; reflexivity).
    apply drop_app_length.
  - intros ty payload Hlen.
    assert (Hto : Py.to_bytes (Py.len payload) 4
                  = Ok (Py.be_digits 4 (Py.len payload))).
    { apply to_bytes_Ok; [lia|]. change (256 ^ 4) with (2 ^ 32).
      unfold Py.len in *. lia. }
    unfold Chunk.__init__. rewrite Hto. cbn [mbind result_bind].
    rewrite calculate_crc32_Ok. eexists. split; [reflexivity|].
    cbn [Chunk.set_crc32 Chunk.type Chunk.data Chunk.size].
    split; [reflexivity|]. split; [reflexivity|].
    unfold encode_claim. cbn [Chunk.type Chunk.data].
    eexists _, _, _. split; [exact Hto|]. split; [apply to_bytes_crc32|].
    rewrite export_chunk_Ok. reflexivity.
  - intros self self' out Hex. unfold PNG.export_image in Hex.
    destruct (PNG.__validate_chunks__ self) as [[]|e]; [|discriminate].
    cbn [mbind result_bind] in Hex. rewrite export_chunks_Ok in Hex.
    cbn [mbind result_bind] in Hex. injection Hex as _ <-.
    exists (encoded <$> PNG.chunks self). split; [reflexivity|].
    apply Forall2_fmap_r, Forall_Forall2_diag, Forall_forall.
    intros c _. exists (checksum c). split; [apply to_bytes_crc32|reflexivity].
Qed.

Lemma export_chunk_record_witness :
  exists c,
    Chunk.__init__ (b"IDAT") [x01; x02; x03] = Ok c
    /\ Chunk.type c = b"IDAT" /\ Chunk.data c = [x01; x02; x03]
    /\ encode_claim c.
Proof.
  apply (proj1 (proj2 export_chunk_record) (b"IDAT") [x01; x02; x03]).
  vm_compute. reflexivity.
Defined.

(** ** C9: the fields decoded from the header chunk *)

(** A header payload of 10 bytes parses; the last three fields are 0 with
    no byte behind them. *)
Lemma header_layout_counterexample : ~ header_layout_claim short_header_png.
Proof.
  intros H.
  edestruct H as (h & Hget & _ & _ & _ & _ & Hcm & _); [vm_compute; reflexivity|].
  vm_compute in Hget. injection Hget as <-.
  vm_compute in Hcm. discriminate Hcm.
Qed.

Section Header.

Lemma from_bytes_slice1 (d : bytes) (k : nat) :
  Py.from_bytes (Py.slice d (Some (Z.of_nat k)) (Some (Z.of_nat (k + 1))))
  = match d !! k with Some x => Py.byte_to_Z x | None => 0 end.
Proof.
  rewrite slice_between by lia.
  replace (Z.to_nat (Z.of_nat (k + 1) - Z.of_nat k)) with 1%nat by lia.
  rewrite Nat2Z.id.
  replace (d !! k) with (drop k d !! 0%nat)
    by (rewrite lookup_drop; f_equal; lia).
  destruct (drop k d) as [|x rest]; reflexivity.
Qed.

Lemma from_bytes_slice4 (d : bytes) (k : nat) :
  (k + 4 <= length d)%nat ->
  u32be_at d k (Py.from_bytes (Py.slice d (Some (Z.of_nat k)) (Some (Z.of_nat (k + 4))))).
Proof.
  intros Hlen. rewrite slice_between by lia.
  replace (Z.to_nat (Z.of_nat (k + 4) - Z.of_nat k)) with 4%nat by lia.
  rewrite Nat2Z.id. unfold u32be_at, u8_at.
  replace (d !! k) with (drop k d !! 0%nat)
    by (rewrite lookup_drop; f_equal; lia).
  rewrite <- !lookup_drop.
  pose proof (length_drop d k) as Hd.
  destruct (drop k d) as [|x0 [|x1 [|x2 [|x3 rest]]]]; simpl in Hd; try lia.
  exists (Py.byte_to_Z x0), (Py.byte_to_Z x1), (Py.byte_to_Z x2), (Py.byte_to_Z x3).
  repeat (split; [reflexivity|]).
  unfold Py.from_bytes. simpl. lia.
Qed.

End Header.

(** C9, amended.  For every buffer that parses, there is exactly one IHDR
    chunk; its payload has at least 10 bytes; width and height are its
    bytes 0-3 and 4-7, most significant first, bit depth and colour type its
    bytes 8 and 9; compression, filter and interlace method are its bytes
    10, 11 and 12 where it has them, and 0 where it is too short. *)
Theorem header_fields_decoded (buf : bytes) (png : PNG.t) :
  PNG.__init__ buf = Ok png ->
  exists h,
    PNG.get_chunk_by_type (PNG.chunks png) (b"IHDR") false = Single h
    /\ (10 <= length (Chunk.data h))%nat
    /\ u32be_at (Chunk.data h) 0 (PNG.width png)
    /\ u32be_at (Chunk.data h) 4 (PNG.height png)
    /\ u8_at (Chunk.data h) 8 (PNG.bit_depth png)
    /\ u8_at (Chunk.data h) 9 (PNG.color_type png)
    /\ u8_or_zero_at (Chunk.data h) 10 (PNG.compression_method png)
    /\ u8_or_zero_at (Chunk.data h) 11 (PNG.filter_method png)
    /\ u8_or_zero_at (Chunk.data h) 12 (PNG.interlace_method png).
Proof.
  intros Hparse.
  destruct (init_Ok_inv _ _ Hparse) as (_ & _ & _ & (h & Hget & Hmeta) & _ & Hct & _).
  unfold metadata in Hmeta.
  injection Hmeta as Hw Hh Hbd Hc Hcm Hfm Him.
  pose proof (from_bytes_slice1 (Chunk.data h) 8) as H8.
  pose proof (from_bytes_slice1 (Chunk.data h) 9) as H9.
  pose proof (from_bytes_slice1 (Chunk.data h) 10) as H10.
  pose proof (from_bytes_slice1 (Chunk.data h) 11) as H11.
  pose proof (from_bytes_slice1 (Chunk.data h) 12) as H12.
  change (Z.of_nat 8) with 8 in H8. change (Z.of_nat (8 + 1)) with 9 in H8, H9.
  change (Z.of_nat 9) with 9 in H9. change (Z.of_nat (9 + 1)) with 10 in H9.
  change (Z.of_nat 10) with 10 in H10. change (Z.of_nat (10 + 1)) with 11 in H10.
  change (Z.of_nat 11) with 11 in H11. change (Z.of_nat (11 + 1)) with 12 in H11.
  change (Z.of_nat 12) with 12 in H12. change (Z.of_nat (12 + 1)) with 13 in H12.
  rewrite <- Hbd in H8. rewrite <- Hc in H9. rewrite <- Hcm in H10.
  rewrite <- Hfm in H11. rewrite <- Him in H12.
  assert (Hlen : (10 <= length (Chunk.data h))%nat).
  { destruct (Chunk.data h !! 9%nat) as [x|] eqn:E; [|congruence].
    apply lookup_lt_Some in E. lia. }
  exists h. split; [exact Hget|]. split; [exact Hlen|].
  split; [rewrite Hw; apply (from_bytes_slice4 (Chunk.data h) 0); lia|].
  split; [rewrite Hh; apply (from_bytes_slice4 (Chunk.data h) 4); lia|].
  split.
  { unfold u8_at. destruct (Chunk.data h !! 8%nat) as [x|] eqn:E.
    - rewrite H8. reflexivity.
    - apply lookup_ge_None in E. lia. }
  split.
  { unfold u8_at. destruct (Chunk.data h !! 9%nat) as [x|] eqn:E.
    - rewrite H9. reflexivity.
    - apply lookup_ge_None in E. lia. }
  split; [exact H10|]. split; [exact H11|exact H12].
Qed.

Lemma header_fields_decoded_witness :
  exists h,
    PNG.get_chunk_by_type (PNG.chunks minimal_container) (b"IHDR") false = Single h
    /\ u32be_at (Chunk.data h) 0 1
    /\ u8_at (Chunk.data h) 9 2.
Proof.
  destruct (header_fields_decoded minimal_png minimal_container)
    as (h & Hget & _ & Hw & _ & _ & Hc & _).
  - vm_compute. reflexivity.
  - exists h. split; [exact Hget|]. split; [exact Hw|exact Hc].
Defined.

(** ** C3: palette-based images without a palette *)

Section Validate.

(** The test of line 170 compares what the lookup returned with [-1], and
    nothing the lookup returns is equal to an int: whatever the colour type,
    validation looks only for IHDR, IDAT and IEND. *)
Lemma validate_chunks_cases (self : PNG.t) :
  PNG.__validate_chunks__ self
  = if negb (is_not_None (PNG.get_chunk_by_type (PNG.chunks self) (b"IHDR") false))
    then Raise (RuntimeError (NoChunkDetected (b"IHDR")))
    else if negb (is_not_None (PNG.get_chunk_by_type (PNG.chunks self) (b"IDAT") false))
    then Raise (RuntimeError (NoChunkDetected (b"IDAT")))
    else if negb (is_not_None (PNG.get_chunk_by_type (PNG.chunks self) (b"IEND") false))
    then Raise (RuntimeError (NoChunkDetected (b"IEND")))
    else Ok ().
Proof.
  unfold PNG.__validate_chunks__, PNG.require_chunk.
  destruct (negb (is_not_None (PNG.get_chunk_by_type _ (b"IHDR") false)));
    [reflexivity|]. cbn [mbind result_bind].
  destruct (negb (is_not_None (PNG.get_chunk_by_type _ (b"IDAT") false)));
    [reflexivity|]. cbn [mbind result_bind].
  destruct (negb (is_not_None (PNG.get_chunk_by_type _ (b"IEND") false)));
    [reflexivity|]. cbn [mbind result_bind].
  assert (Hnever : forall r, PNG.eq_int r (-1) = false) by (intros []; reflexivity).
  rewrite Hnever, andb_false_r. reflexivity.
Qed.

End Validate.

(** C3, on the code: the buffer that declares colour type 3 and has no PLTE
    chunk parses, validates, and is exported as it came in. *)
Theorem palette_rule_not_enforced :
  exists png,
    PNG.__init__ palette_png = Ok png
    /\ PNG.color_type png = 3
    /\ PNG.get_chunk_by_type (PNG.chunks png) (b"PLTE") false = PyNone
    /\ PNG.__validate_chunks__ png = Ok ()
    /\ exists png', PNG.export_image png = Ok (png', palette_png).
Proof.
  eexists. split; [vm_compute; reflexivity|].
  split; [reflexivity|]. split; [vm_compute; reflexivity|].
  split; [vm_compute; reflexivity|].
  eexists. vm_compute. reflexivity.
Qed.

(** ** C4: no header chunk *)

Section NoHeader.

(** A buffer whose walk ends well with no IHDR chunk in it is refused when
    line 39 reads [.data] on [None], before validation is reached. *)
Lemma parse_without_header (buf : bytes) (chunks : list Chunk.t) :
  starts_with_signature buf -> ends_with_terminator buf ->
  PNG.__split_chunks__ buf = Ok chunks ->
  matching_chunks chunks (b"IHDR") = [] ->
  PNG.__init__ buf = Raise AttributeError.
Proof.
  intros Hhead Hfoot Hsplit Hnone. unfold PNG.__init__.
  apply header_check in Hhead. apply footer_check in Hfoot.
  rewrite Hhead, Hfoot, Hsplit. cbn [negb orb mbind result_bind].
  rewrite get_chunk_by_type_chunks, Hnone. reflexivity.
Qed.

End NoHeader.

(** C4, on the code: signature and terminator chunk alone pass the first
    check and the walk, and the parse ends in [AttributeError], not in the
    [RuntimeError] that [__validate_chunks__] has for a missing IHDR. *)
Theorem headerless_parse :
  (exists iend, PNG.__split_chunks__ headerless_png = Ok [iend]
                /\ Chunk.type iend = b"IEND")
  /\ PNG.__init__ headerless_png = Raise AttributeError
  /\ PNG.__init__ headerless_png <> Raise (RuntimeError (NoChunkDetected (b"IHDR"))).
Proof.
  split; [eexists; split; vm_compute; reflexivity|].
  split; [vm_compute; reflexivity|].
  vm_compute. discriminate.
Qed.

(** ** C8: unknown and repeated types *)

Section WalkRejects.

Lemma once_only_type (ty : bytes) :
  ty ∈ [b"IHDR"; b"PLTE"; b"IEND"] ->
  (exists s, Py.decode_utf8 ty = Ok s)
  /\ negb (Py.contains CRITICAL_CHUNKS ty) && negb (Py.contains ANCILLARY_CHUNKS ty)
     = false
  /\ repeatable ty = false.
Proof.
  intros Hty.
  repeat (apply elem_of_cons in Hty as [->|Hty];
          [split; [eexists; vm_compute; reflexivity|split; reflexivity]|]).
  apply elem_of_nil in Hty. contradiction.
Qed.

Lemma repeatable_type (ty : bytes) :
  ty = b"IDAT" \/ ty ∈ ANCILLARY_CHUNKS ->
  (exists s, Py.decode_utf8 ty = Ok s)
  /\ negb (Py.contains CRITICAL_CHUNKS ty) && negb (Py.contains ANCILLARY_CHUNKS ty)
     = false
  /\ repeatable ty = true.
Proof.
  intros [->|Hty];
    [split; [eexists; vm_compute; reflexivity|split; reflexivity]|].
  unfold ANCILLARY_CHUNKS in Hty.
  repeat (apply elem_of_cons in Hty as [->|Hty];
          [split; [eexists; vm_compute; reflexivity|split; reflexivity]|]).
  apply elem_of_nil in Hty. contradiction.
Qed.

Variable data : bytes.
Variable i : Z.
Variable chunks : list Chunk.t.
Hypothesis Hmore : i < Py.len data.

(** The type is decoded for the message before it is looked up: bytes that
    are not UTF-8 end the walk there. *)
Lemma walk_undecodable e :
  Py.decode_utf8 (Chunk.type (chunk_at data i)) = Raise e ->
  PNG.split_loop data i chunks = Raise e.
Proof.
  intros Hdec. rewrite split_loop_unfold, decide_True by exact Hmore.
  rewrite read_chunk_cases. cbv zeta. rewrite Hdec. reflexivity.
Qed.

Lemma walk_unknown s :
  Py.decode_utf8 (Chunk.type (chunk_at data i)) = Ok s ->
  Py.contains CRITICAL_CHUNKS (Chunk.type (chunk_at data i)) = false ->
  Py.contains ANCILLARY_CHUNKS (Chunk.type (chunk_at data i)) = false ->
  PNG.split_loop data i chunks
  = Raise (RuntimeWarning (UnknownChunkType (Chunk.type (chunk_at data i)))).
Proof.
  intros Hdec Hc Ha. rewrite split_loop_unfold, decide_True by exact Hmore.
  rewrite read_chunk_cases. cbv zeta. rewrite Hdec, Hc, Ha. reflexivity.
Qed.

Lemma walk_duplicate :
  Chunk.type (chunk_at data i) ∈ [b"IHDR"; b"PLTE"; b"IEND"] ->
  matching_chunks chunks (Chunk.type (chunk_at data i)) <> [] ->
  PNG.split_loop data i chunks
  = Raise (RuntimeError (AlreadyExists (Chunk.type (chunk_at data i)))).
Proof.
  intros Hty Hdup. rewrite split_loop_unfold, decide_True by exact Hmore.
  rewrite read_chunk_cases. cbv zeta.
  destruct (once_only_type _ Hty) as ([s ->] & -> & ->).
  rewrite get_chunk_by_type_chunks.
  destruct (matching_chunks chunks _) as [|c [|c' l]]; [congruence| |]; reflexivity.
Qed.

Lemma walk_repeatable :
  Chunk.type (chunk_at data i) = b"IDAT"
  \/ Chunk.type (chunk_at data i) ∈ ANCILLARY_CHUNKS ->
  PNG.split_loop data i chunks
  = PNG.split_loop data (i + 4 + 4 + Chunk.int_size (chunk_at data i) + 4)
                   (chunks ++ [chunk_at data i]).
Proof.
  intros Hty. rewrite split_loop_unfold, decide_True by exact Hmore.
  rewrite read_chunk_cases. cbv zeta.
  destruct (repeatable_type _ Hty) as ([s ->] & -> & ->).
  rewrite andb_false_r. reflexivity.
Qed.

End WalkRejects.

(** C8, on the code: the chunk of type 74 45 58 ff, which is in neither
    set, ends the parse with [UnicodeDecodeError], raised by the decoding of
    line 122, and not with the [RuntimeWarning] of line 133. *)
Theorem odd_type_parse :
  Py.contains CRITICAL_CHUNKS odd_type = false
  /\ Py.contains ANCILLARY_CHUNKS odd_type = false
  /\ Chunk.type (chunk_at odd_type_png 33) = odd_type
  /\ PNG.__init__ odd_type_png = Raise UnicodeDecodeError
  /\ PNG.__init__ odd_type_png <> Raise (RuntimeWarning (UnknownChunkType odd_type)).
Proof.
  split; [reflexivity|]. split; [reflexivity|]. split; [reflexivity|].
  split; [vm_compute; reflexivity|].
  vm_compute. discriminate.
Qed.

(** * Further properties *)

(** ** Building and encoding a chunk *)

Section ChunkMore.

Lemma from_bytes_range (bs : bytes) :
  0 <= Py.from_bytes bs < 256 ^ Z.of_nat (length bs).
Proof.
  induction bs as [|x bs IH] using rev_ind; [vm_compute; split; congruence|].
  rewrite from_bytes_snoc, length_app. cbn [length].
  pose proof (byte_to_Z_range x).
  replace (Z.of_nat (length bs + 1)) with (Z.succ (Z.of_nat (length bs))) by lia.
  rewrite Z.pow_succ_r by lia. lia.
Qed.

(** [to_bytes] writes back what [from_bytes] read. *)
Lemma be_digits_from_bytes (bs : bytes) :
  Py.be_digits (length bs) (Py.from_bytes bs) = bs.
Proof.
  induction bs as [|x bs IH] using rev_ind; [reflexivity|].
  rewrite length_app. simpl. rewrite Nat.add_1_r. simpl.
  rewrite from_bytes_snoc.
  pose proof (byte_to_Z_range x).
  replace ((Py.from_bytes bs * 256 + Py.byte_to_Z x) / 256)
    with (Py.from_bytes bs)
    by (rewrite Z.div_add_l by lia; rewrite Z.div_small by lia; lia).
  replace ((Py.from_bytes bs * 256 + Py.byte_to_Z x) mod 256)
    with (Py.byte_to_Z x)
    by (rewrite Z.add_comm, Z.mod_add by lia; rewrite Z.mod_small by lia; lia).
  rewrite IH, byte_of_to_Z. reflexivity.
Qed.

Lemma to_bytes_Ok_inv (n width : Z) (bs : bytes) :
  Py.to_bytes n width = Ok bs ->
  0 <= width /\ 0 <= n < 256 ^ width /\ bs = Py.be_digits (Z.to_nat width) n.
Proof.
  unfold Py.to_bytes. intros H.
  destruct (Z.ltb_spec width 0); [discriminate|].
  destruct (Z.ltb_spec n 0); [discriminate|].
  destruct (Z.leb_spec (256 ^ width) n); [discriminate|].
  injection H as <-. split; [lia|split; [lia|reflexivity]].
Qed.

Lemma sized_int_size (c : Chunk.t) :
  sized c ->
  length (Chunk.size c) = 4%nat /\ Chunk.int_size c = Py.len (Chunk.data c).
Proof.
  intros [Hsize _]. apply to_bytes_Ok_inv in Hsize as (_ & Hlen & Hsize).
  unfold Chunk.int_size. rewrite Hsize.
  split; [apply length_be_digits|].
  rewrite from_bytes_be_digits by lia.
  apply Z.mod_small. exact Hlen.
Qed.

End ChunkMore.

(** X1.  [Chunk(type, data)] with a payload shorter than 2^32 bytes gives a
    chunk that holds the type and the payload, whose size field has 4 bytes
    and reads back as the length of the payload, and whose checksum field is
    the CRC-32 of type and payload; with a longer payload it raises
    [OverflowError]. *)
Theorem chunk_init_fields (init_type init_data : bytes) :
  (Py.len init_data < 2 ^ 32 ->
   exists c,
     Chunk.__init__ init_type init_data = Ok c
     /\ Chunk.type c = init_type /\ Chunk.data c = init_data
     /\ length (Chunk.size c) = 4%nat
     /\ Chunk.int_size c = Py.len init_data
     /\ checksum_valid c)
  /\ (2 ^ 32 <= Py.len init_data ->
      Chunk.__init__ init_type init_data = Raise OverflowError).
Proof.
  split.
  - intros Hlen.
    assert (Hto : Py.to_bytes (Py.len init_data) 4
                  = Ok (Py.be_digits 4 (Py.len init_data))).
    { apply to_bytes_Ok; [lia|]. change (256 ^ 4) with (2 ^ 32).
      unfold Py.len in *. lia. }
    unfold Chunk.__init__. rewrite Hto. cbn [mbind result_bind].
    rewrite calculate_crc32_Ok. eexists. split; [reflexivity|].
    cbn [Chunk.set_crc32 Chunk.type Chunk.data Chunk.size].
    split; [reflexivity|]. split; [reflexivity|].
    split; [apply length_be_digits|]. split.
    + change (Py.from_bytes (Py.be_digits 4 (Py.len init_data)) = Py.len init_data).
      rewrite from_bytes_be_digits by (unfold Py.len; lia).
      apply Z.mod_small. change (256 ^ Z.of_nat 4) with (2 ^ 32).
      unfold Py.len in *. lia.
    + apply checksum_valid_iff. reflexivity.
  - intros Hlen. unfold Chunk.__init__, Py.to_bytes.
    destruct (Z.ltb_spec 4 0); [lia|].
    destruct (Z.ltb_spec (Py.len init_data) 0); [unfold Py.len in *; lia|].
    change (256 ^ 4) with (2 ^ 32).
    destruct (Z.leb_spec (2 ^ 32) (Py.len init_data)); [reflexivity|lia].
Qed.

Lemma chunk_init_fields_witness :
  exists c,
    Chunk.__init__ (b"tEXt") (b"Title") = Ok c
    /\ Chunk.int_size c = 5 /\ checksum_valid c.
Proof.
  destruct (proj1 (chunk_init_fields (b"tEXt") (b"Title")))
    as (c & Hc & _ & _ & _ & Hsize & Hcrc).
  - vm_compute. reflexivity.
  - exists c. split; [exact Hc|]. split; [exact Hsize|exact Hcrc].
Defined.

(** X2.  Encoding a chunk twice gives the same record both times: after
    [export_chunk] the stored checksum is the computed one, the other fields
    are as before, and a second [export_chunk] changes nothing. *)
Theorem export_chunk_idempotent (c c' : Chunk.t) (record : bytes) :
  Chunk.export_chunk c = Ok (c', record) ->
  Chunk.export_chunk c' = Ok (c', record)
  /\ checksum_valid c'
  /\ Chunk.size c' = Chunk.size c /\ Chunk.type c' = Chunk.type c
  /\ Chunk.data c' = Chunk.data c
  /\ record = stored_record c'.
Proof.
  rewrite export_chunk_Ok. intros [= <- <-].
  split.
  - rewrite export_chunk_Ok. reflexivity.
  - split; [apply checksum_valid_iff; reflexivity|]. repeat split.
Qed.

Lemma export_chunk_idempotent_witness :
  exists c' record,
    Chunk.export_chunk grown_chunk = Ok (c', record)
    /\ Chunk.export_chunk c' = Ok (c', record).
Proof.
  eexists _, _. split; [vm_compute; reflexivity|].
  eapply (proj1 (export_chunk_idempotent grown_chunk _ _ _)).
  Unshelve. vm_compute. reflexivity.
Defined.

(** ** Validation and export *)

Section ExportMore.

Lemma lookup_found_count (chunks : list Chunk.t) (ty : bytes) :
  is_not_None (PNG.get_chunk_by_type chunks ty false)
  = negb (count_type chunks ty =? 0)%nat.
Proof.
  rewrite get_chunk_by_type_chunks. unfold count_type.
  destruct (matching_chunks chunks ty) as [|c [|c' l]]; reflexivity.
Qed.

(** Validation by the number of chunks of the three required types. *)
Lemma validate_by_count (self : PNG.t) :
  PNG.__validate_chunks__ self
  = if (count_type (PNG.chunks self) (b"IHDR") =? 0)%nat
    then Raise (RuntimeError (NoChunkDetected (b"IHDR")))
    else if (count_type (PNG.chunks self) (b"IDAT") =? 0)%nat
    then Raise (RuntimeError (NoChunkDetected (b"IDAT")))
    else if (count_type (PNG.chunks self) (b"IEND") =? 0)%nat
    then Raise (RuntimeError (NoChunkDetected (b"IEND")))
    else Ok ().
Proof.
  rewrite validate_chunks_cases, !lookup_found_count, !negb_involutive.
  reflexivity.
Qed.

Lemma matching_chunks_fmap (f : Chunk.t -> Chunk.t) (chunks : list Chunk.t) ty :
  (forall c, Chunk.type (f c) = Chunk.type c) ->
  matching_chunks (f <$> chunks) ty = f <$> matching_chunks chunks ty.
Proof.
  intros Hf. unfold matching_chunks.
  induction chunks as [|c chunks IH]; [reflexivity|].
  rewrite fmap_cons, !filter_cons, IH, Hf.
  destruct (decide (Chunk.type c = ty)); reflexivity.
Qed.

Lemma count_type_fmap (f : Chunk.t -> Chunk.t) (chunks : list Chunk.t) ty :
  (forall c, Chunk.type (f c) = Chunk.type c) ->
  count_type (f <$> chunks) ty = count_type chunks ty.
Proof.
  intros Hf. unfold count_type.
  rewrite matching_chunks_fmap by exact Hf. apply length_fmap.
Qed.

Lemma export_image_Ok (self : PNG.t) :
  PNG.__validate_chunks__ self = Ok () ->
  PNG.export_image self
  = Ok (PNG.set_chunks self (refreshed <$> PNG.chunks self),
        _PNG_HEADER ++ concat (encoded <$> PNG.chunks self)).
Proof.
  intros Hval. unfold PNG.export_image. rewrite Hval. cbn [mbind result_bind].
  rewrite export_chunks_Ok. reflexivity.
Qed.

Lemma export_image_Ok_inv (self self' : PNG.t) (out : bytes) :
  PNG.export_image self = Ok (self', out) ->
  PNG.__validate_chunks__ self = Ok ()
  /\ self' = PNG.set_chunks self (refreshed <$> PNG.chunks self)
  /\ out = _PNG_HEADER ++ concat (encoded <$> PNG.chunks self).
Proof.
  intros Hex.
  destruct (PNG.__validate_chunks__ self) as [[]|e] eqn:Hval.
  - rewrite export_image_Ok in Hex by exact Hval.
    injection Hex as <- <-. repeat split.
  - unfold PNG.export_image in Hex. rewrite Hval in Hex. discriminate Hex.
Qed.

Lemma refreshed_idem (c : Chunk.t) : refreshed (refreshed c) = refreshed c.
Proof. reflexivity. Qed.

Lemma encoded_refreshed (c : Chunk.t) :
  stored_record (refreshed c) = encoded c /\ encoded (refreshed c) = encoded c.
Proof. split; reflexivity. Qed.

End ExportMore.

(** X3.  When [export_image] succeeds, the container it leaves has the same
    chunks with every stored checksum now the CRC-32 of type and payload,
    and the same metadata; what it returned is the signature followed by
    the stored fields of those chunks; and a second [export_image] returns
    the same bytes and changes nothing. *)
Theorem export_image_idempotent (self self' : PNG.t) (out : bytes) :
  PNG.export_image self = Ok (self', out) ->
  PNG.export_image self' = Ok (self', out)
  /\ Forall checksum_valid (PNG.chunks self')
  /\ Forall2 (fun c c' => Chunk.size c' = Chunk.size c
                          /\ Chunk.type c' = Chunk.type c
                          /\ Chunk.data c' = Chunk.data c)
             (PNG.chunks self) (PNG.chunks self')
  /\ metadata self' = metadata self
  /\ out = _PNG_HEADER ++ concat (stored_record <$> PNG.chunks self').
Proof.
  intros Hex. apply export_image_Ok_inv in Hex as (Hval & -> & ->).
  cbn [PNG.set_chunks PNG.chunks].
  split; [|split; [|split; [|split]]].
  - rewrite export_image_Ok.
    + cbn [PNG.set_chunks PNG.chunks PNG.width PNG.height PNG.bit_depth
           PNG.color_type PNG.compression_method PNG.filter_method
           PNG.interlace_method].
      rewrite <- !list_fmap_compose. reflexivity.
    + rewrite validate_by_count in *. cbn [PNG.set_chunks PNG.chunks].
      rewrite !count_type_fmap by reflexivity. exact Hval.
  - apply Forall_fmap, Forall_forall. intros c _.
    apply checksum_valid_iff. reflexivity.
  - apply Forall2_fmap_r, Forall_Forall2_diag, Forall_forall.
    intros c _. repeat split.
  - reflexivity.
  - rewrite <- list_fmap_compose. reflexivity.
Qed.

Lemma export_image_idempotent_witness :
  exists self' out,
    PNG.export_image minimal_container = Ok (self', out)
    /\ PNG.export_image self' = Ok (self', out).
Proof.
  eexists _, _. split; [vm_compute; reflexivity|].
  eapply (proj1 (export_image_idempotent minimal_container _ _ _)).
  Unshelve. vm_compute. reflexivity.
Defined.

(** X4.  [__validate_chunks__], and with it [export_image], raises
    [RuntimeError('No ... chunk detected in PNG')] for the first of IHDR,
    IDAT and IEND that the container has no chunk of, and succeeds when it
    has all three, whatever else it holds and whatever its colour type. *)
Theorem export_image_requires (self : PNG.t) :
  (count_type (PNG.chunks self) (b"IHDR") = 0%nat ->
   PNG.__validate_chunks__ self = Raise (RuntimeError (NoChunkDetected (b"IHDR")))
   /\ PNG.export_image self = Raise (RuntimeError (NoChunkDetected (b"IHDR"))))
  /\ ((1 <= count_type (PNG.chunks self) (b"IHDR"))%nat ->
      count_type (PNG.chunks self) (b"IDAT") = 0%nat ->
      PNG.__validate_chunks__ self = Raise (RuntimeError (NoChunkDetected (b"IDAT")))
      /\ PNG.export_image self = Raise (RuntimeError (NoChunkDetected (b"IDAT"))))
  /\ ((1 <= count_type (PNG.chunks self) (b"IHDR"))%nat ->
      (1 <= count_type (PNG.chunks self) (b"IDAT"))%nat ->
      count_type (PNG.chunks self) (b"IEND") = 0%nat ->
      PNG.__validate_chunks__ self = Raise (RuntimeError (NoChunkDetected (b"IEND")))
      /\ PNG.export_image self = Raise (RuntimeError (NoChunkDetected (b"IEND"))))
  /\ ((1 <= count_type (PNG.chunks self) (b"IHDR"))%nat ->
      (1 <= count_type (PNG.chunks self) (b"IDAT"))%nat ->
      (1 <= count_type (PNG.chunks self) (b"IEND"))%nat ->
      PNG.__validate_chunks__ self = Ok ()
      /\ exists self' out, PNG.export_image self = Ok (self', out)).
Proof.
  assert (Hraise : forall e, PNG.__validate_chunks__ self = Raise e ->
                             PNG.export_image self = Raise e).
  { intros e He. unfold PNG.export_image. rewrite He. reflexivity. }
  rewrite validate_by_count in *.
  split; [|split; [|split]].
  - intros H0. rewrite H0 in *. split; [reflexivity|].
    apply Hraise. reflexivity.
  - intros H1 H0.
    destruct (Nat.eqb_spec (count_type (PNG.chunks self) (b"IHDR")) 0); [lia|].
    rewrite H0 in *. split; [reflexivity|]. apply Hraise. reflexivity.
  - intros H1 H2 H0.
    destruct (Nat.eqb_spec (count_type (PNG.chunks self) (b"IHDR")) 0); [lia|].
    destruct (Nat.eqb_spec (count_type (PNG.chunks self) (b"IDAT")) 0); [lia|].
    rewrite H0 in *. split; [reflexivity|]. apply Hraise. reflexivity.
  - intros H1 H2 H3.
    destruct (Nat.eqb_spec (count_type (PNG.chunks self) (b"IHDR")) 0); [lia|].
    destruct (Nat.eqb_spec (count_type (PNG.chunks self) (b"IDAT")) 0); [lia|].
    destruct (Nat.eqb_spec (count_type (PNG.chunks self) (b"IEND")) 0); [lia|].
    split; [reflexivity|]. eexists _, _. apply export_image_Ok.
    rewrite validate_by_count.
    destruct (Nat.eqb_spec (count_type (PNG.chunks self) (b"IHDR")) 0); [lia|].
    destruct (Nat.eqb_spec (count_type (PNG.chunks self) (b"IDAT")) 0); [lia|].
    destruct (Nat.eqb_spec (count_type (PNG.chunks self) (b"IEND")) 0); [lia|].
    reflexivity.
Qed.

Lemma export_image_requires_witness :
  PNG.export_image
    (PNG.set_chunks minimal_container (take 1 (PNG.chunks minimal_container)))
  = Raise (RuntimeError (NoChunkDetected (b"IDAT"))).
Proof.
  apply (proj1 (proj2 (export_image_requires
           (PNG.set_chunks minimal_container (take 1 (PNG.chunks minimal_container)))))).
  - vm_compute. lia.
  - vm_compute. reflexivity.
Defined.

(** ** What a successful parse guarantees *)

Section ParseMore.

Lemma contains_elem (t : list bytes) (x : bytes) :
  Py.contains t x = true <-> x ∈ t.
Proof.
  unfold Py.contains, Py.bytes_eqb. rewrite existsb_exists. split.
  - intros (y & Hy & Heq). apply bool_decide_eq_true in Heq. subst y.
    apply list_elem_of_In, Hy.
  - intros Hx. exists x. split; [apply list_elem_of_In, Hx|].
    apply bool_decide_eq_true. reflexivity.
Qed.

Lemma known_type_iff (ty : bytes) :
  known_type ty
  <-> negb (Py.contains CRITICAL_CHUNKS ty) && negb (Py.contains ANCILLARY_CHUNKS ty)
      = false.
Proof.
  unfold known_type. rewrite <- !contains_elem.
  destruct (Py.contains CRITICAL_CHUNKS ty), (Py.contains ANCILLARY_CHUNKS ty);
    simpl; intuition congruence.
Qed.

Lemma count_type_snoc chunks c ty :
  count_type (chunks ++ [c]) ty
  = (count_type chunks ty + if decide (Chunk.type c = ty) then 1 else 0)%nat.
Proof.
  unfold count_type. rewrite matching_chunks_snoc, length_app.
  destruct (decide (Chunk.type c = ty)); reflexivity.
Qed.

(** What one successful turn of the loop appended. *)
Lemma read_chunk_Ok_inv data i chunks i' chunks' :
  PNG.read_chunk data i chunks = Ok (i', chunks') ->
  chunks' = chunks ++ [chunk_at data i]
  /\ i' = i + 4 + 4 + Chunk.int_size (chunk_at data i) + 4
  /\ known_type (Chunk.type (chunk_at data i))
  /\ (count_type chunks (Chunk.type (chunk_at data i)) = 0%nat
      \/ repeatable (Chunk.type (chunk_at data i)) = true).
Proof.
  rewrite read_chunk_cases. cbv zeta. intros H.
  destruct (Py.decode_utf8 _); [|discriminate].
  destruct (negb _ && negb _) eqn:Hknown; [discriminate|].
  destruct (is_not_None _ && negb _) eqn:Hdup; [discriminate|].
  injection H as <- <-.
  split; [reflexivity|]. split; [reflexivity|].
  split; [apply known_type_iff, Hknown|].
  rewrite lookup_found_count in Hdup.
  apply andb_false_iff in Hdup as [Hnone|Hrep].
  - left. apply negb_false_iff, Nat.eqb_eq in Hnone. exact Hnone.
  - right. apply negb_false_iff in Hrep. exact Hrep.
Qed.

(** Whatever every successful turn of the loop keeps true is true of
    the chunks a successful walk returns. *)
Lemma split_loop_invariant data (P : Z -> list Chunk.t -> Prop) :
  (forall i acc i' acc',
      i < Py.len data -> P i acc ->
      PNG.read_chunk data i acc = Ok (i', acc') -> P i' acc') ->
  forall i acc cs,
    P i acc -> PNG.split_loop data i acc = Ok cs ->
    exists j, Py.len data <= j /\ P j cs.
Proof.
  intros Hstep i.
  remember (Z.to_nat (Py.len data - i)) as m eqn:Hm.
  revert i Hm. induction m as [m IH] using lt_wf_ind.
  intros i Hm acc cs HP Hloop.
  rewrite split_loop_unfold in Hloop.
  destruct (decide (i < Py.len data)) as [Hlt|Hge].
  - destruct (PNG.read_chunk data i acc) as [[i' acc']|e] eqn:Hread;
      [|discriminate].
    pose proof (read_chunk_advances _ _ _ _ _ Hread) as Hadv.
    eapply (IH (Z.to_nat (Py.len data - i'))); [lia|reflexivity| |exact Hloop].
    eapply Hstep; eassumption.
  - injection Hloop as <-. exists i. split; [lia|exact HP].
Qed.

Lemma once_only_not_repeatable (ty : bytes) :
  ty ∈ [b"IHDR"; b"PLTE"; b"IEND"] -> repeatable ty = false.
Proof. intros H. apply once_only_type in H as (_ & _ & H). exact H. Qed.

(** The walk keeps the types known and IHDR, PLTE and IEND single. *)
Lemma split_chunks_types data cs :
  PNG.__split_chunks__ data = Ok cs ->
  Forall (fun c => known_type (Chunk.type c)) cs
  /\ forall ty, ty ∈ [b"IHDR"; b"PLTE"; b"IEND"] -> (count_type cs ty <= 1)%nat.
Proof.
  intros Hsplit. unfold PNG.__split_chunks__ in Hsplit.
  destruct (split_loop_invariant data
              (fun _ acc =>
                 Forall (fun c => known_type (Chunk.type c)) acc
                 /\ forall ty, ty ∈ [b"IHDR"; b"PLTE"; b"IEND"] ->
                               (count_type acc ty <= 1)%nat))
    with (i := Py.len _PNG_HEADER) (acc := @nil Chunk.t) (cs := cs)
    as (j & _ & Hinv); [| |exact Hsplit|exact Hinv].
  - intros i acc i' acc' _ [Hknown Honce] Hread.
    apply read_chunk_Ok_inv in Hread as (-> & _ & Hk & Hdup).
    split; [apply Forall_app; split; [exact Hknown|constructor; [exact Hk|constructor]]|].
    intros ty Hty. rewrite count_type_snoc.
    destruct (decide (Chunk.type (chunk_at data i) = ty)) as [Heq|Hne].
    + destruct Hdup as [Hzero|Hrep].
      * rewrite <- Heq, Hzero. lia.
      * rewrite Heq, once_only_not_repeatable in Hrep by exact Hty. discriminate.
    + specialize (Honce ty Hty). lia.
  - split; [constructor|]. intros ty _. unfold count_type. simpl. lia.
Qed.

Lemma count_type_by_arity chunks ty h :
  PNG.get_chunk_by_type chunks ty false = Single h ->
  matching_chunks chunks ty = [h].
Proof.
  rewrite get_chunk_by_type_chunks.
  destruct (matching_chunks chunks ty) as [|c [|c' l]]; simpl; congruence.
Qed.

End ParseMore.

(** X5.  In the container of a successful parse every chunk type is one of
    the 21 known types, there is exactly one IHDR chunk, at most one PLTE
    chunk, at least one IDAT chunk and exactly one IEND chunk, and the
    colour type is neither 0 nor 4. *)
Theorem parse_structure (buf : bytes) (png : PNG.t) :
  PNG.__init__ buf = Ok png ->
  Forall (fun c => known_type (Chunk.type c)) (PNG.chunks png)
  /\ count_type (PNG.chunks png) (b"IHDR") = 1%nat
  /\ (count_type (PNG.chunks png) (b"PLTE") <= 1)%nat
  /\ (1 <= count_type (PNG.chunks png) (b"IDAT"))%nat
  /\ count_type (PNG.chunks png) (b"IEND") = 1%nat
  /\ PNG.color_type png <> 0 /\ PNG.color_type png <> 4.
Proof.
  intros Hparse.
  destruct (init_Ok_inv _ _ Hparse)
    as (_ & _ & Hsplit & (h & Hget & _) & Hval & Hc0 & Hc4).
  destruct (split_chunks_types _ _ Hsplit) as [Hknown Honce].
  apply count_type_by_arity in Hget.
  rewrite validate_by_count in Hval.
  destruct (Nat.eqb_spec (count_type (PNG.chunks png) (b"IHDR")) 0); [discriminate|].
  destruct (Nat.eqb_spec (count_type (PNG.chunks png) (b"IDAT")) 0); [discriminate|].
  destruct (Nat.eqb_spec (count_type (PNG.chunks png) (b"IEND")) 0); [discriminate|].
  pose proof (Honce (b"IEND") ltac:(apply list_elem_of_In; simpl; tauto)).
  pose proof (Honce (b"PLTE") ltac:(apply list_elem_of_In; simpl; tauto)).
  split; [exact Hknown|].
  split; [unfold count_type; rewrite Hget; reflexivity|].
  repeat split; try assumption; lia.
Qed.

Lemma parse_structure_witness :
  count_type (PNG.chunks minimal_container) (b"IHDR") = 1%nat
  /\ count_type (PNG.chunks minimal_container) (b"IEND") = 1%nat.
Proof.
  destruct (parse_structure minimal_png minimal_container)
    as (_ & Hihdr & _ & _ & Hiend & _).
  - vm_compute. reflexivity.
  - split; [exact Hihdr|exact Hiend].
Defined.

Section Whole.

Lemma length_slice_between {A} (l : list A) (a c : Z) :
  0 <= a <= c -> c <= Py.len l ->
  length (Py.slice l (Some a) (Some c)) = Z.to_nat (c - a).
Proof.
  intros Hac Hc. rewrite slice_between by lia.
  rewrite length_take, length_drop. unfold Py.len in Hc. lia.
Qed.

Lemma length_slice_short {A} (l : list A) (a c : Z) :
  0 <= a < c -> Py.len l < c ->
  (length (Py.slice l (Some a) (Some c)) < Z.to_nat (c - a))%nat.
Proof.
  intros Hac Hc. rewrite slice_between by lia.
  rewrite length_take, length_drop. unfold Py.len in Hc. lia.
Qed.

(** A chunk read with 4 checksum bytes lies inside the buffer, so all its
    fields are whole. *)
Lemma chunk_at_whole data i :
  0 <= i ->
  length (Chunk.crc32 (chunk_at data i)) = 4%nat ->
  whole (chunk_at data i)
  /\ i + 4 + 4 + Chunk.int_size (chunk_at data i) + 4 <= Py.len data.
Proof.
  intros Hi Hcrc.
  pose proof (from_bytes_nonneg (Py.slice data (Some i) (Some (i + 4)))) as Hn.
  assert (Hend : i + 4 + 4 + Chunk.int_size (chunk_at data i) + 4 <= Py.len data).
  { destruct (Z_le_gt_dec (i + 4 + 4 + Chunk.int_size (chunk_at data i) + 4)
                          (Py.len data)) as [|Hgt]; [assumption|].
    unfold chunk_at, Chunk.int_size in *. cbn [Chunk.size Chunk.crc32] in *.
    set (n := Py.from_bytes _) in *.
    pose proof (length_slice_short data (i + 4 + 4 + n) (i + 4 + 4 + n + 4)
                  ltac:(lia) ltac:(lia)). lia. }
  split; [|exact Hend].
  unfold chunk_at, Chunk.int_size in *. cbn [Chunk.size Chunk.crc32] in *.
  set (n := Py.from_bytes (Py.slice data (Some i) (Some (i + 4)))) in *.
  assert (Hsz : length (Py.slice data (Some i) (Some (i + 4))) = 4%nat).
  { rewrite length_slice_between by lia. lia. }
  split; [|exact Hcrc]. unfold sized. cbn [Chunk.size Chunk.type Chunk.data].
  split.
  - unfold Py.len at 1. rewrite length_slice_between by lia.
    replace (Z.of_nat (Z.to_nat (i + 4 + 4 + n - (i + 4 + 4)))) with n by lia.
    pose proof (from_bytes_range (Py.slice data (Some i) (Some (i + 4)))) as Hr.
    rewrite Hsz in Hr. fold n in Hr.
    rewrite to_bytes_Ok by lia. f_equal.
    change (Z.to_nat 4) with 4%nat. rewrite <- Hsz at 1.
    apply be_digits_from_bytes.
  - rewrite length_slice_between by lia. lia.
Qed.

(** The chunks of a successful walk are whole, the last one perhaps
    excepted. *)
Lemma split_chunks_whole data cs :
  PNG.__split_chunks__ data = Ok cs ->
  Forall (fun c => length (Chunk.crc32 c) = 4%nat -> whole c) cs
  /\ forall front last, cs = front ++ [last] -> Forall whole front.
Proof.
  intros Hsplit. unfold PNG.__split_chunks__ in Hsplit.
  destruct (split_loop_invariant data
              (fun i acc =>
                 0 <= i
                 /\ Forall (fun c => length (Chunk.crc32 c) = 4%nat -> whole c) acc
                 /\ (i <= Py.len data -> Forall whole acc)
                 /\ forall front last, acc = front ++ [last] -> Forall whole front))
    with (i := Py.len _PNG_HEADER) (acc := @nil Chunk.t) (cs := cs)
    as (j & _ & _ & Hall & _ & Hfront); [| |exact Hsplit|split; assumption].
  - intros i acc i' acc' Hlt (Hi & Hall & Hin & _) Hread.
    pose proof (read_chunk_advances _ _ _ _ _ Hread) as Hadv.
    apply read_chunk_Ok_inv in Hread as (-> & -> & _ & _).
    split; [lia|]. split; [|split].
    + apply Forall_app. split; [exact Hall|].
      constructor; [|constructor]. intros Hcrc.
      apply chunk_at_whole; assumption.
    + intros Hend. apply Forall_app. split; [apply Hin; lia|].
      constructor; [|constructor].
      apply chunk_at_whole; [exact Hi|].
      unfold chunk_at, Chunk.int_size in *. cbn [Chunk.size Chunk.crc32] in *.
      set (n := Py.from_bytes _) in *.
      pose proof (from_bytes_nonneg (Py.slice data (Some i) (Some (i + 4)))).
      rewrite length_slice_between by (fold n in H; lia). lia.
    + intros front last Heq. apply app_inj_tail in Heq as [<- _].
      apply Hin. lia.
  - split; [unfold Py.len; lia|]. split; [constructor|].
    split; [intros _; constructor|].
    intros front last Heq. destruct front; discriminate Heq.
Qed.

End Whole.

(** X6.  A successful parse loses no byte: the buffer is the signature
    followed by the four stored fields of each chunk, in order.  Every
    chunk but the last has whole fields (a 4-byte size field that is the
    length of its payload, a 4-byte type, a 4-byte checksum), and so has the
    last one when its checksum field has 4 bytes. *)
Theorem parse_lossless (buf : bytes) (png : PNG.t) :
  PNG.__init__ buf = Ok png ->
  buf = _PNG_HEADER ++ concat (stored_record <$> PNG.chunks png)
  /\ (forall front last, PNG.chunks png = front ++ [last] -> Forall whole front)
  /\ Forall (fun c => length (Chunk.crc32 c) = 4%nat -> whole c) (PNG.chunks png).
Proof.
  intros Hparse.
  destruct (init_Ok_records _ _ Hparse) as [Hbuf _].
  destruct (init_Ok_inv _ _ Hparse) as (_ & _ & Hsplit & _).
  destruct (split_chunks_whole _ _ Hsplit) as [Hall Hfront].
  split; [exact Hbuf|]. split; [exact Hfront|exact Hall].
Qed.

Lemma parse_lossless_witness :
  stale_crc_png
  = _PNG_HEADER
    ++ concat (stored_record
                 <$> [ {| Chunk.size := [x00; x00; x00; x0d]; Chunk.type := b"IHDR";
                          Chunk.data := [x00; x00; x00; x01; x00; x00; x00; x01;
                                         x08; x02; x00; x00; x00];
                          Chunk.crc32 := [x00; x00; x00; x00] |};
                       {| Chunk.size := [x00; x00; x00; x00]; Chunk.type := b"IDAT";
                          Chunk.data := []; Chunk.crc32 := [x35; xaf; x06; x1e] |};
                       {| Chunk.size := [x00; x00; x00; x00]; Chunk.type := b"IEND";
                          Chunk.data := []; Chunk.crc32 := [xae; x42; x60; x82] |} ]).
Proof.
  refine (proj1 (parse_lossless stale_crc_png
                   {| PNG.chunks := _; PNG.width := 1; PNG.height := 1;
                      PNG.bit_depth := 8; PNG.color_type := 2;
                      PNG.compression_method := 0; PNG.filter_method := 0;
                      PNG.interlace_method := 0 |} _)).
  vm_compute. reflexivity.
Defined.

(** ** The outcome of a parse once the walk is done *)

Section AfterWalk.

Lemma init_after_walk (buf : bytes) (cs : list Chunk.t) (h : Chunk.t) :
  starts_with_signature buf -> ends_with_terminator buf ->
  PNG.__split_chunks__ buf = Ok cs ->
  matching_chunks cs (b"IHDR") = [h] ->
  PNG.__init__ buf
  = (_ ← PNG.__validate_chunks__ (container_of cs (Chunk.data h));
     if (PNG.color_type (container_of cs (Chunk.data h)) =? 0)
        || (PNG.color_type (container_of cs (Chunk.data h)) =? 4)
     then Raise (Exception GrayscaleUnsupported)
     else Ok (container_of cs (Chunk.data h))).
Proof.
  intros Hhead Hfoot Hsplit Hh. unfold PNG.__init__.
  apply header_check in Hhead. apply footer_check in Hfoot.
  rewrite Hhead, Hfoot, Hsplit. cbn [negb orb mbind result_bind].
  rewrite get_chunk_by_type_chunks, Hh. reflexivity.
Qed.

End AfterWalk.

(** X7.  For a buffer with signature and terminator whose walk ends well
    with one IHDR chunk, the constructor raises
    [RuntimeError('No IDAT chunk detected in PNG')] when there is no IDAT
    chunk, the same for IEND when there is an IDAT chunk and no IEND chunk,
    [Exception('Grayscale images currently unsupported')] when both are
    there and byte 9 of the header payload is 0 or 4 or missing, and
    otherwise returns the container with the chunks of the walk and the
    fields read from the header payload. *)
Theorem parse_after_walk (buf : bytes) (cs : list Chunk.t) (h : Chunk.t) (ct : Z) :
  starts_with_signature buf -> ends_with_terminator buf ->
  PNG.__split_chunks__ buf = Ok cs ->
  matching_chunks cs (b"IHDR") = [h] ->
  u8_or_zero_at (Chunk.data h) 9 ct ->
  (count_type cs (b"IDAT") = 0%nat ->
   PNG.__init__ buf = Raise (RuntimeError (NoChunkDetected (b"IDAT"))))
  /\ ((1 <= count_type cs (b"IDAT"))%nat -> count_type cs (b"IEND") = 0%nat ->
      PNG.__init__ buf = Raise (RuntimeError (NoChunkDetected (b"IEND"))))
  /\ ((1 <= count_type cs (b"IDAT"))%nat -> (1 <= count_type cs (b"IEND"))%nat ->
      ct = 0 \/ ct = 4 ->
      PNG.__init__ buf = Raise (Exception GrayscaleUnsupported))
  /\ ((1 <= count_type cs (b"IDAT"))%nat -> (1 <= count_type cs (b"IEND"))%nat ->
      ct <> 0 -> ct <> 4 ->
      PNG.__init__ buf = Ok (container_of cs (Chunk.data h))).
Proof.
  intros Hhead Hfoot Hsplit Hh Hct.
  rewrite (init_after_walk buf cs h Hhead Hfoot Hsplit Hh).
  rewrite validate_by_count. cbn [container_of PNG.chunks PNG.color_type].
  assert (Hone : count_type cs (b"IHDR") = 1%nat)
    by (unfold count_type; rewrite Hh; reflexivity).
  rewrite Hone. cbn [Nat.eqb].
  assert (Hbyte : Py.from_bytes (Py.slice (Chunk.data h) (Some 9) (Some 10)) = ct).
  { unfold u8_or_zero_at in Hct. rewrite Hct.
    apply (from_bytes_slice1 (Chunk.data h) 9). }
  rewrite Hbyte.
  split; [|split; [|split]].
  - intros ->. reflexivity.
  - intros H1 ->.
    destruct (Nat.eqb_spec (count_type cs (b"IDAT")) 0); [lia|]. reflexivity.
  - intros H1 H2 Hgray.
    destruct (Nat.eqb_spec (count_type cs (b"IDAT")) 0); [lia|].
    destruct (Nat.eqb_spec (count_type cs (b"IEND")) 0); [lia|].
    cbn [mbind result_bind]. destruct Hgray as [-> | ->]; reflexivity.
  - intros H1 H2 H0 H4.
    destruct (Nat.eqb_spec (count_type cs (b"IDAT")) 0); [lia|].
    destruct (Nat.eqb_spec (count_type cs (b"IEND")) 0); [lia|].
    cbn [mbind result_bind].
    destruct (Z.eqb_spec ct 0); [lia|]. destruct (Z.eqb_spec ct 4); [lia|].
    reflexivity.
Qed.

Lemma parse_after_walk_witness :
  PNG.__init__ gray_png = Raise (Exception GrayscaleUnsupported).
Proof.
  refine (proj1 (proj2 (proj2
            (parse_after_walk gray_png
               [ {| Chunk.size := [x00; x00; x00; x0d]; Chunk.type := b"IHDR";
                    Chunk.data := [x00; x00; x00; x01; x00; x00; x00; x01;
                                   x08; x00; x00; x00; x00];
                    Chunk.crc32 := [x3a; x7e; x9b; x55] |};
                 {| Chunk.size := [x00; x00; x00; x00]; Chunk.type := b"IDAT";
                    Chunk.data := []; Chunk.crc32 := [x35; xaf; x06; x1e] |};
                 {| Chunk.size := [x00; x00; x00; x00]; Chunk.type := b"IEND";
                    Chunk.data := []; Chunk.crc32 := [xae; x42; x60; x82] |} ]
               _ 0 _ _ _ _ _))) _ _ _).
  - eexists. reflexivity.
  - exists (take 49 gray_png). vm_compute. reflexivity.
  - vm_compute. reflexivity.
  - vm_compute. reflexivity.
  - vm_compute. reflexivity.
  - vm_compute. lia.
  - vm_compute. lia.
  - left. reflexivity.
Defined.

(** ** Export, then parse *)

Section Reparse.

Lemma slice_app_offset {A} (pre l : list A) (i j a c : Z) :
  0 <= a -> 0 <= c -> i = Py.len pre + a -> j = Py.len pre + c ->
  Py.slice (pre ++ l) (Some i) (Some j) = Py.slice l (Some a) (Some c).
Proof.
  intros Ha Hc -> ->. unfold Py.len.
  rewrite !slice_between by lia.
  replace (Z.to_nat (Z.of_nat (length pre) + a))
    with (length pre + Z.to_nat a)%nat by lia.
  rewrite drop_app_add. f_equal. lia.
Qed.

Lemma chunk_at_app (pre l : bytes) :
  chunk_at (pre ++ l) (Py.len pre) = chunk_at l 0.
Proof.
  unfold chunk_at.
  rewrite (slice_app_offset pre l (Py.len pre) (Py.len pre + 4) 0 4) by lia.
  change (0 + 4) with 4.
  pose proof (from_bytes_nonneg (Py.slice l (Some 0) (Some 4))) as Hn.
  set (n := Py.from_bytes (Py.slice l (Some 0) (Some 4))) in *.
  rewrite (slice_app_offset pre l (Py.len pre + 4) (Py.len pre + 4 + 4) 4 (4 + 4))
    by lia.
  rewrite (slice_app_offset pre l (Py.len pre + 4 + 4) (Py.len pre + 4 + 4 + n)
             (4 + 4) (4 + 4 + n)) by lia.
  rewrite (slice_app_offset pre l (Py.len pre + 4 + 4 + n)
             (Py.len pre + 4 + 4 + n + 4) (4 + 4 + n) (4 + 4 + n + 4)) by lia.
  reflexivity.
Qed.

(** Reading back the record of a whole chunk gives the chunk. *)
Lemma chunk_at_record (c : Chunk.t) (rest : bytes) :
  whole c -> chunk_at (stored_record c ++ rest) 0 = c.
Proof.
  intros [Hsized Hcrc].
  destruct (sized_int_size c Hsized) as [Hsz Hint].
  destruct Hsized as [_ Hty].
  unfold Chunk.int_size in Hint.
  destruct c as [sz ty dat crc]. cbn [Chunk.size Chunk.type Chunk.data Chunk.crc32] in *.
  unfold stored_record, chunk_at. cbn [Chunk.size Chunk.type Chunk.data Chunk.crc32].
  rewrite <- !app_assoc.
  assert (H1 : Py.slice (sz ++ ty ++ dat ++ crc ++ rest) (Some 0) (Some (0 + 4)) = sz).
  { rewrite slice_between by lia. simpl drop.
    apply take_app_length'. lia. }
  rewrite H1, Hint. unfold Py.len. f_equal.
  - rewrite slice_between by lia.
    rewrite drop_app_length' by lia. apply take_app_length'. lia.
  - rewrite slice_between by lia.
    rewrite (app_assoc sz).
    rewrite drop_app_length' by (rewrite length_app; lia).
    apply take_app_length'. lia.
  - rewrite slice_between by lia.
    rewrite (app_assoc sz), (app_assoc _ dat).
    rewrite drop_app_length' by (rewrite !length_app; lia).
    apply take_app_length'. lia.
Qed.

Lemma known_type_decodes (ty : bytes) :
  known_type ty -> exists s, Py.decode_utf8 ty = Ok s.
Proof.
  intros [Hty|Hty].
  - unfold CRITICAL_CHUNKS in Hty.
    repeat (apply elem_of_cons in Hty as [->|Hty]; [eexists; vm_compute; reflexivity|]).
    apply elem_of_nil in Hty. contradiction.
  - unfold ANCILLARY_CHUNKS in Hty.
    repeat (apply elem_of_cons in Hty as [->|Hty]; [eexists; vm_compute; reflexivity|]).
    apply elem_of_nil in Hty. contradiction.
Qed.

Lemma length_stored_record (c : Chunk.t) :
  whole c -> Py.len (stored_record c) = 4 + 4 + Chunk.int_size c + 4.
Proof.
  intros [Hsized Hcrc]. destruct (sized_int_size c Hsized) as [Hsz Hint].
  destruct Hsized as [_ Hty]. rewrite Hint.
  unfold stored_record, Py.len. rewrite !length_app. lia.
Qed.

(** The walk over the records of whole chunks of known types, each new or
    repeatable, gives back those chunks. *)
Lemma split_loop_records_back (cs : list Chunk.t) :
  forall (pre : bytes) (acc : list Chunk.t),
    Forall whole cs ->
    Forall (fun c => known_type (Chunk.type c)) cs ->
    accepted acc cs ->
    PNG.split_loop (pre ++ concat (stored_record <$> cs)) (Py.len pre) acc
    = Ok (acc ++ cs).
Proof.
  induction cs as [|c cs IH]; intros pre acc Hwhole Hknown Hacc.
  - simpl. rewrite !app_nil_r, split_loop_unfold.
    rewrite decide_False by lia. reflexivity.
  - apply Forall_cons in Hwhole as [Hc Hwhole].
    apply Forall_cons in Hknown as [Hk Hknown].
    destruct Hacc as [Hnew Hacc].
    rewrite fmap_cons. cbn [concat].
    pose proof (length_stored_record c Hc) as Hlen.
    pose proof (from_bytes_nonneg (Chunk.size c)) as Hn.
    fold (Chunk.int_size c) in Hn.
    rewrite split_loop_unfold.
    rewrite decide_True
      by (unfold Py.len in *; rewrite !length_app; lia).
    rewrite read_chunk_cases. cbv zeta.
    rewrite chunk_at_app, chunk_at_record by exact Hc.
    destruct (known_type_decodes _ Hk) as [s ->].
    apply known_type_iff in Hk. rewrite Hk.
    assert (Hdup : is_not_None (PNG.get_chunk_by_type acc (Chunk.type c) false)
                   && negb (repeatable (Chunk.type c)) = false).
    { rewrite lookup_found_count. destruct Hnew as [-> | ->]; [reflexivity|].
      apply andb_false_r. }
    rewrite Hdup.
    rewrite (app_assoc pre).
    replace (Py.len pre + 4 + 4 + Chunk.int_size c + 4)
      with (Py.len (pre ++ stored_record c))
      by (unfold Py.len in *; rewrite length_app; lia).
    rewrite IH by assumption. rewrite <- app_assoc. reflexivity.
Qed.

Lemma count_type_app chunks1 chunks2 ty :
  count_type (chunks1 ++ chunks2) ty
  = (count_type chunks1 ty + count_type chunks2 ty)%nat.
Proof.
  unfold count_type, matching_chunks. rewrite filter_app, length_app. reflexivity.
Qed.

Lemma not_repeatable_once_only (ty : bytes) :
  repeatable ty = false -> ty ∈ [b"IHDR"; b"PLTE"; b"IEND"].
Proof.
  unfold repeatable. intros H. apply orb_false_iff in H as [Hcrit Hidat].
  apply negb_false_iff, contains_elem in Hcrit.
  unfold Py.bytes_eqb in Hidat. apply bool_decide_eq_false in Hidat.
  unfold CRITICAL_CHUNKS in Hcrit.
  apply elem_of_cons in Hcrit as [->|Hcrit]; [left|].
  apply elem_of_cons in Hcrit as [->|Hcrit]; [right; left|].
  apply elem_of_cons in Hcrit as [->|Hcrit]; [contradiction|].
  apply elem_of_cons in Hcrit as [->|Hcrit]; [right; right; left|].
  apply elem_of_nil in Hcrit. contradiction.
Qed.

(** Chunks with IHDR, PLTE and IEND at most once each are taken by the
    walk. *)
Lemma once_only_accepted (cs acc : list Chunk.t) :
  (forall ty, ty ∈ [b"IHDR"; b"PLTE"; b"IEND"] ->
              (count_type (acc ++ cs) ty <= 1)%nat) ->
  accepted acc cs.
Proof.
  revert acc. induction cs as [|c cs IH]; intros acc Honce; [exact I|].
  split.
  - destruct (repeatable (Chunk.type c)) eqn:Hrep; [right; reflexivity|left].
    apply not_repeatable_once_only in Hrep.
    specialize (Honce _ Hrep).
    rewrite count_type_app in Honce.
    change (c :: cs) with ([c] ++ cs) in Honce.
    rewrite count_type_app in Honce.
    unfold count_type at 2 in Honce. unfold matching_chunks in Honce.
    rewrite filter_cons, decide_True in Honce by reflexivity.
    simpl in Honce. lia.
  - apply IH. intros ty Hty. rewrite <- app_assoc. apply Honce, Hty.
Qed.

End Reparse.

Section ReparseContainer.

Lemma whole_refreshed (c : Chunk.t) : sized c -> whole (refreshed c).
Proof.
  intros Hs. split; [exact Hs|]. apply length_checksum.
Qed.

Lemma validate_counts (self : PNG.t) :
  (1 <= count_type (PNG.chunks self) (b"IHDR"))%nat ->
  (1 <= count_type (PNG.chunks self) (b"IDAT"))%nat ->
  (1 <= count_type (PNG.chunks self) (b"IEND"))%nat ->
  PNG.__validate_chunks__ self = Ok ().
Proof.
  intros H1 H2 H3. rewrite validate_by_count.
  destruct (Nat.eqb_spec (count_type (PNG.chunks self) (b"IHDR")) 0); [lia|].
  destruct (Nat.eqb_spec (count_type (PNG.chunks self) (b"IDAT")) 0); [lia|].
  destruct (Nat.eqb_spec (count_type (PNG.chunks self) (b"IEND")) 0); [lia|].
  reflexivity.
Qed.

Lemma container_of_metadata (self : PNG.t) (meta_info : bytes) :
  metadata self = decode_header meta_info ->
  container_of (PNG.chunks self) meta_info = self.
Proof.
  destruct self. unfold metadata, decode_header, container_of. simpl.
  intros [= -> -> -> -> -> -> ->]. reflexivity.
Qed.

(** Parsing what a well-formed container exports gives the container with
    its checksums refreshed. *)
Lemma reparse_well_formed (self : PNG.t) :
  well_formed self ->
  PNG.export_image self
  = Ok (PNG.set_chunks self (refreshed <$> PNG.chunks self),
        _PNG_HEADER ++ concat (encoded <$> PNG.chunks self))
  /\ PNG.__init__ (_PNG_HEADER ++ concat (encoded <$> PNG.chunks self))
     = Ok (PNG.set_chunks self (refreshed <$> PNG.chunks self)).
Proof.
  intros (Hsized & Hknown & (h & Hh & Hmeta) & Hplte & Hidat & Hiend
          & (front & last & Hlast & Htl & Hdl) & Hc0 & Hc4).
  assert (Hihdr : count_type (PNG.chunks self) (b"IHDR") = 1%nat)
    by (unfold count_type; rewrite Hh; reflexivity).
  split; [apply export_image_Ok, validate_counts; lia|].
  set (cs' := refreshed <$> PNG.chunks self).
  assert (Hrec : concat (encoded <$> PNG.chunks self) = concat (stored_record <$> cs')).
  { unfold cs'. rewrite <- list_fmap_compose. reflexivity. }
  assert (Hcount : forall ty, count_type cs' ty = count_type (PNG.chunks self) ty).
  { intros ty. apply count_type_fmap. reflexivity. }
  rewrite (init_after_walk _ cs' (refreshed h)).
  - rewrite validate_counts
      by (cbn [container_of PNG.chunks]; rewrite Hcount; lia).
    cbn [mbind result_bind].
    change (Chunk.data (refreshed h)) with (Chunk.data h).
    assert (Hself : container_of cs' (Chunk.data h)
                    = PNG.set_chunks self cs').
    { rewrite <- (container_of_metadata (PNG.set_chunks self cs') (Chunk.data h)).
      - reflexivity.
      - exact Hmeta. }
    rewrite Hself. cbn [PNG.set_chunks PNG.color_type].
    destruct (Z.eqb_spec (PNG.color_type self) 0); [contradiction|].
    destruct (Z.eqb_spec (PNG.color_type self) 4); [contradiction|].
    reflexivity.
  - eexists. reflexivity.
  - rewrite Hlast, fmap_app, concat_app. simpl.
    unfold encoded at 2. rewrite Htl, Hdl. unfold checksum. rewrite Htl, Hdl.
    exists (_PNG_HEADER ++ concat (encoded <$> front) ++ Chunk.size last).
    rewrite app_nil_r, <- !app_assoc. reflexivity.
  - unfold PNG.__split_chunks__. cbv zeta. rewrite Hrec.
    rewrite split_loop_records_back; [reflexivity| | |].
    + unfold cs'. apply Forall_fmap. eapply Forall_impl; [exact Hsized|].
      intros c Hc. apply whole_refreshed, Hc.
    + unfold cs'. apply Forall_fmap. exact Hknown.
    + apply once_only_accepted. intros ty Hty. simpl. rewrite Hcount.
      repeat (apply elem_of_cons in Hty as [->|Hty]; [lia|]).
      apply elem_of_nil in Hty. contradiction.
  - unfold cs'. rewrite matching_chunks_fmap by reflexivity.
    rewrite Hh. reflexivity.
Qed.

Lemma well_formed_refreshed (self : PNG.t) :
  well_formed self ->
  well_formed (PNG.set_chunks self (refreshed <$> PNG.chunks self)).
Proof.
  intros (Hsized & Hknown & (h & Hh & Hmeta) & Hplte & Hidat & Hiend
          & (front & last & Hlast & Htl & Hdl) & Hc0 & Hc4).
  unfold well_formed. cbn [PNG.set_chunks PNG.chunks PNG.color_type].
  rewrite !count_type_fmap by reflexivity.
  split; [apply Forall_fmap; exact Hsized|].
  split; [apply Forall_fmap; exact Hknown|].
  split.
  { exists (refreshed h). split; [|exact Hmeta].
    rewrite matching_chunks_fmap by reflexivity. rewrite Hh. reflexivity. }
  split; [exact Hplte|]. split; [exact Hidat|]. split; [exact Hiend|].
  split; [|split; assumption].
  exists (refreshed <$> front), (refreshed last).
  split; [rewrite Hlast, fmap_app; reflexivity|]. split; assumption.
Qed.

End ReparseContainer.

(** X8.  For a well-formed container (whole chunks of known types, one
    IHDR that the metadata were read from, at most one PLTE, some IDAT, one
    IEND that is empty and last, colour type neither 0 nor 4),
    [export_image] succeeds and [PNG(...)] of the exported buffer succeeds
    and gives the same container, checksums refreshed: the same chunks in
    the same order and the same metadata. *)
Theorem reparse_exported (self : PNG.t) :
  well_formed self ->
  exists self' out,
    PNG.export_image self = Ok (self', out)
    /\ PNG.__init__ out = Ok self'
    /\ PNG.chunks self' = refreshed <$> PNG.chunks self
    /\ metadata self' = metadata self
    /\ well_formed self'.
Proof.
  intros Hwf. destruct (reparse_well_formed self Hwf) as [Hex Hparse].
  eexists _, _. split; [exact Hex|]. split; [exact Hparse|].
  split; [reflexivity|]. split; [reflexivity|].
  apply well_formed_refreshed, Hwf.
Qed.

Lemma well_formed_minimal : well_formed minimal_container.
Proof.
  unfold well_formed.
  split; [repeat constructor; vm_compute; reflexivity|].
  split; [repeat constructor; apply known_type_iff; reflexivity|].
  split; [eexists; split; vm_compute; reflexivity|].
  split; [vm_compute; lia|]. split; [vm_compute; lia|].
  split; [vm_compute; reflexivity|].
  split; [|split; vm_compute; discriminate].
  exists (take 2 (PNG.chunks minimal_container)),
         {| Chunk.size := [x00; x00; x00; x00]; Chunk.type := b"IEND";
            Chunk.data := []; Chunk.crc32 := [xae; x42; x60; x82] |}.
  repeat split.
Qed.

Lemma reparse_exported_witness :
  exists self' out,
    PNG.export_image minimal_container = Ok (self', out)
    /\ PNG.__init__ out = Ok self'.
Proof.
  destruct (reparse_exported minimal_container well_formed_minimal)
    as (self' & out & Hex & Hparse & _).
  exists self', out. split; [exact Hex|exact Hparse].
Defined.

(** X9.  The container of a successful parse whose last chunk is an empty
    IEND chunk with a 4-byte checksum field is well-formed, so that
    exporting it and parsing the result gives it back, whatever the
    checksums in the parsed buffer were. *)
Theorem parsed_well_formed (buf : bytes) (png : PNG.t) (front : list Chunk.t)
    (last : Chunk.t) :
  PNG.__init__ buf = Ok png ->
  PNG.chunks png = front ++ [last] ->
  Chunk.type last = b"IEND" -> Chunk.data last = [] ->
  length (Chunk.crc32 last) = 4%nat ->
  well_formed png
  /\ exists png' out,
       PNG.export_image png = Ok (png', out) /\ PNG.__init__ out = Ok png'.
Proof.
  intros Hparse Hlast Hty Hdata Hcrc.
  assert (Hwf : well_formed png).
  { destruct (init_Ok_inv _ _ Hparse)
      as (_ & _ & Hsplit & (h & Hget & Hmeta) & Hval & Hc0 & Hc4).
    destruct (split_chunks_types _ _ Hsplit) as [Hknown Honce].
    destruct (split_chunks_whole _ _ Hsplit) as [Hall Hfront].
    apply count_type_by_arity in Hget.
    rewrite validate_by_count in Hval.
    destruct (Nat.eqb_spec (count_type (PNG.chunks png) (b"IHDR")) 0); [discriminate|].
    destruct (Nat.eqb_spec (count_type (PNG.chunks png) (b"IDAT")) 0); [discriminate|].
    destruct (Nat.eqb_spec (count_type (PNG.chunks png) (b"IEND")) 0); [discriminate|].
    pose proof (Honce (b"IEND") ltac:(apply list_elem_of_In; simpl; tauto)).
    pose proof (Honce (b"PLTE") ltac:(apply list_elem_of_In; simpl; tauto)).
    unfold well_formed.
    split.
    { rewrite Hlast. apply Forall_app. split.
      - eapply Forall_impl; [apply (Hfront front last Hlast)|].
        intros c [Hc _]. exact Hc.
      - constructor; [|constructor].
        rewrite Hlast in Hall. apply Forall_app in Hall as [_ Hl].
        apply Forall_cons in Hl as [Hl _]. apply Hl, Hcrc. }
    split; [exact Hknown|].
    split; [exists h; split; [exact Hget|exact Hmeta]|].
    split; [assumption|]. split; [lia|]. split; [lia|].
    split; [exists front, last; repeat split; assumption|].
    split; assumption. }
  split; [exact Hwf|].
  destruct (reparse_well_formed png Hwf) as [Hex Hre].
  eexists _, _. split; [exact Hex|exact Hre].
Qed.

Lemma parsed_well_formed_witness :
  exists png png' out,
    PNG.__init__ stale_crc_png = Ok png
    /\ PNG.export_image png = Ok (png', out) /\ PNG.__init__ out = Ok png'.
Proof.
  pose (png := container_of
                 [ {| Chunk.size := [x00; x00; x00; x0d]; Chunk.type := b"IHDR";
                      Chunk.data := [x00; x00; x00; x01; x00; x00; x00; x01;
                                     x08; x02; x00; x00; x00];
                      Chunk.crc32 := [x00; x00; x00; x00] |};
                   {| Chunk.size := [x00; x00; x00; x00]; Chunk.type := b"IDAT";
                      Chunk.data := []; Chunk.crc32 := [x35; xaf; x06; x1e] |};
                   {| Chunk.size := [x00; x00; x00; x00]; Chunk.type := b"IEND";
                      Chunk.data := []; Chunk.crc32 := [xae; x42; x60; x82] |} ]
                 [x00; x00; x00; x01; x00; x00; x00; x01; x08; x02; x00; x00; x00]).
  assert (Hparse : PNG.__init__ stale_crc_png = Ok png) by (vm_compute; reflexivity).
  destruct (parsed_well_formed stale_crc_png png
              (take 2 (PNG.chunks png))
              {| Chunk.size := [x00; x00; x00; x00]; Chunk.type := b"IEND";
                 Chunk.data := []; Chunk.crc32 := [xae; x42; x60; x82] |}
              Hparse)
    as (_ & png' & out & Hex & Hre); try reflexivity.
  exists png, png', out. split; [exact Hparse|]. split; [exact Hex|exact Hre].
Defined.

(** ** More on patching payload bytes *)

Section SetValueMore.

Lemma position_in_range (n i : Z) :
  - n <= i < n ->
  exists k, Py.position n i = Ok k /\ Z.of_nat k < n.
Proof.
  intros Hi. unfold Py.position.
  destruct (Z.ltb_spec i 0).
  - destruct (Z.leb_spec 0 (i + n)), (Z.ltb_spec (i + n) n); try lia.
    exists (Z.to_nat (i + n)). split; [reflexivity|lia].
  - destruct (Z.leb_spec 0 i), (Z.ltb_spec i n); try lia.
    exists (Z.to_nat i). split; [reflexivity|lia].
Qed.

Lemma position_out_of_range (n i : Z) :
  i < - n \/ n <= i -> Py.position n i = Raise IndexError.
Proof.
  intros Hi. unfold Py.position.
  destruct (Z.ltb_spec i 0).
  - destruct (Z.leb_spec 0 (i + n)), (Z.ltb_spec (i + n) n); try lia; reflexivity.
  - destruct (Z.leb_spec 0 i), (Z.ltb_spec i n); try lia; reflexivity.
Qed.

Lemma getitem_in_range {A} (l : list A) (i : Z) :
  - Py.len l <= i < Py.len l -> exists a, Py.getitem l i = Ok a.
Proof.
  intros Hi. destruct (position_in_range _ _ Hi) as (k & Hk & Hlt).
  unfold Py.getitem. rewrite Hk. cbn [mbind result_bind].
  destruct (l !! k) as [a|] eqn:E; [exists a; reflexivity|].
  apply lookup_ge_None in E. unfold Py.len in Hlt. lia.
Qed.

(** What a successful call did. *)
Lemma set_value_at_index_Ok_inv self chunk_index index new_value num_bytes self' :
  PNG.set_value_at_index self chunk_index index new_value num_bytes = Ok self' ->
  exists k chunk value,
    Py.position (Py.len (PNG.chunks self)) chunk_index = Ok k
    /\ PNG.chunks self !! k = Some chunk
    /\ Py.to_bytes new_value num_bytes = Ok value
    /\ self' = PNG.set_chunks self
                 (<[k := Chunk.set_data chunk
                           (Py.slice (Chunk.data chunk) None (Some index)
                            ++ value
                            ++ Py.slice (Chunk.data chunk)
                                        (Some (index + num_bytes)) None)]>
                    (PNG.chunks self)).
Proof.
  unfold PNG.set_value_at_index. intros H.
  destruct (Py.getitem (PNG.chunks self) chunk_index) as [chunk|e] eqn:Hget;
    [|discriminate].
  cbn [mbind result_bind] in H.
  destruct (Py.to_bytes new_value num_bytes) as [value|e] eqn:Hto; [|discriminate].
  cbn [mbind result_bind] in H.
  destruct (getitem_Ok_inv _ _ _ Hget) as (k & Hpos & Hk).
  unfold Py.setitem in H. rewrite Hpos in H. cbn [mbind result_bind] in H.
  injection H as <-. exists k, chunk, value. repeat split; assumption.
Qed.

Lemma matching_positions_types (cs1 cs2 : list Chunk.t) (ty : bytes) :
  Chunk.type <$> cs1 = Chunk.type <$> cs2 ->
  matching_positions cs1 ty = matching_positions cs2 ty.
Proof.
  intros Htypes. unfold matching_positions.
  assert (Hlen : length cs1 = length cs2).
  { rewrite <- (length_fmap Chunk.type cs1), Htypes. apply length_fmap. }
  rewrite Hlen. apply filter_agree. intros i _.
  rewrite <- !list_lookup_fmap, Htypes. reflexivity.
Qed.

Lemma count_type_positions (cs : list Chunk.t) (ty : bytes) :
  count_type cs ty = length (matching_positions cs ty).
Proof.
  unfold count_type. symmetry. eapply Forall2_length, positions_chunks.
Qed.

Lemma validate_types (self1 self2 : PNG.t) :
  Chunk.type <$> PNG.chunks self1 = Chunk.type <$> PNG.chunks self2 ->
  PNG.__validate_chunks__ self1 = PNG.__validate_chunks__ self2.
Proof.
  intros Htypes. rewrite !validate_by_count, !count_type_positions.
  rewrite !(matching_positions_types _ _ _ Htypes). reflexivity.
Qed.

End SetValueMore.

(** X10.  [set_value_at_index] raises [IndexError] when the chunk index is
    outside [-len(chunks) .. len(chunks) - 1]; with an index in that range
    it raises [ValueError] for a negative width and [OverflowError] for a
    value that is negative or does not fit the width; and otherwise it
    succeeds, whatever the offset. *)
Theorem set_value_at_index_errors
    (self : PNG.t) (chunk_index index new_value num_bytes : Z) :
  (chunk_index < - Py.len (PNG.chunks self) \/ Py.len (PNG.chunks self) <= chunk_index ->
   PNG.set_value_at_index self chunk_index index new_value num_bytes = Raise IndexError)
  /\ (- Py.len (PNG.chunks self) <= chunk_index < Py.len (PNG.chunks self) ->
      (num_bytes < 0 ->
       PNG.set_value_at_index self chunk_index index new_value num_bytes
       = Raise ValueError)
      /\ (0 <= num_bytes -> new_value < 0 \/ 256 ^ num_bytes <= new_value ->
          PNG.set_value_at_index self chunk_index index new_value num_bytes
          = Raise OverflowError)
      /\ (0 <= num_bytes -> 0 <= new_value < 256 ^ num_bytes ->
          exists self',
            PNG.set_value_at_index self chunk_index index new_value num_bytes
            = Ok self')).
Proof.
  split.
  - intros Hout. unfold PNG.set_value_at_index, Py.getitem.
    rewrite position_out_of_range by exact Hout. reflexivity.
  - intros Hin. destruct (getitem_in_range _ _ Hin) as [chunk Hget].
    split; [|split].
    + intros Hneg. unfold PNG.set_value_at_index. rewrite Hget.
      cbn [mbind result_bind]. unfold Py.to_bytes.
      destruct (Z.ltb_spec num_bytes 0); [reflexivity|lia].
    + intros Hw Hv. unfold PNG.set_value_at_index. rewrite Hget.
      cbn [mbind result_bind]. unfold Py.to_bytes.
      destruct (Z.ltb_spec num_bytes 0); [lia|].
      destruct (Z.ltb_spec new_value 0); [reflexivity|].
      destruct (Z.leb_spec (256 ^ num_bytes) new_value); [reflexivity|lia].
    + intros Hw Hv.
      destruct (set_value_at_index_Ok self chunk_index index new_value num_bytes
                  chunk Hget Hv) as (k & _ & _ & _ & _ & Hset).
      eexists. exact Hset.
Qed.

Lemma set_value_at_index_errors_witness :
  PNG.set_value_at_index minimal_container 3 0 0 1 = Raise IndexError
  /\ PNG.set_value_at_index minimal_container (-1) 0 256 1 = Raise OverflowError.
Proof.
  split.
  - apply (proj1 (set_value_at_index_errors minimal_container 3 0 0 1)).
    right. vm_compute. discriminate.
  - apply (proj2 (set_value_at_index_errors minimal_container (-1) 0 256 1)).
    + change (Py.len (PNG.chunks minimal_container)) with 3. lia.
    + lia.
    + right. vm_compute. discriminate.
Defined.

(** X11.  A successful [set_value_at_index] changes no chunk type and no
    metadata field: for every type the lookup finds chunks at the same
    positions as before, and [__validate_chunks__] gives the same outcome
    as before. *)
Theorem set_value_at_index_keeps_types
    (self self' : PNG.t) (chunk_index index new_value num_bytes : Z) :
  PNG.set_value_at_index self chunk_index index new_value num_bytes = Ok self' ->
  Chunk.type <$> PNG.chunks self' = Chunk.type <$> PNG.chunks self
  /\ (forall ty, fst (PNG.get_chunk_by_type (PNG.chunks self') ty true)
                 = fst (PNG.get_chunk_by_type (PNG.chunks self) ty true))
  /\ (forall ty, count_type (PNG.chunks self') ty = count_type (PNG.chunks self) ty)
  /\ PNG.__validate_chunks__ self' = PNG.__validate_chunks__ self
  /\ metadata self' = metadata self.
Proof.
  intros Hset.
  apply set_value_at_index_Ok_inv in Hset as (k & chunk & value & _ & Hk & _ & ->).
  assert (Htypes : Chunk.type <$> PNG.chunks
                     (PNG.set_chunks self
                        (<[k := Chunk.set_data chunk
                                  (Py.slice (Chunk.data chunk) None (Some index)
                                   ++ value
                                   ++ Py.slice (Chunk.data chunk)
                                               (Some (index + num_bytes)) None)]>
                           (PNG.chunks self)))
                   = Chunk.type <$> PNG.chunks self).
  { cbn [PNG.set_chunks PNG.chunks]. rewrite list_fmap_insert.
    apply list_insert_id. rewrite list_lookup_fmap, Hk. reflexivity. }
  split; [exact Htypes|]. split; [|split; [|split]].
  - intros ty. rewrite !get_chunk_by_type_indices. cbn [fst].
    rewrite (matching_positions_types _ _ _ Htypes). reflexivity.
  - intros ty. rewrite !count_type_positions.
    rewrite (matching_positions_types _ _ _ Htypes). reflexivity.
  - apply validate_types, Htypes.
  - reflexivity.
Qed.

Lemma set_value_at_index_keeps_types_witness :
  exists self',
    PNG.set_value_at_index minimal_container 0 12 2571 2 = Ok self'
    /\ PNG.__validate_chunks__ self' = PNG.__validate_chunks__ minimal_container.
Proof.
  eexists. split; [vm_compute; reflexivity|].
  eapply (proj1 (proj2 (proj2 (proj2
            (set_value_at_index_keeps_types minimal_container _ 0 12 2571 2 _))))).
  Unshelve. vm_compute. reflexivity.
Defined.

Section ReadBack.

Lemma splice_inside (d enc : bytes) (index num_bytes : Z) :
  0 <= index -> 0 <= num_bytes -> index + num_bytes <= Py.len d ->
  length enc = Z.to_nat num_bytes ->
  Py.slice (Py.slice d None (Some index) ++ enc
            ++ Py.slice d (Some (index + num_bytes)) None)
           (Some index) (Some (index + num_bytes))
  = enc.
Proof.
  intros Hi Hw Hfit Hlen. unfold Py.len in Hfit.
  rewrite slice_to, slice_from, slice_between by lia.
  rewrite drop_app_length' by (rewrite length_take; lia).
  apply take_app_length'. lia.
Qed.

Lemma splice_same (d : bytes) (index num_bytes : Z) :
  0 <= index -> 0 <= num_bytes -> index + num_bytes <= Py.len d ->
  Py.slice d None (Some index)
  ++ Py.slice d (Some index) (Some (index + num_bytes))
  ++ Py.slice d (Some (index + num_bytes)) None
  = d.
Proof.
  intros Hi Hw Hfit. unfold Py.len in Hfit.
  rewrite slice_to, slice_from, slice_between by lia.
  replace (Z.to_nat (index + num_bytes))
    with (Z.to_nat index + Z.to_nat (index + num_bytes - index))%nat by lia.
  rewrite <- drop_drop, take_drop. apply take_drop.
Qed.

End ReadBack.

(** X12.  With the window inside the payload ([0 <= index],
    [0 <= num_bytes], [index + num_bytes <= len(payload)]): the value
    written by [set_value_at_index] is the value [int.from_bytes] reads back
    from the window afterwards; and writing the value that the window
    already holds leaves the container exactly as it was. *)
Theorem set_value_at_index_read_back
    (self : PNG.t) (chunk_index index new_value num_bytes : Z) (chunk : Chunk.t) :
  Py.getitem (PNG.chunks self) chunk_index = Ok chunk ->
  0 <= index -> 0 <= num_bytes ->
  index + num_bytes <= Py.len (Chunk.data chunk) ->
  (0 <= new_value < 256 ^ num_bytes ->
   exists self' chunk',
     PNG.set_value_at_index self chunk_index index new_value num_bytes = Ok self'
     /\ Py.getitem (PNG.chunks self') chunk_index = Ok chunk'
     /\ Py.from_bytes (Py.slice (Chunk.data chunk') (Some index)
                                (Some (index + num_bytes)))
        = new_value)
  /\ PNG.set_value_at_index self chunk_index index
       (Py.from_bytes (Py.slice (Chunk.data chunk) (Some index)
                                (Some (index + num_bytes))))
       num_bytes
     = Ok self.
Proof.
  intros Hget Hi Hw Hfit. split.
  - intros Hv.
    destruct (set_value_at_index_Ok self chunk_index index new_value num_bytes
                chunk Hget Hv) as (k & Hpos & Hk & _ & _ & Hset).
    eexists _, _. split; [exact Hset|].
    cbn [PNG.set_chunks PNG.chunks]. split.
    + unfold Py.getitem, Py.len. rewrite length_insert.
      fold (Py.len (PNG.chunks self)). rewrite Hpos. cbn [mbind result_bind].
      rewrite list_lookup_insert_eq by (eapply lookup_lt_Some, Hk). reflexivity.
    + cbn [Chunk.set_data Chunk.data].
      rewrite splice_inside by (try apply length_be_digits; lia).
      rewrite from_bytes_be_digits by lia.
      rewrite Z2Nat.id by lia. apply Z.mod_small, Hv.
  - set (window := Py.slice (Chunk.data chunk) (Some index) (Some (index + num_bytes))).
    assert (Hlen : length window = Z.to_nat num_bytes).
    { unfold window. rewrite length_slice_between by lia. f_equal. lia. }
    pose proof (from_bytes_range window) as Hr.
    rewrite Hlen, Z2Nat.id in Hr by lia.
    destruct (set_value_at_index_Ok self chunk_index index (Py.from_bytes window)
                num_bytes chunk Hget Hr) as (k & Hpos & Hk & _ & _ & Hset).
    rewrite Hset. f_equal.
    rewrite <- Hlen, be_digits_from_bytes. unfold window.
    rewrite splice_same by lia.
    replace (Chunk.set_data chunk (Chunk.data chunk)) with chunk
      by (destruct chunk; reflexivity).
    rewrite list_insert_id by exact Hk. destruct self. reflexivity.
Qed.

Lemma set_value_at_index_read_back_witness :
  PNG.set_value_at_index minimal_container 0 0 1 4 = Ok minimal_container.
Proof.
  refine (proj2 (set_value_at_index_read_back minimal_container 0 0 1 4
                   {| Chunk.size := [x00; x00; x00; x0d]; Chunk.type := b"IHDR";
                      Chunk.data := [x00; x00; x00; x01; x00; x00; x00; x01;
                                     x08; x02; x00; x00; x00];
                      Chunk.crc32 := [x90; x77; x53; xde] |} _ _ _ _)).
  - reflexivity.
  - lia.
  - lia.
  - vm_compute. discriminate.
Defined.

(** ** Patch, export, parse *)

Section PatchReparse.

Lemma matching_chunks_insert_ne (cs : list Chunk.t) (k : nat) (c c' : Chunk.t) ty :
  cs !! k = Some c -> Chunk.type c <> ty -> Chunk.type c' = Chunk.type c ->
  matching_chunks (<[k := c']> cs) ty = matching_chunks cs ty.
Proof.
  intros Hk Hne Hty.
  rewrite insert_take_drop by (eapply lookup_lt_Some, Hk).
  rewrite <- (take_drop_middle cs k c Hk) at 3.
  unfold matching_chunks. rewrite !filter_app, !filter_cons.
  rewrite !decide_False by congruence. reflexivity.
Qed.

(** A patch inside the payload of a chunk other than IHDR keeps a
    container well-formed. *)
Lemma well_formed_patched (self : PNG.t) (k : nat) (chunk : Chunk.t)
    (index num_bytes new_value : Z) :
  well_formed self ->
  PNG.chunks self !! k = Some chunk ->
  Chunk.type chunk <> b"IHDR" ->
  0 <= index -> 0 <= num_bytes -> index + num_bytes <= Py.len (Chunk.data chunk) ->
  well_formed
    (PNG.set_chunks self
       (<[k := Chunk.set_data chunk
                 (Py.slice (Chunk.data chunk) None (Some index)
                  ++ Py.be_digits (Z.to_nat num_bytes) new_value
                  ++ Py.slice (Chunk.data chunk) (Some (index + num_bytes)) None)]>
          (PNG.chunks self))).
Proof.
  intros (Hsized & Hknown & (h & Hh & Hmeta) & Hplte & Hidat & Hiend
          & (front & last & Hlast & Htl & Hdl) & Hc0 & Hc4)
         Hk Hne Hi Hw Hfit.
  set (d' := Py.slice (Chunk.data chunk) None (Some index)
             ++ Py.be_digits (Z.to_nat num_bytes) new_value
             ++ Py.slice (Chunk.data chunk) (Some (index + num_bytes)) None).
  assert (Hlen : length d' = length (Chunk.data chunk)).
  { unfold d'. rewrite slice_to, slice_from by lia.
    rewrite !length_app, length_take, length_be_digits, length_drop.
    unfold Py.len in Hfit. lia. }
  set (c' := Chunk.set_data chunk d').
  assert (Htypes : Chunk.type <$> <[k := c']> (PNG.chunks self)
                   = Chunk.type <$> PNG.chunks self).
  { rewrite list_fmap_insert. apply list_insert_id.
    rewrite list_lookup_fmap, Hk. reflexivity. }
  assert (Hcount : forall ty, count_type (<[k := c']> (PNG.chunks self)) ty
                              = count_type (PNG.chunks self) ty).
  { intros ty. rewrite !count_type_positions.
    rewrite (matching_positions_types _ _ _ Htypes). reflexivity. }
  unfold well_formed. cbn [PNG.set_chunks PNG.chunks PNG.color_type].
  rewrite !Hcount.
  split.
  { apply Forall_insert; [exact Hsized|].
    pose proof (proj1 (Forall_lookup _ _) Hsized k chunk Hk) as [Hsz Hty].
    split; [|exact Hty]. cbn [c' Chunk.set_data Chunk.data Chunk.size].
    unfold Py.len in *. rewrite Hlen. exact Hsz. }
  split.
  { apply Forall_insert; [exact Hknown|].
    apply (proj1 (Forall_lookup _ _) Hknown k chunk Hk). }
  split.
  { exists h. split; [|exact Hmeta].
    rewrite (matching_chunks_insert_ne _ k chunk c') by (assumption || reflexivity).
    exact Hh. }
  split; [exact Hplte|]. split; [exact Hidat|]. split; [exact Hiend|].
  split; [|split; assumption].
  rewrite Hlast in Hk |- *.
  destruct (decide (k < length front)%nat) as [Hlt|Hge].
  - exists (<[k := c']> front), last.
    split; [apply insert_app_l, Hlt|]. split; assumption.
  - pose proof (lookup_lt_Some _ _ _ Hk) as Hklen.
    rewrite length_app in Hklen. simpl in Hklen.
    assert (k = length front) as -> by lia.
    rewrite list_lookup_middle in Hk by reflexivity. injection Hk as <-.
    exists front, c'. split; [|split].
    + rewrite insert_app_r_alt by lia. rewrite Nat.sub_diag. reflexivity.
    + exact Htl.
    + cbn [c' Chunk.set_data Chunk.data].
      rewrite Hdl in Hlen. destruct d'; [reflexivity|discriminate Hlen].
Qed.

End PatchReparse.

(** X13.  Patching bytes inside the payload of a chunk other than IHDR of a
    well-formed container, exporting, and parsing the exported buffer
    succeeds; in the container parsed, the chunk at the same index has the
    same type, reads back the new value from the window, and has a stored
    checksum that is the CRC-32 of its type and payload; the metadata are
    those of the container patched. *)
Theorem patch_export_reparse
    (self : PNG.t) (chunk_index index new_value num_bytes : Z) (chunk : Chunk.t) :
  well_formed self ->
  Py.getitem (PNG.chunks self) chunk_index = Ok chunk ->
  Chunk.type chunk <> b"IHDR" ->
  0 <= index ->
  index + num_bytes <= Py.len (Chunk.data chunk) ->
  0 <= new_value < 256 ^ num_bytes ->
  exists patched exported out chunk',
    PNG.set_value_at_index self chunk_index index new_value num_bytes = Ok patched
    /\ PNG.export_image patched = Ok (exported, out)
    /\ PNG.__init__ out = Ok exported
    /\ Py.getitem (PNG.chunks exported) chunk_index = Ok chunk'
    /\ Chunk.type chunk' = Chunk.type chunk
    /\ Py.from_bytes (Py.slice (Chunk.data chunk') (Some index)
                               (Some (index + num_bytes)))
       = new_value
    /\ checksum_valid chunk'
    /\ metadata exported = metadata self.
Proof.
  intros Hwf Hget Hne Hi Hfit Hv.
  destruct (set_value_at_index_Ok self chunk_index index new_value num_bytes
              chunk Hget Hv) as (k & Hpos & Hk & Hw & _ & Hset).
  pose proof (well_formed_patched self k chunk index num_bytes new_value
                Hwf Hk Hne Hi Hw Hfit) as Hwf'.
  destruct (reparse_well_formed _ Hwf') as [Hex Hparse].
  eexists _, _, _, _. split; [exact Hset|]. split; [exact Hex|].
  split; [exact Hparse|].
  cbn [PNG.set_chunks PNG.chunks]. split; [|split; [|split; [|split]]].
  - unfold Py.getitem, Py.len. rewrite length_fmap, length_insert.
    fold (Py.len (PNG.chunks self)). rewrite Hpos. cbn [mbind result_bind].
    rewrite list_lookup_fmap.
    rewrite list_lookup_insert_eq by (eapply lookup_lt_Some, Hk). reflexivity.
  - reflexivity.
  - cbn [refreshed Chunk.set_crc32 Chunk.set_data Chunk.data].
    rewrite splice_inside by (try apply length_be_digits; lia).
    rewrite from_bytes_be_digits by lia.
    rewrite Z2Nat.id by lia. apply Z.mod_small, Hv.
  - apply checksum_valid_iff. reflexivity.
  - reflexivity.
Qed.

Lemma well_formed_two_colour : well_formed two_colour_container.
Proof.
  unfold well_formed.
  split; [repeat constructor; vm_compute; reflexivity|].
  split; [repeat constructor; apply known_type_iff; reflexivity|].
  split; [eexists; split; vm_compute; reflexivity|].
  split; [vm_compute; lia|]. split; [vm_compute; lia|].
  split; [vm_compute; reflexivity|].
  split; [|split; vm_compute; discriminate].
  exists (take 3 (PNG.chunks two_colour_container)),
         {| Chunk.size := [x00; x00; x00; x00]; Chunk.type := b"IEND";
            Chunk.data := []; Chunk.crc32 := [xae; x42; x60; x82] |}.
  repeat split.
Qed.

Lemma patch_export_reparse_witness :
  exists patched exported out chunk',
    PNG.set_value_at_index two_colour_container 1 3 0xABCD 2 = Ok patched
    /\ PNG.export_image patched = Ok (exported, out)
    /\ PNG.__init__ out = Ok exported
    /\ Py.getitem (PNG.chunks exported) 1 = Ok chunk'
    /\ Py.from_bytes (Py.slice (Chunk.data chunk') (Some 3) (Some 5)) = 0xABCD
    /\ checksum_valid chunk'.
Proof.
  destruct (patch_export_reparse two_colour_container 1 3 0xABCD 2
              {| Chunk.size := [x00; x00; x00; x06]; Chunk.type := b"PLTE";
                 Chunk.data := [x10; x20; x30; x40; xf8; x60];
                 Chunk.crc32 := [x76; x16; xeb; xdc] |}
              well_formed_two_colour)
    as (patched & exported & out & chunk' & Hset & Hex & Hparse & Hget & _
        & Hval & Hcrc & _).
  - reflexivity.
  - vm_compute. discriminate.
  - lia.
  - vm_compute. discriminate.
  - vm_compute. split; [discriminate|reflexivity].
  - exists patched, exported, out, chunk'.
    split; [exact Hset|]. split; [exact Hex|]. split; [exact Hparse|].
    split; [exact Hget|]. split; [exact Hval|exact Hcrc].
Defined.

(** ** test_main *)

Section TestMain.

Lemma position_nat (n : Z) (k : nat) :
  Z.of_nat k < n -> Py.position n (Z.of_nat k) = Ok k.
Proof.
  intros Hk. unfold Py.position.
  destruct (Z.ltb_spec (Z.of_nat k) 0); [lia|].
  destruct (Z.leb_spec 0 (Z.of_nat k)), (Z.ltb_spec (Z.of_nat k) n); try lia.
  rewrite Nat2Z.id. reflexivity.
Qed.

Lemma getitem_nat {A} (l : list A) (k : nat) (a : A) :
  l !! k = Some a -> Py.getitem l (Z.of_nat k) = Ok a.
Proof.
  intros Hk. unfold Py.getitem.
  rewrite position_nat
    by (apply lookup_lt_Some in Hk; unfold Py.len; lia).
  cbn [mbind result_bind]. rewrite Hk. reflexivity.
Qed.

Lemma setitem_nat {A} (l : list A) (k : nat) (v : A) :
  (k < length l)%nat -> Py.setitem l (Z.of_nat k) v = Ok (<[k := v]> l).
Proof.
  intros Hk. unfold Py.setitem.
  rewrite position_nat by (unfold Py.len; lia). reflexivity.
Qed.

Lemma raised_value (x : byte) :
  Py.byte_to_Z x <> 255 ->
  Py.to_bytes (if 18 + Py.byte_to_Z x <? 255 then 18 + Py.byte_to_Z x else 255) 1
  = Ok [raised x]
  /\ Py.byte_to_Z x
     < (if 18 + Py.byte_to_Z x <? 255 then 18 + Py.byte_to_Z x else 255).
Proof.
  intros Hx. pose proof (byte_to_Z_range x) as Hr.
  assert (Hmin : (if 18 + Py.byte_to_Z x <? 255 then 18 + Py.byte_to_Z x else 255)
                 = Z.min 255 (Py.byte_to_Z x + 18)).
  { destruct (Z.ltb_spec (18 + Py.byte_to_Z x) 255); lia. }
  rewrite Hmin. split; [|lia].
  rewrite to_bytes_Ok by (change (256 ^ 1) with 256; lia).
  unfold raised. change (Z.to_nat 1) with 1%nat. cbn [Py.be_digits app].
  rewrite Z.mod_small by lia. reflexivity.
Qed.

Lemma raised_255 (x : byte) : Py.byte_to_Z x = 255 -> raised x = x.
Proof.
  intros Hx. unfold raised. rewrite Hx. change (Z.min 255 (255 + 18)) with 255.
  rewrite <- Hx. apply byte_of_to_Z.
Qed.

(** One turn of the loop on the palette chunk at position [k]: the byte at
    [j] is raised, nothing else changes. *)
Lemma brighten_step (st : PNG.t) (k j : nat) (c : Chunk.t) (x : byte) :
  PNG.chunks st !! k = Some c ->
  Chunk.data c !! j = Some x ->
  brighten (Single (Z.of_nat k)) st (Z.of_nat j)
  = Returned (PNG.set_chunks st
                (<[k := Chunk.set_data c (<[j := raised x]> (Chunk.data c))]>
                   (PNG.chunks st))).
Proof.
  intros Hk Hj. unfold brighten, chunk_by, set_data_by.
  rewrite (getitem_nat _ _ _ Hk). cbn [lift mbind outcome_bind].
  rewrite (getitem_nat _ _ _ Hj). cbn [lift mbind outcome_bind]. cbv zeta.
  destruct (Z.eqb_spec (Py.byte_to_Z x) 255) as [H255|Hne].
  - rewrite raised_255 by exact H255.
    rewrite (list_insert_id (Chunk.data c)) by exact Hj.
    replace (Chunk.set_data c (Chunk.data c)) with c by (destruct c; reflexivity).
    rewrite list_insert_id by exact Hk. destruct st; reflexivity.
  - destruct (raised_value x Hne) as [Hto Hlt]. rewrite Hto.
    cbn [lift mbind outcome_bind].
    rewrite setitem_nat by (eapply lookup_lt_Some, Hk).
    cbn [lift mbind outcome_bind].
    destruct (Z.ltb_spec (Py.byte_to_Z x)
                (if 18 + Py.byte_to_Z x <? 255 then 18 + Py.byte_to_Z x else 255));
      [|lia].
    do 3 f_equal.
    rewrite slice_to, slice_from by lia.
    rewrite insert_take_drop by (eapply lookup_lt_Some, Hj).
    rewrite Nat2Z.id.
    replace (Z.to_nat (Z.of_nat j + 1)) with (S j) by lia. reflexivity.
Qed.

Lemma for_each_app body st l1 l2 :
  for_each body st (l1 ++ l2)
  = (st' ← for_each body st l1; for_each body st' l2).
Proof.
  revert st. induction l1 as [|i l1 IH]; intros st; [reflexivity|].
  simpl. destruct (body st i); try reflexivity. apply IH.
Qed.

Lemma raised_upto_lookup (bound : nat) (d : bytes) (i : nat) :
  raised_upto bound d !! i
  = (fun x => if decide ((i < bound)%nat /\ (i mod 3 = 1)%nat) then raised x else x)
      <$> d !! i.
Proof. unfold raised_upto. apply list_lookup_imap. Qed.

Lemma raised_upto_step (cnt : nat) (d : bytes) (x : byte) :
  d !! (1 + 3 * cnt)%nat = Some x ->
  <[(1 + 3 * cnt)%nat := raised x]> (raised_upto (3 * cnt) d)
  = raised_upto (3 * (cnt + 1)) d.
Proof.
  intros Hx. apply list_eq. intros i.
  assert (Hlen : length (raised_upto (3 * cnt) d) = length d)
    by (unfold raised_upto; apply length_imap).
  destruct (decide (i = 1 + 3 * cnt)%nat) as [->|Hne].
  - rewrite list_lookup_insert_eq
      by (rewrite Hlen; eapply lookup_lt_Some, Hx).
    rewrite raised_upto_lookup, Hx. cbn [fmap option_fmap option_map].
    rewrite decide_True; [reflexivity|].
    split; [lia|].
    replace (1 + 3 * cnt)%nat with (1 + cnt * 3)%nat by lia.
    rewrite Nat.Div0.mod_add. reflexivity.
  - rewrite list_lookup_insert_ne by congruence.
    rewrite !raised_upto_lookup. destruct (d !! i) as [y|]; [|reflexivity].
    cbn [fmap option_fmap option_map]. f_equal.
    destruct (decide ((i < 3 * cnt)%nat /\ (i mod 3 = 1)%nat)) as [[H1 H2]|Hn1].
    + rewrite decide_True by (split; [lia|exact H2]). reflexivity.
    + rewrite decide_False; [reflexivity|].
      intros [H1 H2]. apply Hn1. split; [|exact H2].
      destruct (decide (i < 3 * cnt)%nat); [assumption|].
      exfalso. apply Hne.
      pose proof (Nat.div_mod_eq i 3). lia.
Qed.

(** The loop over the first [cnt] indices 1, 4, 7, ... raises the bytes at
    those positions of the palette payload. *)
Lemma for_each_brighten (st : PNG.t) (k : nat) (p : Chunk.t) (cnt : nat) :
  PNG.chunks st !! k = Some p ->
  (3 * cnt <= length (Chunk.data p) + 1)%nat ->
  for_each (brighten (Single (Z.of_nat k))) st
           (map (fun t => 1 + 3 * Z.of_nat t) (seq 0 cnt))
  = Returned (PNG.set_chunks st
                (<[k := Chunk.set_data p (raised_upto (3 * cnt) (Chunk.data p))]>
                   (PNG.chunks st))).
Proof.
  intros Hk. induction cnt as [|cnt IH]; intros Hfit.
  - cbn [seq map for_each]. change (3 * 0)%nat with 0%nat. f_equal.
    assert (Hid : raised_upto 0 (Chunk.data p) = Chunk.data p).
    { apply list_eq. intros i. rewrite raised_upto_lookup.
      destruct (Chunk.data p !! i); [|reflexivity].
      cbn [fmap option_fmap option_map].
      rewrite decide_False by lia. reflexivity. }
    rewrite Hid.
    replace (Chunk.set_data p (Chunk.data p)) with p by (destruct p; reflexivity).
    rewrite list_insert_id by exact Hk. destruct st; reflexivity.
  - rewrite seq_S, map_app, for_each_app, IH by lia.
    cbn [mbind outcome_bind map for_each Nat.add].
    assert (Hj : exists x, Chunk.data p !! (1 + 3 * cnt)%nat = Some x).
    { apply lookup_lt_is_Some. lia. }
    destruct Hj as [x Hx].
    replace (1 + 3 * Z.of_nat cnt) with (Z.of_nat (1 + 3 * cnt)) by lia.
    rewrite (brighten_step _ k (1 + 3 * cnt)
               (Chunk.set_data p (raised_upto (3 * cnt) (Chunk.data p))) x).
    + cbn [mbind outcome_bind PNG.set_chunks PNG.chunks Chunk.set_data Chunk.data].
      rewrite list_insert_insert_eq.
      rewrite raised_upto_step by exact Hx.
      replace (S cnt) with (cnt + 1)%nat by lia. reflexivity.
    + cbn [PNG.set_chunks PNG.chunks].
      apply list_lookup_insert_eq. eapply lookup_lt_Some, Hk.
    + cbn [Chunk.set_data Chunk.data].
      rewrite raised_upto_lookup, Hx. cbn [fmap option_fmap option_map].
      rewrite decide_False by lia. reflexivity.
Qed.

Lemma raised_upto_all (cnt : nat) (d : bytes) :
  (length d + 1 < 3 * cnt + 3)%nat ->
  raised_upto (3 * cnt) d = greens_raised d.
Proof.
  intros Hcnt. unfold greens_raised. apply list_eq. intros i.
  rewrite !raised_upto_lookup.
  destruct (d !! i) as [x|] eqn:Hi; [|reflexivity].
  cbn [fmap option_fmap option_map]. f_equal.
  apply lookup_lt_Some in Hi.
  destruct (decide ((i < 3 * cnt)%nat /\ (i mod 3 = 1)%nat)) as [[H1 H2]|Hn].
  - rewrite decide_True by (split; [lia|exact H2]). reflexivity.
  - rewrite decide_False; [reflexivity|]. intros [_ H2]. apply Hn.
    split; [|exact H2]. pose proof (Nat.div_mod_eq i 3). lia.
Qed.

Lemma range_1_3 (n : Z) :
  0 <= n ->
  range 1 n 3
  = Ok (map (fun t => 1 + 3 * Z.of_nat t) (seq 0 (Z.to_nat ((n + 1) / 3)))).
Proof.
  intros Hn. unfold range. simpl.
  replace (n - 1 + 3 - 1) with (n + 1) by lia. reflexivity.
Qed.

End TestMain.

Section TestMainOutcome.

Lemma lift_benign {A} (r : result A) :
  (exists a, lift r = Returned a) \/ (exists e, lift r = Raised e).
Proof. destruct r; [left|right]; eexists; reflexivity. Qed.

(** With an int for palette index, a turn of the loop returns or raises one
    of the exceptions of [exn]: the assertion holds whenever it is
    reached. *)
Lemma brighten_benign (i : Z) (st : PNG.t) (j : Z) :
  (exists st', brighten (Single i) st j = Returned st')
  \/ (exists e, brighten (Single i) st j = Raised e).
Proof.
  unfold brighten, chunk_by, set_data_by.
  destruct (Py.getitem (PNG.chunks st) i) as [c|e];
    [|right; eexists; reflexivity].
  cbn [lift mbind outcome_bind].
  destruct (Py.getitem (Chunk.data c) j) as [x|e];
    [|right; eexists; reflexivity].
  cbn [lift mbind outcome_bind]. cbv zeta.
  destruct (Z.eqb_spec (Py.byte_to_Z x) 255) as [|Hne];
    [left; eexists; reflexivity|].
  destruct (raised_value x Hne) as [Hto Hlt]. rewrite Hto.
  cbn [lift mbind outcome_bind].
  destruct (Py.setitem (PNG.chunks st) i _) as [cs'|e];
    [|right; eexists; reflexivity].
  cbn [lift mbind outcome_bind].
  destruct (Z.ltb_spec (Py.byte_to_Z x)
              (if 18 + Py.byte_to_Z x <? 255 then 18 + Py.byte_to_Z x else 255));
    [|lia].
  left. eexists. reflexivity.
Qed.

Lemma for_each_benign (i : Z) (st : PNG.t) (indices : list Z) :
  (exists st', for_each (brighten (Single i)) st indices = Returned st')
  \/ (exists e, for_each (brighten (Single i)) st indices = Raised e).
Proof.
  revert st. induction indices as [|j indices IH]; intros st.
  - left. eexists. reflexivity.
  - cbn [for_each].
    destruct (brighten_benign i st j) as [[st' ->]|[e ->]].
    + cbn [mbind outcome_bind]. apply IH.
    + right. eexists. reflexivity.
Qed.

Lemma single_palette (cs : list Chunk.t) (p : Chunk.t) :
  matching_chunks cs (b"PLTE") = [p] ->
  exists k, cs !! k = Some p
            /\ PNG.get_chunk_by_type cs (b"PLTE") true
               = (Single (Z.of_nat k), Single p).
Proof.
  intros Hp. pose proof (positions_chunks cs (b"PLTE")) as Hpos.
  rewrite get_chunk_by_type_indices. rewrite Hp in *.
  destruct (matching_positions cs (b"PLTE")) as [|k [|k' l]].
  - apply Forall2_length in Hpos. discriminate Hpos.
  - apply Forall2_cons in Hpos as [Hk _]. exists k. split; [exact Hk|reflexivity].
  - apply Forall2_length in Hpos. discriminate Hpos.
Qed.

End TestMainOutcome.

(** X14.  On a file that parses with a PLTE chunk whose size field is the
    length of its payload, [test_main] writes the export of the parsed
    container in which every palette byte at a position 1, 4, 7, ... (the
    green values) is raised by 18, 255 at most, and every other byte of
    every chunk is as parsed. *)
Theorem test_main_raises_greens (data : bytes) (png : PNG.t) (p : Chunk.t) :
  PNG.__init__ data = Ok png ->
  matching_chunks (PNG.chunks png) (b"PLTE") = [p] ->
  Chunk.int_size p = Py.len (Chunk.data p) ->
  exists k png' out,
    PNG.chunks png !! k = Some p
    /\ test_main data = Returned out
    /\ PNG.export_image
         (PNG.set_chunks png
            (<[k := Chunk.set_data p (greens_raised (Chunk.data p))]>
               (PNG.chunks png)))
       = Ok (png', out).
Proof.
  intros Hparse Hp Hsize.
  destruct (single_palette _ _ Hp) as (k & Hk & Hget).
  destruct (init_Ok_inv _ _ Hparse) as (_ & _ & _ & _ & Hval & _).
  set (patched := PNG.set_chunks png
                    (<[k := Chunk.set_data p (greens_raised (Chunk.data p))]>
                       (PNG.chunks png))).
  assert (Hval' : PNG.__validate_chunks__ patched = Ok ()).
  { rewrite <- Hval. apply validate_types. unfold patched.
    cbn [PNG.set_chunks PNG.chunks]. rewrite list_fmap_insert.
    apply list_insert_id. rewrite list_lookup_fmap, Hk. reflexivity. }
  exists k. eexists _, _. split; [exact Hk|].
  split; [|apply export_image_Ok, Hval'].
  unfold test_main. rewrite Hparse. cbn [lift mbind outcome_bind].
  rewrite Hget. cbn [attr_size lift mbind outcome_bind].
  fold (Chunk.int_size p). rewrite Hsize.
  rewrite range_1_3 by (unfold Py.len; lia).
  cbn [lift mbind outcome_bind].
  assert (Hcnt : (3 * Z.to_nat ((Py.len (Chunk.data p) + 1) / 3)
                  <= length (Chunk.data p) + 1)%nat
                 /\ (length (Chunk.data p) + 1
                     < 3 * Z.to_nat ((Py.len (Chunk.data p) + 1) / 3) + 3)%nat).
  { unfold Py.len.
    pose proof (Z.div_mod (Z.of_nat (length (Chunk.data p)) + 1) 3 ltac:(lia)).
    pose proof (Z.mod_pos_bound (Z.of_nat (length (Chunk.data p)) + 1) 3 ltac:(lia)).
    lia. }
  destruct Hcnt as [Hle Hlt].
  rewrite (for_each_brighten png k p _ Hk Hle).
  rewrite (raised_upto_all _ _ Hlt).
  cbn [mbind outcome_bind]. fold patched.
  rewrite (export_image_Ok patched Hval'). reflexivity.
Qed.

Lemma test_main_raises_greens_witness :
  exists png' out,
    test_main two_colour_png = Returned out
    /\ PNG.export_image
         (PNG.set_chunks two_colour_container
            (<[1%nat := {| Chunk.size := [x00; x00; x00; x06]; Chunk.type := b"PLTE";
                           Chunk.data := [x10; x32; x30; x40; xff; x60];
                           Chunk.crc32 := [x76; x16; xeb; xdc] |}]>
               (PNG.chunks two_colour_container)))
       = Ok (png', out).
Proof.
  destruct (test_main_raises_greens two_colour_png two_colour_container
              {| Chunk.size := [x00; x00; x00; x06]; Chunk.type := b"PLTE";
                 Chunk.data := [x10; x20; x30; x40; xf8; x60];
                 Chunk.crc32 := [x76; x16; xeb; xdc] |})
    as (k & png' & out & Hk & Hmain & Hex).
  - vm_compute. reflexivity.
  - vm_compute. reflexivity.
  - vm_compute. reflexivity.
  - exists png', out. split; [exact Hmain|].
    destruct k as [|[|k]]; [discriminate Hk| |].
    + exact Hex.
    + vm_compute in Hk. destruct k as [|[|k]]; discriminate Hk.
Defined.

(** X15.  [test_main] ends in the exception of the constructor when the
    file does not parse, and in [AttributeError] (from [palette_chunk.size]
    on [None]) when it parses and has no PLTE chunk. *)
Theorem test_main_failures (data : bytes) :
  (forall e, PNG.__init__ data = Raise e -> test_main data = Raised e)
  /\ (forall png, PNG.__init__ data = Ok png ->
                  count_type (PNG.chunks png) (b"PLTE") = 0%nat ->
                  test_main data = Raised AttributeError).
Proof.
  split.
  - intros e He. unfold test_main. rewrite He. reflexivity.
  - intros png Hparse Hnone. unfold test_main. rewrite Hparse.
    cbn [lift mbind outcome_bind]. rewrite get_chunk_by_type_indices.
    unfold count_type in Hnone.
    destruct (matching_chunks (PNG.chunks png) (b"PLTE")); [|discriminate Hnone].
    reflexivity.
Qed.

Lemma test_main_failures_witness :
  test_main minimal_png = Raised AttributeError.
Proof.
  apply (proj2 (test_main_failures minimal_png) minimal_container).
  - vm_compute. reflexivity.
  - vm_compute. reflexivity.
Defined.

(** X16.  Whatever the file, [test_main] never ends in the
    [AssertionError] of its [assert], nor in a [TypeError]: it returns the
    bytes to write or raises one of the exceptions of the PNG class and the
    built-ins it uses. *)
Theorem test_main_never_asserts (data : bytes) :
  test_main data <> AssertionError /\ test_main data <> TypeError.
Proof.
  assert (H : (exists out, test_main data = Returned out)
              \/ (exists e, test_main data = Raised e)).
  { unfold test_main.
    destruct (PNG.__init__ data) as [png|e]; [|right; eexists; reflexivity].
    cbn [lift mbind outcome_bind]. rewrite get_chunk_by_type_indices.
    pose proof (positions_chunks (PNG.chunks png) (b"PLTE")) as Hpos.
    apply Forall2_length in Hpos.
    destruct (matching_chunks (PNG.chunks png) (b"PLTE")) as [|p [|p' ps]];
      destruct (matching_positions (PNG.chunks png) (b"PLTE")) as [|k [|k' ks]];
      try discriminate Hpos;
      try (right; eexists; reflexivity).
    cbn [by_arity fmap list_fmap attr_size lift mbind outcome_bind].
    destruct (range 1 (Py.from_bytes (Chunk.size p)) 3) as [indices|e];
      [|right; eexists; reflexivity].
    cbn [lift mbind outcome_bind].
    destruct (for_each_benign (Z.of_nat k) png indices) as [[st ->]|[e ->]];
      [|right; eexists; reflexivity].
    cbn [mbind outcome_bind].
    destruct (PNG.export_image st) as [[st' out]|e];
      [left|right]; eexists; reflexivity. }
  destruct H as [[out ->]|[e ->]]; split; discriminate.
Qed.

(** ** Checksums at parse time *)

(** X17.  Parsing never looks at a stored checksum.  For a well-formed
    container whose chunks hold any 4 bytes as checksum, the buffer made of
    the signature and the stored fields of the chunks parses to exactly that
    container, as long as the last chunk (the empty IEND) holds ae 42 60 82,
    which is what the terminator test of line 34 compares. *)
Theorem parse_ignores_checksums (self : PNG.t) :
  well_formed self ->
  Forall (fun c => length (Chunk.crc32 c) = 4%nat) (PNG.chunks self) ->
  (exists front last, PNG.chunks self = front ++ [last]
                      /\ Chunk.crc32 last = [xae; x42; x60; x82]) ->
  PNG.__init__ (_PNG_HEADER ++ concat (stored_record <$> PNG.chunks self)) = Ok self.
Proof.
  intros (Hsized & Hknown & (h & Hh & Hmeta) & Hplte & Hidat & Hiend
          & (front & last & Hlast & Htl & Hdl) & Hc0 & Hc4)
         Hcrc (front' & last' & Hlast' & Hcrcl).
  rewrite Hlast in Hlast'. apply app_inj_tail in Hlast' as [<- <-].
  assert (Hihdr : count_type (PNG.chunks self) (b"IHDR") = 1%nat)
    by (unfold count_type; rewrite Hh; reflexivity).
  rewrite (init_after_walk _ (PNG.chunks self) h).
  - rewrite (container_of_metadata self (Chunk.data h) Hmeta).
    rewrite validate_counts by lia. cbn [mbind result_bind].
    destruct (Z.eqb_spec (PNG.color_type self) 0); [contradiction|].
    destruct (Z.eqb_spec (PNG.color_type self) 4); [contradiction|].
    reflexivity.
  - eexists. reflexivity.
  - rewrite Hlast, fmap_app, concat_app. simpl.
    unfold stored_record at 2. rewrite Htl, Hdl, Hcrcl.
    exists (_PNG_HEADER ++ concat (stored_record <$> front) ++ Chunk.size last).
    rewrite app_nil_r, <- !app_assoc. reflexivity.
  - unfold PNG.__split_chunks__. cbv zeta.
    rewrite split_loop_records_back; [reflexivity| | |].
    + apply Forall_forall. intros c Hc. split.
      * apply (proj1 (Forall_forall _ _) Hsized c Hc).
      * apply (proj1 (Forall_forall _ _) Hcrc c Hc).
    + exact Hknown.
    + apply once_only_accepted. intros ty Hty. simpl.
      repeat (apply elem_of_cons in Hty as [->|Hty]; [lia|]).
      apply elem_of_nil in Hty. contradiction.
  - exact Hh.
Qed.

Lemma parse_ignores_checksums_witness :
  PNG.__init__ (_PNG_HEADER ++ concat (stored_record <$> PNG.chunks stale_crc_container))
  = Ok stale_crc_container.
Proof.
  apply (parse_ignores_checksums stale_crc_container).
  - unfold well_formed.
    split; [repeat constructor; vm_compute; reflexivity|].
    split; [repeat constructor; apply known_type_iff; reflexivity|].
    split; [eexists; split; vm_compute; reflexivity|].
    split; [vm_compute; lia|]. split; [vm_compute; lia|].
    split; [vm_compute; reflexivity|].
    split; [|split; vm_compute; discriminate].
    exists (take 2 (PNG.chunks stale_crc_container)),
           {| Chunk.size := [x00; x00; x00; x00]; Chunk.type := b"IEND";
              Chunk.data := []; Chunk.crc32 := [xae; x42; x60; x82] |}.
    repeat split.
  - repeat constructor.
  - exists (take 2 (PNG.chunks stale_crc_container)),
           {| Chunk.size := [x00; x00; x00; x00]; Chunk.type := b"IEND";
              Chunk.data := []; Chunk.crc32 := [xae; x42; x60; x82] |}.
    split; reflexivity.
Defined.
